(** * client-observer-js: entry monitors and detectors

    A shallow embedding of the entry monitors
    ([IceTransportMonitor], [IceCandidateMonitor], [OutboundTrackMonitor])
    and of the detectors ([AudioDesyncDetector], [CongestionDetector],
    [LongPcConnectionEstablishmentDetector]), followed by the properties
    the specification states about them.

    Conventions.  A method that mutates [this] becomes a function from the
    object before the call to the object after it; a method that also
    emits events returns the emitted events next to the new state;
    [Date.now()] is an argument. *)

From Stdlib Require Import ZArith QArith Lqa Lia List String Bool Permutation.
Import ListNotations.

Open Scope Q_scope.

(* ================================================================== *)
(** ** JavaScript values *)
(* ================================================================== *)

Module Js.

(** A JavaScript [number].  Counters, timestamps and rates are finite in
    every record the monitors receive; they are modelled by exact
    rationals, so [NaN], the infinities and rounding are outside the
    model. *)
Definition number := Q.

(** [a < b] and [a <= b] on numbers. *)
Definition leb (a b : number) : bool := Qle_bool a b.
Definition ltb (a b : number) : bool := negb (Qle_bool b a).

(** Truthiness of a [number | undefined]: [undefined] and [0] are falsy. *)
Definition truthy (o : option number) : bool :=
  match o with
  | Some n => negb (Qeq_bool n 0)
  | None => false
  end.

(** The condition [a && b] on two [number | undefined] operands, together
    with the two numbers when it holds. *)
Definition both (a b : option number) : option (number * number) :=
  match a, b with
  | Some x, Some y => if truthy a && truthy b then Some (x, y) else None
  | _, _ => None
  end.

(** [a ?? d]. *)
Definition nullish {A : Type} (a : option A) (d : A) : A :=
  match a with Some x => x | None => d end.

(** An optional property [k?: A | undefined] of an object handed to
    [Object.assign]: the object may lack the key, hold it with the value
    [undefined], or hold it with a value. *)
Inductive prop (A : Type) : Type :=
| Missing
| Undefined
| Value (a : A).
Arguments Missing {A}.
Arguments Undefined {A}.
Arguments Value {A} a.

(** Reading the property: [o.k]. *)
Definition read {A : Type} (p : prop A) : option A :=
  match p with
  | Value a => Some a
  | _ => None
  end.

(** The effect of [Object.assign(target, source)] on one property of the
    target: every own property of the source is copied, also one whose
    value is [undefined]; a key the source lacks leaves the target's
    property as it was. *)
Definition assign {A : Type} (target : option A) (source : prop A) : option A :=
  match source with
  | Missing => target
  | Undefined => None
  | Value a => Some a
  end.

(** [Record<string, unknown>]: the payload is never inspected. *)
Definition record := list (string * string).

(** A property written in an object literal, [{ k: v }], from the value
    [v : A | undefined]: the key is always there. *)
Definition written {A : Type} (v : option A) : prop A :=
  match v with
  | Some a => Value a
  | None => Undefined
  end.

(** The same property with a lacking key read as [undefined]. *)
Definition explicit {A : Type} (p : prop A) : prop A := written (read p).

End Js.

Import Js.

(* ================================================================== *)
(** ** monitors/IceTransportMonitor.ts *)
(* ================================================================== *)

(** [IceTransportStats] of the schema, as [accept] receives it
    ([Omit<IceTransportStats, 'appData'>]): the fields are those the
    monitor declares and [createSample] returns. *)
Module IceTransportStats.

Record t : Type := {
  timestamp : number;
  id : string;
  packetsSent : prop number;
  packetsReceived : prop number;
  bytesSent : prop number;
  bytesReceived : prop number;
  iceRole : prop string;
  iceLocalUsernameFragment : prop string;
  dtlsState : prop string;
  iceState : prop string;
  selectedCandidatePairId : prop string;
  localCertificateId : prop string;
  remoteCertificateId : prop string;
  tlsVersion : prop string;
  dtlsCipher : prop string;
  dtlsRole : prop string;
  srtpCipher : prop string;
  selectedCandidatePairChanges : prop number;
  attachments : prop record
}.

(** The record with every optional key spelled out. *)
Definition explicit (stats : t) : t :=
  {| timestamp := timestamp stats;
     id := id stats;
     packetsSent := Js.explicit (packetsSent stats);
     packetsReceived := Js.explicit (packetsReceived stats);
     bytesSent := Js.explicit (bytesSent stats);
     bytesReceived := Js.explicit (bytesReceived stats);
     iceRole := Js.explicit (iceRole stats);
     iceLocalUsernameFragment := Js.explicit (iceLocalUsernameFragment stats);
     dtlsState := Js.explicit (dtlsState stats);
     iceState := Js.explicit (iceState stats);
     selectedCandidatePairId := Js.explicit (selectedCandidatePairId stats);
     localCertificateId := Js.explicit (localCertificateId stats);
     remoteCertificateId := Js.explicit (remoteCertificateId stats);
     tlsVersion := Js.explicit (tlsVersion stats);
     dtlsCipher := Js.explicit (dtlsCipher stats);
     dtlsRole := Js.explicit (dtlsRole stats);
     srtpCipher := Js.explicit (srtpCipher stats);
     selectedCandidatePairChanges := Js.explicit (selectedCandidatePairChanges stats);
     attachments := Js.explicit (attachments stats) |}.

End IceTransportStats.

Module IceTransportMonitor.

Module S := IceTransportStats.

(** The fields of the class.  [_peerConnection] is a read-only reference
    to the owner and plays no part in [accept] or [visited]. *)
Record t : Type := {
  _visited : bool;
  timestamp : number;
  id : string;
  packetsSent : option number;
  packetsReceived : option number;
  bytesSent : option number;
  bytesReceived : option number;
  iceRole : option string;
  iceLocalUsernameFragment : option string;
  dtlsState : option string;
  iceState : option string;
  selectedCandidatePairId : option string;
  localCertificateId : option string;
  remoteCertificateId : option string;
  tlsVersion : option string;
  dtlsCipher : option string;
  dtlsRole : option string;
  srtpCipher : option string;
  selectedCandidatePairChanges : option number;
  deltaPacketsSent : option number;
  deltaPacketsReceived : option number;
  deltaBytesSent : option number;
  deltaBytesReceived : option number;
  sendingBitrate : option number;
  receivingBitrate : option number;
  attachments : option record;
  appData : option record
}.

(** [new IceTransportMonitor(_peerConnection, options)]: [_visited] starts
    [true], [id] and [timestamp] are set, and [Object.assign(this, options)]
    copies the rest; the derived fields are not assigned. *)
Definition constructor (options : S.t) (optionsAppData : prop record) : t :=
  {| _visited := true;
     timestamp := S.timestamp options;
     id := S.id options;
     packetsSent := assign None (S.packetsSent options);
     packetsReceived := assign None (S.packetsReceived options);
     bytesSent := assign None (S.bytesSent options);
     bytesReceived := assign None (S.bytesReceived options);
     iceRole := assign None (S.iceRole options);
     iceLocalUsernameFragment := assign None (S.iceLocalUsernameFragment options);
     dtlsState := assign None (S.dtlsState options);
     iceState := assign None (S.iceState options);
     selectedCandidatePairId := assign None (S.selectedCandidatePairId options);
     localCertificateId := assign None (S.localCertificateId options);
     remoteCertificateId := assign None (S.remoteCertificateId options);
     tlsVersion := assign None (S.tlsVersion options);
     dtlsCipher := assign None (S.dtlsCipher options);
     dtlsRole := assign None (S.dtlsRole options);
     srtpCipher := assign None (S.srtpCipher options);
     selectedCandidatePairChanges := assign None (S.selectedCandidatePairChanges options);
     deltaPacketsSent := None;
     deltaPacketsReceived := None;
     deltaBytesSent := None;
     deltaBytesReceived := None;
     sendingBitrate := None;
     receivingBitrate := None;
     attachments := assign None (S.attachments options);
     appData := assign None optionsAppData |}.

(** [this._visited = v]. *)
Definition set_visited (v : bool) (this : t) : t :=
  {| _visited := v;
     timestamp := timestamp this;
     id := id this;
     packetsSent := packetsSent this;
     packetsReceived := packetsReceived this;
     bytesSent := bytesSent this;
     bytesReceived := bytesReceived this;
     iceRole := iceRole this;
     iceLocalUsernameFragment := iceLocalUsernameFragment this;
     dtlsState := dtlsState this;
     iceState := iceState this;
     selectedCandidatePairId := selectedCandidatePairId this;
     localCertificateId := localCertificateId this;
     remoteCertificateId := remoteCertificateId this;
     tlsVersion := tlsVersion this;
     dtlsCipher := dtlsCipher this;
     dtlsRole := dtlsRole this;
     srtpCipher := srtpCipher this;
     selectedCandidatePairChanges := selectedCandidatePairChanges this;
     deltaPacketsSent := deltaPacketsSent this;
     deltaPacketsReceived := deltaPacketsReceived this;
     deltaBytesSent := deltaBytesSent this;
     deltaBytesReceived := deltaBytesReceived this;
     sendingBitrate := sendingBitrate this;
     receivingBitrate := receivingBitrate this;
     attachments := attachments this;
     appData := appData this |}.

(** [get visited()]: the value read, and the object after the read. *)
Definition visited (this : t) : bool * t :=
  let result := _visited this in
  (result, set_visited false this).

(** [accept(stats)].  Each [let] is one statement of the method; the final
    record is the object after [Object.assign(this, stats)]. *)
Definition accept (this : t) (stats : S.t) : t :=
  let this := set_visited true this in
  let elapsedInMs := S.timestamp stats - timestamp this in
  let elapsedInSec := elapsedInMs / 1000 in
  if leb elapsedInMs 0 then this
  else
    let deltaPacketsSent' :=
      match both (packetsSent this) (read (S.packetsSent stats)) with
      | Some (prev, next) => Some (next - prev)
      | None => deltaPacketsSent this
      end in
    let deltaPacketsReceived' :=
      match both (packetsReceived this) (read (S.packetsReceived stats)) with
      | Some (prev, next) => Some (next - prev)
      | None => deltaPacketsReceived this
      end in
    let '(deltaBytesSent', sendingBitrate') :=
      match both (bytesSent this) (read (S.bytesSent stats)) with
      | Some (prev, next) =>
          let d := next - prev in
          (Some d, Some ((d * 8) / elapsedInSec))
      | None => (deltaBytesSent this, sendingBitrate this)
      end in
    let '(deltaBytesReceived', receivingBitrate') :=
      match both (bytesReceived this) (read (S.bytesReceived stats)) with
      | Some (prev, next) =>
          let d := next - prev in
          (Some d, Some ((d * 8) / elapsedInSec))
      | None => (deltaBytesReceived this, receivingBitrate this)
      end in
    {| _visited := _visited this;
       timestamp := S.timestamp stats;
       id := S.id stats;
       packetsSent := assign (packetsSent this) (S.packetsSent stats);
       packetsReceived := assign (packetsReceived this) (S.packetsReceived stats);
       bytesSent := assign (bytesSent this) (S.bytesSent stats);
       bytesReceived := assign (bytesReceived this) (S.bytesReceived stats);
       iceRole := assign (iceRole this) (S.iceRole stats);
       iceLocalUsernameFragment :=
         assign (iceLocalUsernameFragment this) (S.iceLocalUsernameFragment stats);
       dtlsState := assign (dtlsState this) (S.dtlsState stats);
       iceState := assign (iceState this) (S.iceState stats);
       selectedCandidatePairId :=
         assign (selectedCandidatePairId this) (S.selectedCandidatePairId stats);
       localCertificateId := assign (localCertificateId this) (S.localCertificateId stats);
       remoteCertificateId := assign (remoteCertificateId this) (S.remoteCertificateId stats);
       tlsVersion := assign (tlsVersion this) (S.tlsVersion stats);
       dtlsCipher := assign (dtlsCipher this) (S.dtlsCipher stats);
       dtlsRole := assign (dtlsRole this) (S.dtlsRole stats);
       srtpCipher := assign (srtpCipher this) (S.srtpCipher stats);
       selectedCandidatePairChanges :=
         assign (selectedCandidatePairChanges this) (S.selectedCandidatePairChanges stats);
       deltaPacketsSent := deltaPacketsSent';
       deltaPacketsReceived := deltaPacketsReceived';
       deltaBytesSent := deltaBytesSent';
       deltaBytesReceived := deltaBytesReceived';
       sendingBitrate := sendingBitrate';
       receivingBitrate := receivingBitrate';
       attachments := assign (attachments this) (S.attachments stats);
       appData := appData this |}.

(** A sequence of [accept] calls on one monitor. *)
Definition accept_all (this : t) (l : list S.t) : t := fold_left accept l this.

(** [elapsedInMs] as [accept] computes it. *)
Definition elapsedInMs (this : t) (stats : S.t) : number :=
  S.timestamp stats - timestamp this.

(** [createSample()]: an object literal with the fields of the schema,
    [appData] and the derived fields left out. *)
Definition createSample (this : t) : S.t :=
  {| S.timestamp := timestamp this;
     S.id := id this;
     S.packetsSent := written (packetsSent this);
     S.packetsReceived := written (packetsReceived this);
     S.bytesSent := written (bytesSent this);
     S.bytesReceived := written (bytesReceived this);
     S.iceRole := written (iceRole this);
     S.iceLocalUsernameFragment := written (iceLocalUsernameFragment this);
     S.dtlsState := written (dtlsState this);
     S.iceState := written (iceState this);
     S.selectedCandidatePairId := written (selectedCandidatePairId this);
     S.localCertificateId := written (localCertificateId this);
     S.remoteCertificateId := written (remoteCertificateId this);
     S.tlsVersion := written (tlsVersion this);
     S.dtlsCipher := written (dtlsCipher this);
     S.dtlsRole := written (dtlsRole this);
     S.srtpCipher := written (srtpCipher this);
     S.selectedCandidatePairChanges := written (selectedCandidatePairChanges this);
     S.attachments := written (attachments this) |}.

(** [getSelectedCandidatePair()]: the lookup of [selectedCandidatePairId ?? '']
    in the pair map of the owning peer connection, here an association
    list from pair ids. *)
Definition getSelectedCandidatePair {Pair : Type}
    (mappedIceCandidatePairMonitors : list (string * Pair)) (this : t)
  : option Pair :=
  let key := nullish (selectedCandidatePairId this) ""%string in
  match find (fun e => String.eqb (fst e) key) mappedIceCandidatePairMonitors with
  | Some e => Some (snd e)
  | None => None
  end.

End IceTransportMonitor.

(* ================================================================== *)
(** ** monitors/IceCandidateMonitor.ts *)
(* ================================================================== *)

Module IceCandidateStats.

Record t : Type := {
  timestamp : number;
  id : string;
  transportId : prop string;
  address : prop string;
  port : prop number;
  protocol : prop string;
  candidateType : prop string;
  priority : prop number;
  url : prop string;
  relayProtocol : prop string;
  foundation : prop string;
  relatedAddress : prop string;
  relatedPort : prop number;
  usernameFragment : prop string;
  tcpType : prop string
}.

(** The record with every optional key spelled out. *)
Definition explicit (stats : t) : t :=
  {| timestamp := timestamp stats;
     id := id stats;
     transportId := Js.explicit (transportId stats);
     address := Js.explicit (address stats);
     port := Js.explicit (port stats);
     protocol := Js.explicit (protocol stats);
     candidateType := Js.explicit (candidateType stats);
     priority := Js.explicit (priority stats);
     url := Js.explicit (url stats);
     relayProtocol := Js.explicit (relayProtocol stats);
     foundation := Js.explicit (foundation stats);
     relatedAddress := Js.explicit (relatedAddress stats);
     relatedPort := Js.explicit (relatedPort stats);
     usernameFragment := Js.explicit (usernameFragment stats);
     tcpType := Js.explicit (tcpType stats) |}.

(** A record none of whose optional keys carries a value. *)
Definition blank (ts : number) (i : string) : t :=
  {| timestamp := ts; id := i;
     transportId := Undefined; address := Undefined; port := Undefined;
     protocol := Undefined; candidateType := Undefined; priority := Undefined;
     url := Undefined; relayProtocol := Undefined; foundation := Undefined;
     relatedAddress := Undefined; relatedPort := Undefined;
     usernameFragment := Undefined; tcpType := Undefined |}.

End IceCandidateStats.

Module IceCandidateMonitor.

Module S := IceCandidateStats.

Record t : Type := {
  _visited : bool;
  timestamp : number;
  id : string;
  transportId : option string;
  address : option string;
  port : option number;
  protocol : option string;
  candidateType : option string;
  priority : option number;
  url : option string;
  relayProtocol : option string;
  foundation : option string;
  relatedAddress : option string;
  relatedPort : option number;
  usernameFragment : option string;
  tcpType : option string;
  appData : option record
}.

(** The constructor copies [id] and [timestamp] only. *)
Definition constructor (options : S.t) : t :=
  {| _visited := true;
     timestamp := S.timestamp options;
     id := S.id options;
     transportId := None; address := None; port := None; protocol := None;
     candidateType := None; priority := None; url := None;
     relayProtocol := None; foundation := None; relatedAddress := None;
     relatedPort := None; usernameFragment := None; tcpType := None;
     appData := None |}.

Definition set_visited (v : bool) (this : t) : t :=
  {| _visited := v;
     timestamp := timestamp this;
     id := id this;
     transportId := transportId this;
     address := address this;
     port := port this;
     protocol := protocol this;
     candidateType := candidateType this;
     priority := priority this;
     url := url this;
     relayProtocol := relayProtocol this;
     foundation := foundation this;
     relatedAddress := relatedAddress this;
     relatedPort := relatedPort this;
     usernameFragment := usernameFragment this;
     tcpType := tcpType this;
     appData := appData this |}.

Definition visited (this : t) : bool * t :=
  let result := _visited this in
  (result, set_visited false this).

Definition accept (this : t) (stats : S.t) : t :=
  let this := set_visited true this in
  let elapsedInMs := S.timestamp stats - timestamp this in
  if leb elapsedInMs 0 then this
  else
    {| _visited := _visited this;
       timestamp := S.timestamp stats;
       id := S.id stats;
       transportId := assign (transportId this) (S.transportId stats);
       address := assign (address this) (S.address stats);
       port := assign (port this) (S.port stats);
       protocol := assign (protocol this) (S.protocol stats);
       candidateType := assign (candidateType this) (S.candidateType stats);
       priority := assign (priority this) (S.priority stats);
       url := assign (url this) (S.url stats);
       relayProtocol := assign (relayProtocol this) (S.relayProtocol stats);
       foundation := assign (foundation this) (S.foundation stats);
       relatedAddress := assign (relatedAddress this) (S.relatedAddress stats);
       relatedPort := assign (relatedPort this) (S.relatedPort stats);
       usernameFragment := assign (usernameFragment this) (S.usernameFragment stats);
       tcpType := assign (tcpType this) (S.tcpType stats);
       appData := appData this |}.

(** A sequence of [accept] calls on one monitor. *)
Definition accept_all (this : t) (l : list S.t) : t := fold_left accept l this.

(** [createSample()]: the fields of the schema, and [appData] next to
    them. *)
Definition createSample (this : t) : S.t * prop record :=
  ({| S.timestamp := timestamp this;
      S.id := id this;
      S.transportId := written (transportId this);
      S.address := written (address this);
      S.port := written (port this);
      S.protocol := written (protocol this);
      S.candidateType := written (candidateType this);
      S.priority := written (priority this);
      S.url := written (url this);
      S.relayProtocol := written (relayProtocol this);
      S.foundation := written (foundation this);
      S.relatedAddress := written (relatedAddress this);
      S.relatedPort := written (relatedPort this);
      S.usernameFragment := written (usernameFragment this);
      S.tcpType := written (tcpType this) |},
   written (appData this)).

End IceCandidateMonitor.

(* ================================================================== *)
(** ** monitors/OutboundTrackMonitor.ts *)
(* ================================================================== *)

Module OutboundTrackMonitor.

(** What [update] reads of a remote-inbound RTP and of an outbound RTP
    monitor. *)
Record RemoteInboundRtp : Type := {
  ri_jitter : option number;
  ri_fractionLost : option number;
  ri_packetRate : option number
}.

Record OutboundRtp : Type := {
  rtp_bitrate : option number;
  rtp_packetRate : option number;
  getRemoteInboundRtp : option RemoteInboundRtp
}.

Record t : Type := {
  mappedOutboundRtp : list (number * OutboundRtp);
  bitrate : option number;
  jitter : option number;
  fractionLost : option number;
  sendingPacketRate : option number;
  remoteReceivedPacketRate : option number
}.

(** [x?.f ?? 0]. *)
Definition via {A : Type} (o : option A) (f : A -> option number) : number :=
  nullish (match o with Some x => f x | None => None end) 0.

(** The five accumulators after one iteration of the loop. *)
Definition add (acc : number * number * number * number * number)
               (entry : number * OutboundRtp)
  : number * number * number * number * number :=
  let '(b, j, f, s, r) := acc in
  let outboundRtp := snd entry in
  (b + nullish (rtp_bitrate outboundRtp) 0,
   j + via (getRemoteInboundRtp outboundRtp) ri_jitter,
   f + via (getRemoteInboundRtp outboundRtp) ri_fractionLost,
   s + nullish (rtp_packetRate outboundRtp) 0,
   r + via (getRemoteInboundRtp outboundRtp) ri_packetRate).

(** [update()], up to the call of [this.detectors.update()]. *)
Definition update (this : t) : t :=
  let '(b, j, f, s, r) :=
    fold_left add (mappedOutboundRtp this) (0, 0, 0, 0, 0) in
  {| mappedOutboundRtp := mappedOutboundRtp this;
     bitrate := Some b;
     jitter := Some j;
     fractionLost := Some f;
     sendingPacketRate := Some s;
     remoteReceivedPacketRate := Some r |}.

(** [getOutboundRtps()]. *)
Definition getOutboundRtps (this : t) : list OutboundRtp :=
  map snd (mappedOutboundRtp this).

(** One iteration of the loop of [getHighestLayer] on the pair
    [(highestLayer, highestBitrate)]. *)
Definition higher (acc : option OutboundRtp * number) (outboundRtp : OutboundRtp)
  : option OutboundRtp * number :=
  let '(highestLayer, highestBitrate) := acc in
  match rtp_bitrate outboundRtp with
  | Some bitrate =>
      if truthy (rtp_bitrate outboundRtp) && ltb highestBitrate bitrate
      then (Some outboundRtp, bitrate)
      else (highestLayer, highestBitrate)
  | None => (highestLayer, highestBitrate)
  end.

(** [getHighestLayer()]. *)
Definition getHighestLayer (this : t) : option OutboundRtp :=
  let outboundRtps := getOutboundRtps this in
  match outboundRtps with
  | [] => None
  | [only] => Some only
  | _ => fst (fold_left higher (getOutboundRtps this) (None, 0))
  end.

(** The sum of [f] over the layers. *)
Definition total (f : OutboundRtp -> number) (l : list (number * OutboundRtp))
  : number :=
  fold_right (fun e acc => f (snd e) + acc) 0 l.


(** What the loop of [getHighestLayer] has established after the layers
    [seen]. *)
Definition highestSoFar (seen : list OutboundRtp) (acc : option OutboundRtp * number)
  : Prop :=
  0 <= snd acc
  /\ (forall x b, In x seen -> rtp_bitrate x = Some b -> b <= snd acc)
  /\ match fst acc with
     | Some r => In r seen /\ rtp_bitrate r = Some (snd acc) /\ 0 < snd acc
     | None => snd acc = 0
     end.

End OutboundTrackMonitor.

(* ================================================================== *)
(** ** detectors/AudioDesyncDetector.ts *)
(* ================================================================== *)

Module AudioDesyncDetector.

(** What [update] reads and writes of the inbound RTP monitor the track
    resolves to.  [desync] is the alert state of the target; a flag that
    was never written reads as [false]. *)
Record InboundRtp : Type := {
  kind : string;
  insertedSamplesForDeceleration : option number;
  removedSamplesForAcceleration : option number;
  receivingAudioSamples : option number;
  desync : bool;
  trackIdentifier : option string;
  ssrc : number
}.

Definition set_desync (v : bool) (r : InboundRtp) : InboundRtp :=
  {| kind := kind r;
     insertedSamplesForDeceleration := insertedSamplesForDeceleration r;
     removedSamplesForAcceleration := removedSamplesForAcceleration r;
     receivingAudioSamples := receivingAudioSamples r;
     desync := v;
     trackIdentifier := trackIdentifier r;
     ssrc := ssrc r |}.

(** [config.audioDesyncDetector]. *)
Record Config : Type := {
  disabled : bool;
  fractionalCorrectionAlertOnThreshold : number;
  fractionalCorrectionAlertOffThreshold : number
}.

(** The private fields of the detector. *)
Record t : Type := {
  _startedDesyncAt : option number;
  _prevCorrectedSamples : number
}.

Definition constructor : t :=
  {| _startedDesyncAt := None; _prevCorrectedSamples := 0 |}.

Inductive Event : Type :=
| AddIssue (trackId : option string) (ssrc : number) (duration : option number)
| EmitAudioDesyncTrack.

(** [correctedSamples] and [dCorrectedSamples] as [update] computes them. *)
Definition correctedSamples (inboundRtp : InboundRtp) : number :=
  nullish (insertedSamplesForDeceleration inboundRtp) 0
  + nullish (removedSamplesForAcceleration inboundRtp) 0.

Definition dCorrectedSamples (this : t) (inboundRtp : InboundRtp) : number :=
  let correctedSamples := correctedSamples inboundRtp in
  correctedSamples - _prevCorrectedSamples this.

(** Following the specification, not the code: the corrected samples of an
    interval are what the total gained between two consecutive calls of
    [update], and the fractional correction of the interval is taken from
    that delta. *)
Definition correctedSamplesDelta (previous current : InboundRtp) : number :=
  correctedSamples current - correctedSamples previous.

Definition specFractionalCorrection (previous current : InboundRtp) : number :=
  let d := correctedSamplesDelta previous current in
  d / (d + nullish (receivingAudioSamples current) 0).

(** The interval is skipped: [update] returns before the fraction is
    computed. *)
Definition skipped (this : t) (inboundRtp : InboundRtp) : bool :=
  ltb (dCorrectedSamples this inboundRtp) 1
  || ltb (nullish (receivingAudioSamples inboundRtp) 0) 1.

Definition fractionalCorrection (this : t) (inboundRtp : InboundRtp) : number :=
  let d := dCorrectedSamples this inboundRtp in
  d / (d + nullish (receivingAudioSamples inboundRtp) 0).

(** [update()]: [getInboundRtp] is what [this.trackMonitor.getInboundRtp()]
    returns; the result holds the detector, that inbound RTP monitor after
    the call, and the issues and events emitted. *)
Definition update (now : number) (config : Config) (this : t)
                  (getInboundRtp : option InboundRtp)
  : t * option InboundRtp * list Event :=
  match getInboundRtp with
  | None => (this, getInboundRtp, [])
  | Some inboundRtp =>
      if negb (String.eqb (kind inboundRtp) "audio") then (this, getInboundRtp, [])
      else if disabled config then (this, getInboundRtp, [])
      else if skipped this inboundRtp then (this, getInboundRtp, [])
      else
        let fractionalCorrection := fractionalCorrection this inboundRtp in
        let wasDesync := desync inboundRtp in
        let inboundRtp :=
          if desync inboundRtp
          then set_desync
                 (ltb (fractionalCorrectionAlertOffThreshold config) fractionalCorrection)
                 inboundRtp
          else set_desync
                 (ltb (fractionalCorrectionAlertOnThreshold config) fractionalCorrection)
                 inboundRtp in
        if negb (desync inboundRtp) then
          if wasDesync then
            let duration :=
              if truthy (_startedDesyncAt this)
              then Some (now - nullish (_startedDesyncAt this) 0)
              else None in
            ({| _startedDesyncAt := None;
                _prevCorrectedSamples := _prevCorrectedSamples this |},
             Some inboundRtp,
             [AddIssue (trackIdentifier inboundRtp) (ssrc inboundRtp) duration])
          else (this, Some inboundRtp, [])
        else if wasDesync then (this, Some inboundRtp, [])
        else
          ({| _startedDesyncAt := Some now;
              _prevCorrectedSamples := _prevCorrectedSamples this |},
           Some inboundRtp,
           [EmitAudioDesyncTrack])
  end.

(** [inboundRtp.desync] after the call [update()]. *)
Definition desyncAfter (now : number) (config : Config) (this : t)
                       (inboundRtp : InboundRtp) : bool :=
  match update now config this (Some inboundRtp) with
  | (_, Some r, _) => desync r
  | (_, None, _) => desync inboundRtp
  end.

(** The events of the call [update()]. *)
Definition eventsOf (now : number) (config : Config) (this : t)
                    (inboundRtp : InboundRtp) : list Event :=
  snd (update now config this (Some inboundRtp)).

(** [update] returns before it touches the flag: the track has no audio
    stream, the detector is disabled, or the interval is skipped. *)
Definition returnsEarly (config : Config) (this : t) (inboundRtp : InboundRtp)
  : bool :=
  negb (String.eqb (kind inboundRtp) "audio")
  || disabled config
  || skipped this inboundRtp.

(** The two-threshold rule of [update] for the flag: kept on an early
    return; otherwise compared with the off threshold when it is set and
    with the on threshold when it is not. *)
Definition nextFlag (config : Config) (this : t) (r : InboundRtp) : bool :=
  if returnsEarly config this r then desync r
  else if desync r
       then ltb (fractionalCorrectionAlertOffThreshold config)
                (fractionalCorrection this r)
       else ltb (fractionalCorrectionAlertOnThreshold config)
                (fractionalCorrection this r).

(** One monitoring cycle as the detector sees it: the clock, the
    configuration, and the counters the ingestion wrote into the inbound
    RTP monitor.  The [desync] flag is not part of a cycle's input: it
    stays on the monitor from one [update] to the next. *)
Record Cycle : Type := {
  c_now : number;
  c_config : Config;
  c_inboundRtp : InboundRtp
}.

(** A run of [update] calls on one target, threading the detector and
    the target's [desync] flag; the events of all calls in order. *)
Fixpoint run (this : t) (flag : bool) (cycles : list Cycle)
  : t * bool * list Event :=
  match cycles with
  | [] => (this, flag, [])
  | c :: rest =>
      match update (c_now c) (c_config c) this
                   (Some (set_desync flag (c_inboundRtp c))) with
      | (this', Some r, evs) =>
          let '(this'', flag'', evs') := run this' (desync r) rest in
          (this'', flag'', evs ++ evs')
      | (this', None, evs) =>
          let '(this'', flag'', evs') := run this' flag rest in
          (this'', flag'', evs ++ evs')
      end
  end.

(** How many times a list of events holds the desync event, and how many
    issues. *)
Definition tracks (evs : list Event) : nat :=
  List.length (filter (fun e => match e with EmitAudioDesyncTrack => true
                                        | AddIssue _ _ _ => false end) evs).

Definition issues (evs : list Event) : nat :=
  List.length (filter (fun e => match e with AddIssue _ _ _ => true
                                        | EmitAudioDesyncTrack => false end) evs).

Definition flagValue (flag : bool) : nat := if flag then 1%nat else 0%nat.

End AudioDesyncDetector.

(* ================================================================== *)
(** ** detectors/LongPcConnectionEstablishment.ts *)
(* ================================================================== *)

Module LongPcConnectionEstablishmentDetector.

(** [RTCPeerConnectionState]. *)
Inductive ConnectionState : Type :=
| new | connecting | connected | disconnected | failed | closed.

Definition is_connecting (s : option ConnectionState) : bool :=
  match s with Some connecting => true | _ => false end.

Definition is_connected (s : option ConnectionState) : bool :=
  match s with Some connected => true | _ => false end.

(** What [update] reads of the peer connection monitor. *)
Record PeerConnection : Type := {
  peerConnectionId : string;
  connectionState : option ConnectionState;
  connectingStartedAt : option number
}.

(** [config.longPcConnectionEstablishmentDetector]. *)
Record Config : Type := {
  disabled : bool;
  thresholdInMs : number
}.

Record t : Type := { _evented : bool }.

Definition constructor : t := {| _evented := false |}.

Inductive Event : Type :=
| Emit (peerConnectionId : string)
| AddIssue (peerConnectionId : string) (connectingStartedAt : number)
           (duration : number).

Definition update (now : number) (config : Config)
                  (peerConnection : PeerConnection) (this : t)
  : t * list Event :=
  if disabled config then (this, [])
  else
    let this :=
      if negb (is_connecting (connectionState peerConnection)) then
        if _evented this && is_connected (connectionState peerConnection)
        then {| _evented := false |}
        else this
      else this in
    if _evented this then (this, [])
    else
      match connectingStartedAt peerConnection with
      | None => (this, [])
      | Some startedAt =>
          let duration := now - startedAt in
          if ltb duration (thresholdInMs config) then (this, [])
          else
            ({| _evented := true |},
             [Emit (peerConnectionId peerConnection);
              AddIssue (peerConnectionId peerConnection) startedAt duration])
      end.

(** What one [update] call sees. *)
Record Cycle : Type := {
  c_now : number;
  c_config : Config;
  c_peerConnection : PeerConnection
}.

Fixpoint run (this : t) (cycles : list Cycle) : t * list Event :=
  match cycles with
  | [] => (this, [])
  | c :: rest =>
      let '(this', evs) := update (c_now c) (c_config c) (c_peerConnection c) this in
      let '(this'', evs') := run this' rest in
      (this'', evs ++ evs')
  end.

Definition is_emit (e : Event) : bool :=
  match e with Emit _ => true | AddIssue _ _ _ => false end.

(** How many times the event was emitted. *)
Definition emissions (evs : list Event) : nat :=
  List.length (filter is_emit evs).

End LongPcConnectionEstablishmentDetector.

(* ================================================================== *)
(** ** detectors/CongestionDetector.ts *)
(* ================================================================== *)

Module CongestionDetector.

(** What [update] reads of [pair.stats] of an ICE candidate pair entry. *)
Record IceCandidatePairEntry : Type := {
  nominated : option bool;
  availableIncomingBitrate : option number;
  availableOutgoingBitrate : option number
}.

(** A transport entry answers [getSelectedIceCandidatePair()]. *)
Record TransportEntry : Type := {
  getSelectedIceCandidatePair : option IceCandidatePairEntry
}.

(** What [update] reads of [outboundRtp.stats]. *)
Record OutboundRtpEntry : Type := {
  qualityLimitationReason : option string
}.

Record PeerConnectionEntry : Type := {
  pc_peerConnectionId : string;
  outboundRtps : list OutboundRtpEntry;
  transports : list TransportEntry;
  iceCandidatePairs : list IceCandidatePairEntry
}.

Record PeerConnectionState : Type := {
  peerConnectionId : string;
  congested : bool;
  outgoingBitrateBeforeCongestion : option number;
  outgoingBitrateAfterCongestion : option number;
  incomingBitrateBeforeCongestion : option number;
  incomingBitrateAfterCongestion : option number
}.

Inductive Event : Type :=
| AlertState (on : bool)
| Congestion (states : list PeerConnectionState).

(** [_states]: a [Map] keeps its keys in insertion order. *)
Definition States := list (string * PeerConnectionState).

Fixpoint get (m : States) (k : string) : option PeerConnectionState :=
  match m with
  | [] => None
  | (k', v) :: rest => if String.eqb k' k then Some v else get rest k
  end.

(** [m.set(k, v)]: a present key keeps its place, a new one goes last. *)
Fixpoint set (m : States) (k : string) (v : PeerConnectionState) : States :=
  match m with
  | [] => [(k, v)]
  | (k', v') :: rest =>
      if String.eqb k' k then (k', v) :: rest else (k', v') :: set rest k v
  end.

Definition has (ids : list string) (k : string) : bool :=
  existsb (String.eqb k) ids.

(** [a ?? b] where [b] may be [undefined] too. *)
Definition orElse {A : Type} (a b : option A) : option A :=
  match a with Some _ => a | None => b end.

(** [isCongested] after the loop over [peerConnection.outboundRtps()]. *)
Definition isCongested (peerConnection : PeerConnectionEntry) : bool :=
  existsb (fun outboundRtp =>
             match qualityLimitationReason outboundRtp with
             | Some reason => String.eqb reason "bandwidth"
             | None => false
             end)
          (outboundRtps peerConnection).

(** The loop over [peerConnection.transports()]: the first selected pair. *)
Fixpoint firstSelected (ts : list TransportEntry) : option IceCandidatePairEntry :=
  match ts with
  | [] => None
  | transport :: rest =>
      match getSelectedIceCandidatePair transport with
      | Some candidatePair => Some candidatePair
      | None => firstSelected rest
      end
  end.

(** [selectedCandidatePair] when the state is updated: the selected pair
    of a transport or, without one, the first pair with
    [nominated === true]. *)
Definition selectedCandidatePair (peerConnection : PeerConnectionEntry)
  : option IceCandidatePairEntry :=
  match firstSelected (transports peerConnection) with
  | Some candidatePair => Some candidatePair
  | None =>
      find (fun candidatePair =>
              match nominated candidatePair with Some true => true | _ => false end)
           (iceCandidatePairs peerConnection)
  end.

(** [selectedCandidatePair?.stats.f]. *)
Definition ofPair (candidatePair : option IceCandidatePairEntry)
                  (f : IceCandidatePairEntry -> option number) : option number :=
  match candidatePair with Some p => f p | None => None end.

(** The state object of a peer connection at the end of one iteration of
    the main loop, from the object at its start. *)
Definition nextState (state : PeerConnectionState)
                     (peerConnection : PeerConnectionEntry) : PeerConnectionState :=
  let wasCongested := congested state in
  let isCongested := isCongested peerConnection in
  let candidatePair := selectedCandidatePair peerConnection in
  let state :=
    if isCongested then
      {| peerConnectionId := peerConnectionId state;
         congested := true;
         outgoingBitrateBeforeCongestion := outgoingBitrateBeforeCongestion state;
         outgoingBitrateAfterCongestion :=
           orElse (ofPair candidatePair availableOutgoingBitrate)
                  (outgoingBitrateAfterCongestion state);
         incomingBitrateBeforeCongestion := incomingBitrateBeforeCongestion state;
         incomingBitrateAfterCongestion :=
           orElse (ofPair candidatePair availableIncomingBitrate)
                  (incomingBitrateAfterCongestion state) |}
    else
      {| peerConnectionId := peerConnectionId state;
         congested := false;
         outgoingBitrateBeforeCongestion :=
           orElse (ofPair candidatePair availableOutgoingBitrate)
                  (outgoingBitrateBeforeCongestion state);
         outgoingBitrateAfterCongestion := outgoingBitrateAfterCongestion state;
         incomingBitrateBeforeCongestion :=
           orElse (ofPair candidatePair availableIncomingBitrate)
                  (incomingBitrateBeforeCongestion state);
         incomingBitrateAfterCongestion := incomingBitrateAfterCongestion state |} in
  if Bool.eqb wasCongested isCongested then
    if isCongested then
      {| peerConnectionId := peerConnectionId state;
         congested := congested state;
         outgoingBitrateBeforeCongestion := None;
         outgoingBitrateAfterCongestion := outgoingBitrateAfterCongestion state;
         incomingBitrateBeforeCongestion := None;
         incomingBitrateAfterCongestion := incomingBitrateAfterCongestion state |}
    else
      {| peerConnectionId := peerConnectionId state;
         congested := congested state;
         outgoingBitrateBeforeCongestion := outgoingBitrateBeforeCongestion state;
         outgoingBitrateAfterCongestion := None;
         incomingBitrateBeforeCongestion := incomingBitrateBeforeCongestion state;
         incomingBitrateAfterCongestion := None |}
  else state.

(** The state a peer connection starts from: the stored one, or a fresh
    one with [congested: false]. *)
Definition stateOf (m : States) (peerConnectionId : string) : PeerConnectionState :=
  match get m peerConnectionId with
  | Some state => state
  | None =>
      {| peerConnectionId := peerConnectionId;
         congested := false;
         outgoingBitrateBeforeCongestion := None;
         outgoingBitrateAfterCongestion := None;
         incomingBitrateBeforeCongestion := None;
         incomingBitrateAfterCongestion := None |}
  end.

(** The variables of [update] that the main loop changes. *)
Record Loop : Type := {
  _states : States;
  visitedPeerConnectionIds : list string;
  gotCongested : bool;
  emitted : list Event
}.

(** One iteration of [for (const peerConnection of peerConnections)].
    The state object is shared between the map and the local variable,
    so the map holds the object as the iteration leaves it. *)
Definition visit (l : Loop) (peerConnection : PeerConnectionEntry) : Loop :=
  let peerConnectionId := pc_peerConnectionId peerConnection in
  let state := stateOf (_states l) peerConnectionId in
  let wasCongested := congested state in
  let isCongested := isCongested peerConnection in
  {| _states := set (_states l) peerConnectionId (nextState state peerConnection);
     visitedPeerConnectionIds := visitedPeerConnectionIds l ++ [peerConnectionId];
     gotCongested :=
       if Bool.eqb wasCongested isCongested then gotCongested l
       else if negb wasCongested && isCongested then true
       else gotCongested l;
     emitted :=
       if Bool.eqb wasCongested isCongested then emitted l
       else if negb wasCongested && isCongested then emitted l ++ [AlertState true]
       else if wasCongested && negb isCongested then emitted l ++ [AlertState false]
       else emitted l |}.

(** [update(peerConnections)]: the map after the call and the events
    emitted during it, in order. *)
Definition update (this : States) (peerConnections : list PeerConnectionEntry)
  : States * list Event :=
  let l := fold_left visit peerConnections
             {| _states := this; visitedPeerConnectionIds := [];
                gotCongested := false; emitted := [] |} in
  let events :=
    if gotCongested l then emitted l ++ [Congestion (map snd (_states l))]
    else emitted l in
  (filter (fun entry => has (visitedPeerConnectionIds l) (fst entry)) (_states l),
   events).

Definition is_congestion (e : Event) : bool :=
  match e with Congestion _ => true | AlertState _ => false end.

(** How many times [update] emitted ['congestion']. *)
Definition congestionEvents (evs : list Event) : nat :=
  List.length (filter is_congestion evs).

(** A run of [update] calls from a map of states. *)
Definition updates (this : States) (calls : list (list PeerConnectionEntry)) : States :=
  fold_left (fun m pcs => fst (update m pcs)) calls this.

End CongestionDetector.

(* ================================================================== *)
(** ** The entity store *)
(* ================================================================== *)

Module StatsStorage.

(** Modelled from the spec: the store ([entries/StatsStorage]) is not
    among the sources.  Section 4.1: [accept] "routes by kind tag; creates
    on unseen id, else delegates to the entry's own update"; section 3:
    "one entry per (collector id, entry id); re-ingestion updates in
    place, never duplicates".  The model keeps the transport entries of
    one collector, in the order they were created. *)
Definition t := list (string * IceTransportMonitor.t).

(** Modelled from the spec: [accept] of the store for a transport record,
    "creates on unseen id, else delegates to the entry's own update". *)
Fixpoint accept (store : t) (stats : IceTransportStats.t) : t :=
  match store with
  | [] => [(IceTransportStats.id stats,
            IceTransportMonitor.constructor stats Missing)]
  | (k, entry) :: rest =>
      if String.eqb k (IceTransportStats.id stats)
      then (k, IceTransportMonitor.accept entry stats) :: rest
      else (k, entry) :: accept rest stats
  end.

(** The entries stored under an id. *)
Definition entriesOf (store : t) (id : string) : list IceTransportMonitor.t :=
  map snd (filter (fun e => String.eqb (fst e) id) store).

End StatsStorage.

(* ================================================================== *)
(** ** The counters of a transport, and concrete records *)
(* ================================================================== *)

Module TransportCounters.

Import IceTransportMonitor.

(** The four counters [accept] derives a delta from. *)
Inductive Counter : Type :=
| PacketsSent | PacketsReceived | BytesSent | BytesReceived.

(** [this.c], [stats.c] and [this.deltaC]. *)
Definition stored (c : Counter) (this : t) : option number :=
  match c with
  | PacketsSent => packetsSent this
  | PacketsReceived => packetsReceived this
  | BytesSent => bytesSent this
  | BytesReceived => bytesReceived this
  end.

Definition incoming (c : Counter) (stats : S.t) : option number :=
  match c with
  | PacketsSent => read (S.packetsSent stats)
  | PacketsReceived => read (S.packetsReceived stats)
  | BytesSent => read (S.bytesSent stats)
  | BytesReceived => read (S.bytesReceived stats)
  end.

Definition delta (c : Counter) (this : t) : option number :=
  match c with
  | PacketsSent => deltaPacketsSent this
  | PacketsReceived => deltaPacketsReceived this
  | BytesSent => deltaBytesSent this
  | BytesReceived => deltaBytesReceived this
  end.

(** The call [this.accept(stats)] reaches the assignment of [deltaC]:
    the elapsed time is positive and both operands of the guard are
    numbers other than [0]. *)
Definition recomputes (c : Counter) (this : t) (stats : S.t) : Prop :=
  0 < elapsedInMs this stats
  /\ truthy (stored c this) = true
  /\ truthy (incoming c stats) = true.

(** A rate field is absent or not negative. *)
Definition nonNegative (rate : option number) : Prop :=
  match rate with
  | Some r => 0 <= r
  | None => True
  end.

(** The rate [accept] derives from a byte counter. *)
Definition rate (c : Counter) (this : t) : option number :=
  match c with
  | BytesSent => sendingBitrate this
  | BytesReceived => receivingBitrate this
  | PacketsSent | PacketsReceived => None
  end.

Definition isBytes (c : Counter) : bool :=
  match c with
  | BytesSent | BytesReceived => true
  | PacketsSent | PacketsReceived => false
  end.

(** If [stats] is newer than the stored record, its byte counters are not
    below the stored ones. *)
Definition notDecreasing (this : t) (stats : S.t) : Prop :=
  forall c prev next,
    isBytes c = true ->
    0 < elapsedInMs this stats ->
    stored c this = Some prev -> incoming c stats = Some next -> prev <= next.

(** Every record of a sequence of [accept] calls is [notDecreasing] for
    the monitor it reaches. *)
Fixpoint monotone (this : t) (l : list S.t) : Prop :=
  match l with
  | [] => True
  | stats :: rest => notDecreasing this stats /\ monotone (accept this stats) rest
  end.

(** Every call of a sequence of [accept] calls assigns the delta of [c]. *)
Fixpoint allRecompute (c : Counter) (this : t) (l : list S.t) : Prop :=
  match l with
  | [] => True
  | stats :: rest => recomputes c this stats /\ allRecompute c (accept this stats) rest
  end.

(** The deltas of [c] read after each call of the sequence, added up. *)
Fixpoint deltaSum (c : Counter) (this : t) (l : list S.t) : number :=
  match l with
  | [] => 0
  | stats :: rest =>
      nullish (delta c (accept this stats)) 0 + deltaSum c (accept this stats) rest
  end.

End TransportCounters.

Module Samples.

(** A transport record with the four counters and nothing else. *)
Definition transportStats (ts : number) (ps pr bs br : prop number)
  : IceTransportStats.t :=
  {| IceTransportStats.timestamp := ts;
     IceTransportStats.id := "T1";
     IceTransportStats.packetsSent := ps;
     IceTransportStats.packetsReceived := pr;
     IceTransportStats.bytesSent := bs;
     IceTransportStats.bytesReceived := br;
     IceTransportStats.iceRole := Missing;
     IceTransportStats.iceLocalUsernameFragment := Missing;
     IceTransportStats.dtlsState := Missing;
     IceTransportStats.iceState := Missing;
     IceTransportStats.selectedCandidatePairId := Missing;
     IceTransportStats.localCertificateId := Missing;
     IceTransportStats.remoteCertificateId := Missing;
     IceTransportStats.tlsVersion := Missing;
     IceTransportStats.dtlsCipher := Missing;
     IceTransportStats.dtlsRole := Missing;
     IceTransportStats.srtpCipher := Missing;
     IceTransportStats.selectedCandidatePairChanges := Missing;
     IceTransportStats.attachments := Missing |}.

(** First report at 1000 ms, second at 2000 ms with larger counters. *)
Definition report1 : IceTransportStats.t :=
  transportStats 1000 (Value 10) (Value 40) (Value 1000) (Value 4000).
Definition report2 : IceTransportStats.t :=
  transportStats 2000 (Value 30) (Value 90) (Value 3000) (Value 9000).

(** A report older than [report2] with other values. *)
Definition lateReport : IceTransportStats.t :=
  transportStats 1500 (Value 99) (Value 99) (Value 9999) (Value 9999).

(** A report at 2000 ms whose sent-byte counter went down. *)
Definition resetReport : IceTransportStats.t :=
  transportStats 2000 (Value 30) (Value 90) (Value 500) (Value 9000).

(** A first report on which nothing was sent yet, and its successor. *)
Definition idleReport : IceTransportStats.t :=
  transportStats 1000 (Value 0) (Value 0) (Value 0) (Value 0).
Definition busyReport : IceTransportStats.t :=
  transportStats 2000 (Value 8) (Value 8) (Value 8000) (Value 8000).

Definition transport : IceTransportMonitor.t :=
  IceTransportMonitor.constructor report1 Missing.

Definition idleTransport : IceTransportMonitor.t :=
  IceTransportMonitor.constructor idleReport Missing.

Definition candidateStats (ts : number) (addr : prop string) : IceCandidateStats.t :=
  {| IceCandidateStats.timestamp := ts;
     IceCandidateStats.id := "C1";
     IceCandidateStats.transportId := Value "T1"%string;
     IceCandidateStats.address := addr;
     IceCandidateStats.port := Missing;
     IceCandidateStats.protocol := Missing;
     IceCandidateStats.candidateType := Missing;
     IceCandidateStats.priority := Missing;
     IceCandidateStats.url := Missing;
     IceCandidateStats.relayProtocol := Missing;
     IceCandidateStats.foundation := Missing;
     IceCandidateStats.relatedAddress := Missing;
     IceCandidateStats.relatedPort := Missing;
     IceCandidateStats.usernameFragment := Missing;
     IceCandidateStats.tcpType := Missing |}.

Definition candidate : IceCandidateMonitor.t :=
  IceCandidateMonitor.accept
    (IceCandidateMonitor.constructor (candidateStats 1000 Missing))
    (candidateStats 2000 (Value "10.0.0.1"%string)).

(** A track with two layers; the second one reports no rates. *)
Definition track : OutboundTrackMonitor.t :=
  {| OutboundTrackMonitor.mappedOutboundRtp :=
       [(1, {| OutboundTrackMonitor.rtp_bitrate := Some 64000;
               OutboundTrackMonitor.rtp_packetRate := Some 50;
               OutboundTrackMonitor.getRemoteInboundRtp := None |});
        (2, {| OutboundTrackMonitor.rtp_bitrate := None;
               OutboundTrackMonitor.rtp_packetRate := None;
               OutboundTrackMonitor.getRemoteInboundRtp := None |})];
     OutboundTrackMonitor.bitrate := None;
     OutboundTrackMonitor.jitter := None;
     OutboundTrackMonitor.fractionLost := None;
     OutboundTrackMonitor.sendingPacketRate := None;
     OutboundTrackMonitor.remoteReceivedPacketRate := None |}.

(** An audio stream with 30 inserted and [removed] removed samples in
    total, and 450 samples received in the interval. *)
Definition audioRtp (removed : number) (flag : bool)
  : AudioDesyncDetector.InboundRtp :=
  {| AudioDesyncDetector.kind := "audio";
     AudioDesyncDetector.insertedSamplesForDeceleration := Some 30;
     AudioDesyncDetector.removedSamplesForAcceleration := Some removed;
     AudioDesyncDetector.receivingAudioSamples := Some 450;
     AudioDesyncDetector.desync := flag;
     AudioDesyncDetector.trackIdentifier := Some "track-1"%string;
     AudioDesyncDetector.ssrc := 1234 |}.

Definition desyncConfig (on off : number) : AudioDesyncDetector.Config :=
  {| AudioDesyncDetector.disabled := false;
     AudioDesyncDetector.fractionalCorrectionAlertOnThreshold := on;
     AudioDesyncDetector.fractionalCorrectionAlertOffThreshold := off |}.

Definition desyncCycle (removed on off : number) : AudioDesyncDetector.Cycle :=
  {| AudioDesyncDetector.c_now := 5000;
     AudioDesyncDetector.c_config := desyncConfig on off;
     AudioDesyncDetector.c_inboundRtp := audioRtp removed false |}.

(** A peer connection that entered 'connecting' at 1000 ms. *)
Definition pc (state : LongPcConnectionEstablishmentDetector.ConnectionState)
  : LongPcConnectionEstablishmentDetector.PeerConnection :=
  {| LongPcConnectionEstablishmentDetector.peerConnectionId := "PC1";
     LongPcConnectionEstablishmentDetector.connectionState := Some state;
     LongPcConnectionEstablishmentDetector.connectingStartedAt := Some 1000 |}.

(** A call of the detector at [now] with the threshold 3000 ms. *)
Definition pcCycle (now : number)
                   (state : LongPcConnectionEstablishmentDetector.ConnectionState)
  : LongPcConnectionEstablishmentDetector.Cycle :=
  {| LongPcConnectionEstablishmentDetector.c_now := now;
     LongPcConnectionEstablishmentDetector.c_config :=
       {| LongPcConnectionEstablishmentDetector.disabled := false;
          LongPcConnectionEstablishmentDetector.thresholdInMs := 3000 |};
     LongPcConnectionEstablishmentDetector.c_peerConnection := pc state |}.

(** A nominated candidate pair with the given available bitrates. *)
Definition candidatePair (incoming outgoing : option number)
  : CongestionDetector.IceCandidatePairEntry :=
  {| CongestionDetector.nominated := Some true;
     CongestionDetector.availableIncomingBitrate := incoming;
     CongestionDetector.availableOutgoingBitrate := outgoing |}.

(** A peer connection with one outbound stream, and one transport whose
    selected pair is [cp]. *)
Definition peer (reason : option string)
                (cp : CongestionDetector.IceCandidatePairEntry)
  : CongestionDetector.PeerConnectionEntry :=
  {| CongestionDetector.pc_peerConnectionId := "PC1";
     CongestionDetector.outboundRtps :=
       [{| CongestionDetector.qualityLimitationReason := reason |}];
     CongestionDetector.transports :=
       [{| CongestionDetector.getSelectedIceCandidatePair := Some cp |}];
     CongestionDetector.iceCandidatePairs := [cp] |}.

(** The detector after a congested and then an uncongested update. *)
Definition recovered : CongestionDetector.States :=
  CongestionDetector.updates []
    [[peer (Some "bandwidth"%string) (candidatePair (Some 100) (Some 200))];
     [peer (Some "none"%string) (candidatePair (Some 100) (Some 200))]].

(** A store that has seen the first report. *)
Definition store : StatsStorage.t := StatsStorage.accept [] report1.

End Samples.

(* ================================================================== *)
(** ** ClientMonitor.ts *)
(* ================================================================== *)

Module ClientMonitor.

(** The part of [ClientMonitorConfig] the methods below read. *)
Record Config : Type := {
  collectingPeriodInMs : option number;
  samplingTick : option number
}.

(** The fields of the class that the methods below read or write.
    [_timer] holds the period of the interval timer when one is set. *)
Record t : Type := {
  created : number;
  _config : Config;
  _timer : option number;
  _joined : bool;
  _left : bool;
  _lastCollectedAt : number;
  _lastSampledAt : number;
  _closed : bool;
  _actualCollectingTick : number
}.

(** The optional argument of [join] and [leave]. *)
Record Settings : Type := {
  message : option string;
  timestamp : option number;
  attachments : option string
}.

(** What a call does to the sampler, the storage and the collectors, and
    the events it emits, in the order of the source. *)
Inductive Effect : Type :=
| AddCustomCallEvent (name : string) (message : option string)
                     (timestamp : number) (attachments : option string)
| SampleCreated (elapsedSinceLastSampleInMs : number)
| StatsCollected (elapsedSinceLastCollectedInMs : number)
| UsingTurn (isUsingTURN : bool)
| SamplerAddUserMediaError (message : string)
| UserMediaError (message : string)
| StorageUpdate
| StorageClear
| CollectorsClear
| SamplerClear.

Definition set_joined (v : bool) (this : t) : t :=
  {| created := created this; _config := _config this; _timer := _timer this;
     _joined := v; _left := _left this;
     _lastCollectedAt := _lastCollectedAt this;
     _lastSampledAt := _lastSampledAt this; _closed := _closed this;
     _actualCollectingTick := _actualCollectingTick this |}.

Definition set_left (v : bool) (this : t) : t :=
  {| created := created this; _config := _config this; _timer := _timer this;
     _joined := _joined this; _left := v;
     _lastCollectedAt := _lastCollectedAt this;
     _lastSampledAt := _lastSampledAt this; _closed := _closed this;
     _actualCollectingTick := _actualCollectingTick this |}.

Definition set_closed (v : bool) (this : t) : t :=
  {| created := created this; _config := _config this; _timer := _timer this;
     _joined := _joined this; _left := _left this;
     _lastCollectedAt := _lastCollectedAt this;
     _lastSampledAt := _lastSampledAt this; _closed := v;
     _actualCollectingTick := _actualCollectingTick this |}.

Definition set_timer (v : option number) (this : t) : t :=
  {| created := created this; _config := _config this; _timer := v;
     _joined := _joined this; _left := _left this;
     _lastCollectedAt := _lastCollectedAt this;
     _lastSampledAt := _lastSampledAt this; _closed := _closed this;
     _actualCollectingTick := _actualCollectingTick this |}.

Definition set_config (v : Config) (this : t) : t :=
  {| created := created this; _config := v; _timer := _timer this;
     _joined := _joined this; _left := _left this;
     _lastCollectedAt := _lastCollectedAt this;
     _lastSampledAt := _lastSampledAt this; _closed := _closed this;
     _actualCollectingTick := _actualCollectingTick this |}.

Definition set_lastCollectedAt (v : number) (this : t) : t :=
  {| created := created this; _config := _config this; _timer := _timer this;
     _joined := _joined this; _left := _left this;
     _lastCollectedAt := v;
     _lastSampledAt := _lastSampledAt this; _closed := _closed this;
     _actualCollectingTick := _actualCollectingTick this |}.

Definition set_lastSampledAt (v : number) (this : t) : t :=
  {| created := created this; _config := _config this; _timer := _timer this;
     _joined := _joined this; _left := _left this;
     _lastCollectedAt := _lastCollectedAt this;
     _lastSampledAt := v; _closed := _closed this;
     _actualCollectingTick := _actualCollectingTick this |}.

Definition set_actualCollectingTick (v : number) (this : t) : t :=
  {| created := created this; _config := _config this; _timer := _timer this;
     _joined := _joined this; _left := _left this;
     _lastCollectedAt := _lastCollectedAt this;
     _lastSampledAt := _lastSampledAt this; _closed := _closed this;
     _actualCollectingTick := v |}.

(** [_setupTimer()]: a running timer is cleared, and a new one is set when
    [collectingPeriodInMs] is a number other than 0. *)
Definition _setupTimer (this : t) : t :=
  let this := set_timer None this in
  if negb (truthy (collectingPeriodInMs (_config this))) then this
  else set_timer (collectingPeriodInMs (_config this)) this.

(** The field initialisers and the part of the constructor that concerns
    them; the two clock readings are those of [created] and
    [_lastCollectedAt]. *)
Definition constructor (config : Config) (now1 now2 : number) : t :=
  _setupTimer
    {| created := now1; _config := config; _timer := None;
       _joined := false; _left := false;
       _lastCollectedAt := now2; _lastSampledAt := 0;
       _closed := false; _actualCollectingTick := 0 |}.

(** [settings?.f]. *)
Definition ofSettings {A : Type} (settings : option Settings)
                      (f : Settings -> option A) : option A :=
  match settings with Some s => f s | None => None end.

(** [join(settings)]. *)
Definition join (settings : option Settings) (this : t) : t * list Effect :=
  if _joined this then (this, [])
  else
    (set_joined true this,
     [AddCustomCallEvent "CLIENT_JOINED"
        (Some (nullish (ofSettings settings message) "Client joined"%string))
        (nullish (ofSettings settings timestamp) (created this))
        (ofSettings settings attachments)]).

(** [leave(settings)]; [now] is [Date.now()]. *)
Definition leave (now : number) (settings : option Settings) (this : t)
  : t * list Effect :=
  if negb (_left this) then (this, [])
  else
    (set_left true this,
     [AddCustomCallEvent "CLIENT_LEFT"
        (Some (nullish (ofSettings settings message) "Client left"%string))
        (nullish (ofSettings settings timestamp) now)
        (ofSettings settings attachments)]).

(** [sample()]: [available] tells whether [createClientSample()] returned
    a sample, [now] is [Date.now()]; the last component tells whether a
    sample is returned. *)
Definition sample (available : bool) (now : number) (this : t)
  : t * list Effect * bool :=
  if _closed this then (this, [], false)
  else
    let '(this, joined) :=
      if negb (_joined this) then join None this else (this, []) in
    let timestamp := now in
    if negb available then (this, joined, false)
    else
      (set_lastSampledAt timestamp this,
       joined ++ [SampleCreated (timestamp - _lastSampledAt this)],
       true).

(** [close()]; [available] and [now] are for the calls of [leave] and
    [sample] it makes. *)
Definition close (available : bool) (now : number) (this : t) : t * list Effect :=
  if _closed this then (this, [])
  else
    let this := set_closed true this in
    let '(this, leaving) :=
      if negb (_left this) then leave now None this else (this, []) in
    let '(this, sampled) :=
      if ltb 0 (nullish (samplingTick (_config this)) 0)
      then fst (sample available now this)
      else (this, []) in
    (set_timer None this,
     leaving ++ sampled ++ [StorageClear; CollectorsClear; SamplerClear]).

(** The promise [collect()] returns. *)
Inductive Outcome : Type :=
| Resolved
| Rejected (message : string).

(** [collect()], taken as one step: no other call of the monitor runs
    while it awaits the collectors.  [wasUsingTURN] and [isUsingTURN] are
    the two readings of [peerConnections.some(pc => pc.usingTURN)],
    [timestamp] is [Date.now()] after the collection, [available] and [now]
    are for the call of [sample]. *)
Definition collect (wasUsingTURN isUsingTURN : bool) (timestamp : number)
                   (available : bool) (now : number) (this : t)
  : t * list Effect * Outcome :=
  if _closed this then (this, [], Rejected "ClientMonitor is closed")
  else
    let collected :=
      [StorageUpdate; StatsCollected (timestamp - _lastCollectedAt this)] in
    let this := set_lastCollectedAt timestamp this in
    let '(this, sampled) :=
      if truthy (samplingTick (_config this)) then
        let this :=
          set_actualCollectingTick (_actualCollectingTick this + 1) this in
        if leb (nullish (samplingTick (_config this)) 0) (_actualCollectingTick this)
        then
          let this := set_actualCollectingTick 0 this in
          fst (sample available now this)
        else (this, [])
      else (this, []) in
    (this,
     collected ++ sampled
     ++ (if Bool.eqb wasUsingTURN isUsingTURN then [] else [UsingTurn isUsingTURN]),
     Resolved).

(** [addUserMediaError(err)], with [message] the text of [err]. *)
Definition addUserMediaError (message : string) (this : t) : t * list Effect :=
  (this,
   (if ltb 0 (nullish (samplingTick (_config this)) 0)
    then [SamplerAddUserMediaError message] else [])
   ++ [UserMediaError message]).

(** [setCollectingPeriod] and [setSamplingTick]. *)
Definition setCollectingPeriod (collectingPeriodInMs' : number) (this : t) : t :=
  _setupTimer
    (set_config {| collectingPeriodInMs := Some collectingPeriodInMs';
                   samplingTick := samplingTick (_config this) |} this).

Definition setSamplingTick (samplingTick' : number) (this : t) : t :=
  _setupTimer
    (set_config {| collectingPeriodInMs := collectingPeriodInMs (_config this);
                   samplingTick := Some samplingTick' |} this).

(** A call of one of the methods above, with what it reads from outside. *)
Inductive Call : Type :=
| Join (settings : option Settings)
| Leave (now : number) (settings : option Settings)
| Sample (available : bool) (now : number)
| Close (available : bool) (now : number)
| Collect (wasUsingTURN isUsingTURN : bool) (timestamp : number)
          (available : bool) (now : number)
| AddUserMediaError (message : string)
| SetCollectingPeriod (collectingPeriodInMs : number)
| SetSamplingTick (samplingTick : number).

Definition call (c : Call) (this : t) : t * list Effect :=
  match c with
  | Join settings => join settings this
  | Leave now settings => leave now settings this
  | Sample available now => fst (sample available now this)
  | Close available now => close available now this
  | Collect wasUsingTURN isUsingTURN timestamp available now =>
      fst (collect wasUsingTURN isUsingTURN timestamp available now this)
  | AddUserMediaError message => addUserMediaError message this
  | SetCollectingPeriod p => (setCollectingPeriod p this, [])
  | SetSamplingTick n => (setSamplingTick n this, [])
  end.

(** A sequence of calls on one monitor, and the effects of all of them. *)
Fixpoint run (this : t) (calls : list Call) : t * list Effect :=
  match calls with
  | [] => (this, [])
  | c :: rest =>
      let '(this', evs) := call c this in
      let '(this'', evs') := run this' rest in
      (this'', evs ++ evs')
  end.

Definition isCallEvent (name : string) (e : Effect) : bool :=
  match e with
  | AddCustomCallEvent n _ _ _ => String.eqb n name
  | _ => false
  end.

Definition isSampleCreated (e : Effect) : bool :=
  match e with SampleCreated _ => true | _ => false end.

(** How many times the effects hold a call event of the given name, and
    how many samples were announced. *)
Definition callEvents (name : string) (evs : list Effect) : nat :=
  List.length (filter (isCallEvent name) evs).

Definition samplesCreated (evs : list Effect) : nat :=
  List.length (filter isSampleCreated evs).

(** The elapsed times announced with the samples, and with the
    collections, added up. *)
Fixpoint sampledTime (evs : list Effect) : number :=
  match evs with
  | [] => 0
  | SampleCreated elapsed :: rest => elapsed + sampledTime rest
  | _ :: rest => sampledTime rest
  end.

Fixpoint collectedTime (evs : list Effect) : number :=
  match evs with
  | [] => 0
  | StatsCollected elapsed :: rest => elapsed + collectedTime rest
  | _ :: rest => collectedTime rest
  end.

(** An effect that only an open monitor produces. *)
Definition needsOpen (e : Effect) : bool :=
  match e with
  | SampleCreated _ | StatsCollected _ | UsingTurn _ | StorageUpdate => true
  | _ => false
  end.

(** A call of [collect] for which the sampler has a sample ready. *)
Definition readyCollect (c : Call) : Prop :=
  match c with
  | Collect _ _ _ available _ => available = true
  | _ => False
  end.

Definition flagValue (flag : bool) : nat := if flag then 1%nat else 0%nat.

(** The four totals the listener [onCongestion] of
    [createCongestionDetector] adds up over the states of the event. *)
Record Totals : Type := {
  incomingBitrateAfterCongestion : option number;
  incomingBitrateBeforeCongestion : option number;
  outgoingBitrateAfterCongestion : option number;
  outgoingBitrateBeforeCongestion : option number
}.

(** [if (x) total = (total ?? 0) + x]. *)
Definition added (total x : option number) : option number :=
  match x with
  | Some v => if truthy x then Some (nullish total 0 + v) else total
  | None => total
  end.

(** The body of the loop over [peerConnectionStates]. *)
Definition addState (totals : Totals) (state : CongestionDetector.PeerConnectionState)
  : Totals :=
  {| incomingBitrateAfterCongestion :=
       added (incomingBitrateAfterCongestion totals)
             (CongestionDetector.incomingBitrateAfterCongestion state);
     incomingBitrateBeforeCongestion :=
       added (incomingBitrateBeforeCongestion totals)
             (CongestionDetector.incomingBitrateBeforeCongestion state);
     outgoingBitrateAfterCongestion :=
       added (outgoingBitrateAfterCongestion totals)
             (CongestionDetector.outgoingBitrateAfterCongestion state);
     outgoingBitrateBeforeCongestion :=
       added (outgoingBitrateBeforeCongestion totals)
             (CongestionDetector.outgoingBitrateBeforeCongestion state) |}.

(** The four variables after the loop; they start [undefined]. *)
Definition onCongestion (peerConnectionStates : list CongestionDetector.PeerConnectionState)
  : Totals :=
  fold_left addState peerConnectionStates
    {| incomingBitrateAfterCongestion := None;
       incomingBitrateBeforeCongestion := None;
       outgoingBitrateAfterCongestion := None;
       outgoingBitrateBeforeCongestion := None |}.

(** One of the four bitrates, in a state and in the totals. *)
Inductive Bitrate : Type :=
| IncomingAfter
| IncomingBefore
| OutgoingAfter
| OutgoingBefore.

Definition ofState (b : Bitrate) (state : CongestionDetector.PeerConnectionState)
  : option number :=
  match b with
  | IncomingAfter => CongestionDetector.incomingBitrateAfterCongestion state
  | IncomingBefore => CongestionDetector.incomingBitrateBeforeCongestion state
  | OutgoingAfter => CongestionDetector.outgoingBitrateAfterCongestion state
  | OutgoingBefore => CongestionDetector.outgoingBitrateBeforeCongestion state
  end.

Definition ofTotals (b : Bitrate) (totals : Totals) : option number :=
  match b with
  | IncomingAfter => incomingBitrateAfterCongestion totals
  | IncomingBefore => incomingBitrateBeforeCongestion totals
  | OutgoingAfter => outgoingBitrateAfterCongestion totals
  | OutgoingBefore => outgoingBitrateBeforeCongestion totals
  end.

(** The bitrate of every state added up, an [undefined] one counting 0. *)
Fixpoint bitrateSum (b : Bitrate) (states : list CongestionDetector.PeerConnectionState)
  : number :=
  match states with
  | [] => 0
  | state :: rest => nullish (ofState b state) 0 + bitrateSum b rest
  end.

End ClientMonitor.

(* ================================================================== *)
(** ** Sender *)
(* ================================================================== *)

Module Sender.

(** [CodecConfig], [TransportConfig] and [Samples] are never inspected
    here. *)
Definition CodecConfig := record.
Definition TransportConfig := record.
Definition Samples := record.

(** [SenderConfig]: both keys are optional. *)
Record SenderConfig : Type := {
  codec : prop CodecConfig;
  debounceTimeInMs : prop number
}.

(** [SenderConstructConfig], the type of the module-level object
    [defaultConfig], read property by property. *)
Record SenderConstructConfig : Type := {
  c_codec : option CodecConfig;
  c_debounceTimeInMs : option number;
  c_transport : TransportConfig
}.

(** The initial value of [defaultConfig]. *)
Definition defaultConfig : SenderConstructConfig :=
  {| c_codec := None; c_debounceTimeInMs := None; c_transport := [] |}.

(** [Object.assign(defaultConfig, config)]: the target itself is changed
    and returned; an [undefined] source changes nothing. *)
Definition assignConfig (target : SenderConstructConfig) (config : option SenderConfig)
  : SenderConstructConfig :=
  match config with
  | None => target
  | Some source =>
      {| c_codec := assign (c_codec target) (codec source);
         c_debounceTimeInMs :=
           assign (c_debounceTimeInMs target) (debounceTimeInMs source);
         c_transport := c_transport target |}
  end.

(** A sender: [_codec] and [_transport] are given by the configurations
    [createCodec] and [createTransport] were called with.  [_config] is the
    object [defaultConfig] itself, not a copy, and is not read again. *)
Record t : Type := {
  _closed : bool;
  _codec : option CodecConfig;
  _transport : TransportConfig
}.

Definition constructor (config : SenderConstructConfig) : t :=
  {| _closed := false;
     _codec := c_codec config;
     _transport := c_transport config |}.

(** [Sender.create(config)] in a module whose [defaultConfig] is [shared]:
    the object after the call, and the sender. *)
Definition create (config : option SenderConfig) (shared : SenderConstructConfig)
  : SenderConstructConfig * t :=
  let appliedConfig := assignConfig shared config in
  (appliedConfig, constructor appliedConfig).

(** Calls of [create] one after the other, and the senders they return. *)
Fixpoint createAll (configs : list (option SenderConfig))
                   (shared : SenderConstructConfig)
  : SenderConstructConfig * list t :=
  match configs with
  | [] => (shared, [])
  | config :: rest =>
      let '(shared, sender) := create config shared in
      let '(shared, senders) := createAll rest shared in
      (shared, sender :: senders)
  end.

(** What a call leaves behind: a warning of the logger, a message handed
    to the transport, given by the codec configuration that encoded it and
    the samples, or a rejected promise. *)
Inductive Effect : Type :=
| Warn (message : string)
| TransportSend (codec : option CodecConfig) (samples : Samples)
| Rejected (message : string).

(** [close()]. *)
Definition close (this : t) : t * list Effect :=
  if _closed this then (this, [Warn "Attempted to close the Sender twice"])
  else
    ({| _closed := true; _codec := _codec this; _transport := _transport this |},
     []).

(** [send(samples)], with a codec that encodes and a transport that
    accepts the message. *)
Definition send (samples : Samples) (this : t) : t * list Effect :=
  if _closed this then (this, [Rejected "Cannot use an already closed Sender"])
  else (this, [TransportSend (_codec this) samples]).

Inductive Call : Type :=
| Close
| Send (samples : Samples).

Definition call (c : Call) (this : t) : t * list Effect :=
  match c with
  | Close => close this
  | Send samples => send samples this
  end.

Fixpoint run (this : t) (calls : list Call) : t * list Effect :=
  match calls with
  | [] => (this, [])
  | c :: rest =>
      let '(this', effects) := call c this in
      let '(this'', effects') := run this' rest in
      (this'', effects ++ effects')
  end.

(** The samples the transport was handed, in order. *)
Fixpoint transmitted (effects : list Effect) : list Samples :=
  match effects with
  | [] => []
  | TransportSend _ samples :: rest => samples :: transmitted rest
  | _ :: rest => transmitted rest
  end.

(** The samples of the [send] calls that come before the first [close]. *)
Fixpoint sentBeforeClose (calls : list Call) : list Samples :=
  match calls with
  | Send samples :: rest => samples :: sentBeforeClose rest
  | _ => []
  end.

(** A configuration that owns no [codec] key, or none at all. *)
Definition lacksCodec (config : option SenderConfig) : Prop :=
  match config with
  | None => True
  | Some source => codec source = Missing
  end.

End Sender.

(* ================================================================== *)
(** ** Properties: numbers *)
(* ================================================================== *)

Lemma leb_true (a b : number) : leb a b = true <-> a <= b.
Proof. unfold leb. apply Qle_bool_iff. Qed.

Lemma leb_false (a b : number) : leb a b = false <-> b < a.
Proof.
  unfold leb. split; intro H.
  - apply Qnot_le_lt. intro Hle. apply Qle_bool_iff in Hle. congruence.
  - destruct (Qle_bool a b) eqn:E; [|reflexivity].
    apply Qle_bool_iff in E. exfalso. exact (Qlt_not_le _ _ H E).
Qed.

Lemma ltb_true (a b : number) : ltb a b = true <-> a < b.
Proof.
  unfold ltb. rewrite negb_true_iff. apply leb_false.
Qed.

Lemma ltb_false (a b : number) : ltb a b = false <-> b <= a.
Proof.
  unfold ltb. rewrite negb_false_iff. apply leb_true.
Qed.

Lemma truthy_Some (n : number) : truthy (Some n) = true <-> ~ n == 0.
Proof.
  simpl. rewrite negb_true_iff. split; intro H.
  - intro E. apply Qeq_bool_iff in E. congruence.
  - destruct (Qeq_bool n 0) eqn:E; [|reflexivity].
    apply Qeq_bool_iff in E. contradiction.
Qed.

Lemma both_Some (a b : option number) (x y : number) :
  both a b = Some (x, y) <->
  a = Some x /\ b = Some y /\ truthy a = true /\ truthy b = true.
Proof.
  unfold both. destruct a as [p|], b as [q|];
    try (split; [discriminate | intros (Ha & Hb & _); discriminate]).
  destruct (truthy (Some p) && truthy (Some q)) eqn:E.
  - apply andb_true_iff in E. destruct E as [E1 E2].
    split; [intro H; inversion H; subst; auto | intros (Ha & Hb & _)].
    inversion Ha; inversion Hb; reflexivity.
  - split; [discriminate | intros (_ & _ & H1 & H2)].
    rewrite H1, H2 in E. discriminate.
Qed.

Lemma both_None (a b : option number) :
  both a b = None <-> truthy a = false \/ truthy b = false.
Proof.
  unfold both. destruct a as [p|], b as [q|]; simpl; try tauto.
  destruct (negb (Qeq_bool p 0)), (negb (Qeq_bool q 0)); simpl;
    split; intros; try discriminate; auto; destruct H; discriminate.
Qed.

(* ================================================================== *)
(** ** Properties: IceTransportMonitor and IceCandidateMonitor *)
(* ================================================================== *)

Section IceTransportAccept.

Import IceTransportMonitor TransportCounters.

Variable this : t.
Variable stats : S.t.

Lemma set_visited_same : _visited this = true -> set_visited true this = this.
Proof. destruct this; simpl; intros ->; reflexivity. Qed.

(** A record that is not newer than the stored one only sets the flag. *)
Lemma accept_stale :
  elapsedInMs this stats <= 0 -> accept this stats = set_visited true this.
Proof.
  intro H. apply leb_true in H. unfold elapsedInMs in H.
  unfold accept. simpl. rewrite H. reflexivity.
Qed.

Lemma accept_visited : _visited (accept this stats) = true.
Proof.
  unfold accept. simpl.
  destruct (leb (S.timestamp stats - timestamp this) 0); [reflexivity|].
  destruct (both (bytesSent this) _) as [[? ?]|];
    destruct (both (bytesReceived this) _) as [[? ?]|]; reflexivity.
Qed.

(** The delta fields after a record that is newer than the stored one. *)
Lemma accept_delta (c : Counter) :
  0 < elapsedInMs this stats ->
  delta c (accept this stats) =
    match both (stored c this) (incoming c stats) with
    | Some (prev, next) => Some (next - prev)
    | None => delta c this
    end.
Proof.
  intro H. apply leb_false in H. unfold elapsedInMs in H.
  unfold accept. simpl. rewrite H.
  destruct c; simpl;
    destruct (both (bytesSent this) _) as [[? ?]|];
    destruct (both (bytesReceived this) _) as [[? ?]|]; reflexivity.
Qed.

(** The absolute counters and the timestamp after such a record. *)
Lemma accept_timestamp :
  0 < elapsedInMs this stats -> timestamp (accept this stats) = S.timestamp stats.
Proof.
  intro H. apply leb_false in H. unfold elapsedInMs in H.
  unfold accept. simpl. rewrite H.
  destruct (both (bytesSent this) _) as [[? ?]|];
    destruct (both (bytesReceived this) _) as [[? ?]|]; reflexivity.
Qed.

Lemma recomputes_dec (c : Counter) :
  recomputes c this stats \/ ~ recomputes c this stats.
Proof.
  unfold recomputes.
  destruct (Qlt_le_dec 0 (elapsedInMs this stats)) as [H|H].
  - destruct (truthy (stored c this)), (truthy (incoming c stats));
      try (left; auto; fail); right; intros (_ & A & B); discriminate.
  - right. intros (A & _). exact (Qlt_not_le _ _ A H).
Qed.

Lemma accept_delta_recomputed (c : Counter) (prev next : number) :
  stored c this = Some prev -> incoming c stats = Some next ->
  recomputes c this stats ->
  delta c (accept this stats) = Some (next - prev).
Proof.
  intros Hs Hi (He & T1 & T2).
  rewrite (accept_delta c He).
  assert (B : both (stored c this) (incoming c stats) = Some (prev, next))
    by (apply both_Some; auto).
  rewrite B. reflexivity.
Qed.

Lemma accept_delta_kept (c : Counter) :
  ~ recomputes c this stats -> delta c (accept this stats) = delta c this.
Proof.
  intro N.
  destruct (Qlt_le_dec 0 (elapsedInMs this stats)) as [H|H].
  - rewrite (accept_delta c H).
    destruct (both (stored c this) (incoming c stats)) as [[p n]|] eqn:B;
      [|reflexivity].
    apply both_Some in B. destruct B as (_ & _ & T1 & T2).
    exfalso. apply N. unfold recomputes. auto.
  - rewrite (accept_stale H). destruct c; reflexivity.
Qed.

Lemma accept_delta_present (c : Counter) :
  delta c (accept this stats) <> None <->
  delta c this <> None \/ recomputes c this stats.
Proof.
  destruct (recomputes_dec c) as [R|N].
  - split; [right; exact R|intros _].
    destruct R as (He & T1 & T2).
    destruct (stored c this) as [p|] eqn:Es; [|discriminate].
    destruct (incoming c stats) as [n|] eqn:Ei; [|discriminate].
    rewrite (accept_delta_recomputed c p n Es Ei); [discriminate|].
    unfold recomputes. rewrite Es, Ei. auto.
  - rewrite (accept_delta_kept c N). tauto.
Qed.

End IceTransportAccept.

Section IceTransportRuns.

Import IceTransportMonitor TransportCounters.

Lemma accept_all_cons (this : t) (stats : S.t) (l : list S.t) :
  accept_all this (stats :: l) = accept_all (accept this stats) l.
Proof. reflexivity. Qed.

(** Over a sequence of calls a delta field is present exactly when it was
    present at the start or one of the calls assigned it. *)
Lemma accept_all_delta_present (c : Counter) (l : list S.t) :
  forall this,
    delta c (accept_all this l) <> None <->
    delta c this <> None
    \/ exists l1 stats l2,
         l = l1 ++ stats :: l2 /\ recomputes c (accept_all this l1) stats.
Proof.
  induction l as [|s r IH]; intro this.
  - simpl. split; [auto|].
    intros [H|(l1 & s & l2 & E & _)]; [exact H|].
    destruct l1; discriminate.
  - rewrite accept_all_cons, IH, accept_delta_present. split.
    + intros [[H|H]|(l1 & s' & l2 & E & R)].
      * left; exact H.
      * right. exists [], s, r. split; [reflexivity|exact H].
      * right. exists (s :: l1), s', l2. split; [rewrite E; reflexivity|exact R].
    + intros [H|(l1 & s' & l2 & E & R)].
      * left; left; exact H.
      * destruct l1 as [|x l1]; simpl in E; inversion E; subst.
        -- left; right; exact R.
        -- right. exists l1, s', l2. split; [reflexivity|exact R].
Qed.

End IceTransportRuns.

Section IceCandidateAccept.

Import IceCandidateMonitor.

Lemma candidate_accept_stale (this : t) (stats : S.t) :
  S.timestamp stats <= timestamp this ->
  accept this stats = set_visited true this.
Proof.
  intro H.
  assert (E : leb (S.timestamp stats - timestamp this) 0 = true)
    by (apply leb_true; lra).
  unfold accept. simpl. rewrite E. reflexivity.
Qed.

Lemma candidate_accept_visited (this : t) (stats : S.t) :
  _visited (accept this stats) = true.
Proof.
  unfold accept. simpl.
  destruct (leb (S.timestamp stats - timestamp this) 0); reflexivity.
Qed.

End IceCandidateAccept.

(** *** Delta fields *)

(** C1, as the code has it.  A freshly constructed monitor has no delta
    field.  A call of [accept] assigns the delta of a counter exactly when
    the elapsed time is strictly positive and both the stored and the
    incoming counter are numbers other than 0; the field then holds the
    incoming minus the stored value.  Every other call leaves the field as
    it was, so a delta computed earlier stays, and a field never computed
    stays absent: it is never set to zero by default.  Hence, after any
    sequence of calls, a delta field is present if and only if it was present
    before or one of the calls assigned it. *)
Theorem C1_delta_presence
    (c : TransportCounters.Counter) (this : IceTransportMonitor.t) :
  (forall options appData,
      TransportCounters.delta c (IceTransportMonitor.constructor options appData) = None)
  /\ (forall stats,
        TransportCounters.delta c (IceTransportMonitor.accept this stats) <> None <->
        TransportCounters.delta c this <> None
        \/ TransportCounters.recomputes c this stats)
  /\ (forall stats prev next,
        TransportCounters.stored c this = Some prev ->
        TransportCounters.incoming c stats = Some next ->
        TransportCounters.recomputes c this stats ->
        TransportCounters.delta c (IceTransportMonitor.accept this stats)
        = Some (next - prev))
  /\ (forall stats,
        ~ TransportCounters.recomputes c this stats ->
        TransportCounters.delta c (IceTransportMonitor.accept this stats)
        = TransportCounters.delta c this)
  /\ (forall l,
        TransportCounters.delta c (IceTransportMonitor.accept_all this l) <> None <->
        TransportCounters.delta c this <> None
        \/ exists l1 stats l2,
             l = l1 ++ stats :: l2
             /\ TransportCounters.recomputes c
                  (IceTransportMonitor.accept_all this l1) stats).
Proof.
  split; [|split; [|split; [|split]]].
  - intros options appData. destruct c; reflexivity.
  - intro stats. apply accept_delta_present.
  - intros stats prev next. apply accept_delta_recomputed.
  - intro stats. apply accept_delta_kept.
  - intro l. apply accept_all_delta_present.
Qed.

(** The second report of [Samples] reaches the assignment of
    [deltaPacketsSent], which then holds 30 - 10. *)
Lemma C1_delta_presence_witness :
  TransportCounters.recomputes TransportCounters.PacketsSent
    Samples.transport Samples.report2
  /\ TransportCounters.delta TransportCounters.PacketsSent
       (IceTransportMonitor.accept Samples.transport Samples.report2)
     = Some (30 - 10).
Proof.
  assert (R : TransportCounters.recomputes TransportCounters.PacketsSent
                Samples.transport Samples.report2).
  { unfold TransportCounters.recomputes. repeat split; reflexivity. }
  split; [exact R|].
  exact (proj1 (proj2 (proj2
           (C1_delta_presence TransportCounters.PacketsSent Samples.transport)))
           Samples.report2 10 30 eq_refl eq_refl R).
Defined.

(** A delta computed by one call is still present after a call with no
    elapsed time: here the same report is accepted twice, the second call
    has elapsed time 0, and [deltaPacketsSent] holds 20 after it. *)
Lemma C1_counterexample :
  let this := IceTransportMonitor.accept Samples.transport Samples.report2 in
  ~ 0 < IceTransportMonitor.elapsedInMs this Samples.report2
  /\ IceTransportMonitor.packetsSent this <> None
  /\ IceTransportMonitor.deltaPacketsSent
       (IceTransportMonitor.accept this Samples.report2) = Some 20.
Proof.
  cbv zeta. split; [|split].
  - vm_compute. discriminate.
  - vm_compute. discriminate.
  - vm_compute. reflexivity.
Qed.

(** *** Records that are not newer than the stored one *)

(** C2, as the code has it.  A record whose timestamp is not above the
    stored one is ignored: [accept] sets the visited flag and returns, so
    the delta fields, the absolute fields and the stored timestamp all stay
    as they were.  This holds for the transport and for the candidate
    monitor. *)
Theorem C2_stale_record_ignored
    (this : IceTransportMonitor.t) (stats : IceTransportStats.t)
    (candidate : IceCandidateMonitor.t) (candidateStats : IceCandidateStats.t) :
  IceTransportStats.timestamp stats <= IceTransportMonitor.timestamp this ->
  IceCandidateStats.timestamp candidateStats
    <= IceCandidateMonitor.timestamp candidate ->
  IceTransportMonitor.accept this stats = IceTransportMonitor.set_visited true this
  /\ IceTransportMonitor._visited (IceTransportMonitor.accept this stats) = true
  /\ IceTransportMonitor.timestamp (IceTransportMonitor.accept this stats)
     = IceTransportMonitor.timestamp this
  /\ (forall c,
        TransportCounters.delta c (IceTransportMonitor.accept this stats)
        = TransportCounters.delta c this
        /\ TransportCounters.stored c (IceTransportMonitor.accept this stats)
           = TransportCounters.stored c this)
  /\ IceCandidateMonitor.accept candidate candidateStats
     = IceCandidateMonitor.set_visited true candidate
  /\ IceCandidateMonitor._visited
       (IceCandidateMonitor.accept candidate candidateStats) = true.
Proof.
  intros H Hc.
  assert (E : IceTransportMonitor.elapsedInMs this stats <= 0)
    by (unfold IceTransportMonitor.elapsedInMs; lra).
  rewrite (accept_stale this stats E).
  rewrite (candidate_accept_stale candidate candidateStats Hc).
  repeat split; destruct c; reflexivity.
Qed.

(** The late report of [Samples] (1500 ms) reaches monitors that stand at
    2000 ms. *)
Lemma C2_stale_record_ignored_witness :
  let this := IceTransportMonitor.accept Samples.transport Samples.report2 in
  let late := Samples.candidateStats 1500 (Value "10.0.0.2"%string) in
  IceTransportMonitor.accept this Samples.lateReport
  = IceTransportMonitor.set_visited true this
  /\ IceCandidateMonitor.accept Samples.candidate late
     = IceCandidateMonitor.set_visited true Samples.candidate.
Proof.
  cbv zeta.
  assert (H1 : IceTransportStats.timestamp Samples.lateReport
               <= IceTransportMonitor.timestamp
                    (IceTransportMonitor.accept Samples.transport Samples.report2))
    by (vm_compute; discriminate).
  assert (H2 : IceCandidateStats.timestamp
                 (Samples.candidateStats 1500 (Value "10.0.0.2"%string))
               <= IceCandidateMonitor.timestamp Samples.candidate)
    by (vm_compute; discriminate).
  destruct (C2_stale_record_ignored _ _ _ _ H1 H2) as (A & _ & _ & _ & B & _).
  split; [exact A | exact B].
Defined.

(** The late report carries [packetsSent = 99] and [address = 10.0.0.2];
    after [accept] the monitors still hold 30 and 10.0.0.1, and the
    timestamp 2000. *)
Lemma C2_counterexample :
  let this := IceTransportMonitor.accept Samples.transport Samples.report2 in
  let late := Samples.candidateStats 1500 (Value "10.0.0.2"%string) in
  IceTransportStats.timestamp Samples.lateReport <= IceTransportMonitor.timestamp this
  /\ read (IceTransportStats.packetsSent Samples.lateReport) = Some 99
  /\ IceTransportMonitor.packetsSent
       (IceTransportMonitor.accept this Samples.lateReport) = Some 30
  /\ IceTransportMonitor.timestamp
       (IceTransportMonitor.accept this Samples.lateReport) = 2000
  /\ IceCandidateStats.timestamp late <= IceCandidateMonitor.timestamp Samples.candidate
  /\ read (IceCandidateStats.address late) = Some "10.0.0.2"%string
  /\ IceCandidateMonitor.address
       (IceCandidateMonitor.accept Samples.candidate late) = Some "10.0.0.1"%string.
Proof.
  cbv zeta. repeat split; try (vm_compute; discriminate); vm_compute; reflexivity.
Qed.

(** *** Rates *)

Section IceTransportRates.

Import IceTransportMonitor.

Variable this : t.
Variable stats : S.t.

Hypothesis elapsed : 0 < elapsedInMs this stats.

Lemma accept_sendingBitrate :
  sendingBitrate (accept this stats) =
    match both (bytesSent this) (read (S.bytesSent stats)) with
    | Some (prev, next) =>
        Some (((next - prev) * 8) / ((S.timestamp stats - timestamp this) / 1000))
    | None => sendingBitrate this
    end.
Proof.
  pose proof elapsed as H. apply leb_false in H. unfold elapsedInMs in H.
  unfold accept. simpl. rewrite H.
  destruct (both (bytesSent this) _) as [[? ?]|];
    destruct (both (bytesReceived this) _) as [[? ?]|]; reflexivity.
Qed.

Lemma accept_receivingBitrate :
  receivingBitrate (accept this stats) =
    match both (bytesReceived this) (read (S.bytesReceived stats)) with
    | Some (prev, next) =>
        Some (((next - prev) * 8) / ((S.timestamp stats - timestamp this) / 1000))
    | None => receivingBitrate this
    end.
Proof.
  pose proof elapsed as H. apply leb_false in H. unfold elapsedInMs in H.
  unfold accept. simpl. rewrite H.
  destruct (both (bytesSent this) _) as [[? ?]|];
    destruct (both (bytesReceived this) _) as [[? ?]|]; reflexivity.
Qed.

(** A rate computed from a counter that did not go down is not negative. *)
Lemma rate_nonneg (prev next : number) :
  prev <= next ->
  0 <= ((next - prev) * 8) / ((S.timestamp stats - timestamp this) / 1000).
Proof.
  intro H. pose proof elapsed as He. unfold elapsedInMs in He.
  apply Qle_shift_div_l.
  - apply Qlt_shift_div_l; lra.
  - lra.
Qed.

End IceTransportRates.

(** C3, as the code has it.  When the elapsed time is strictly positive and
    the stored and the incoming value of a byte counter are both numbers
    other than 0, [accept] sets the delta to the incoming minus the stored
    value and the rate to delta * 8 / elapsedSeconds, with elapsedSeconds
    the difference of the timestamps divided by 1000: [sendingBitrate] from
    [bytesSent], [receivingBitrate] from [bytesReceived]. *)
Theorem C3_bitrate_formula
    (c : TransportCounters.Counter)
    (this : IceTransportMonitor.t) (stats : IceTransportStats.t)
    (prev next : number) :
  TransportCounters.isBytes c = true ->
  IceTransportMonitor.timestamp this < IceTransportStats.timestamp stats ->
  TransportCounters.stored c this = Some prev ->
  TransportCounters.incoming c stats = Some next ->
  ~ prev == 0 -> ~ next == 0 ->
  let elapsedSeconds :=
    (IceTransportStats.timestamp stats - IceTransportMonitor.timestamp this) / 1000 in
  let after := IceTransportMonitor.accept this stats in
  TransportCounters.delta c after = Some (next - prev)
  /\ TransportCounters.rate c after = Some (((next - prev) * 8) / elapsedSeconds).
Proof.
  intros Hc Ht Hs Hi Zp Zn elapsedSeconds after.
  assert (E : 0 < IceTransportMonitor.elapsedInMs this stats)
    by (unfold IceTransportMonitor.elapsedInMs; lra).
  assert (B : both (TransportCounters.stored c this) (TransportCounters.incoming c stats)
              = Some (prev, next)).
  { apply both_Some. rewrite Hs, Hi.
    repeat split; apply truthy_Some; assumption. }
  subst after elapsedSeconds. split.
  - rewrite (accept_delta this stats c E), B. reflexivity.
  - destruct c; try discriminate; simpl in *.
    + rewrite (accept_sendingBitrate this stats E), B. reflexivity.
    + rewrite (accept_receivingBitrate this stats E), B. reflexivity.
Qed.

(** From 1000 to 3000 sent bytes in one second. *)
Lemma C3_bitrate_formula_witness :
  IceTransportMonitor.sendingBitrate
    (IceTransportMonitor.accept Samples.transport Samples.report2)
  = Some (((3000 - 1000) * 8) / ((2000 - 1000) / 1000)).
Proof.
  assert (H : IceTransportMonitor.timestamp Samples.transport
              < IceTransportStats.timestamp Samples.report2) by reflexivity.
  exact (proj2 (C3_bitrate_formula TransportCounters.BytesSent
                  Samples.transport Samples.report2 1000 3000
                  eq_refl H eq_refl eq_refl
                  ltac:(discriminate) ltac:(discriminate))).
Defined.

(** A stored byte counter that is present with the value 0 does not pass
    the guard: from 0 to 8000 bytes in one second [accept] computes neither
    the delta nor the rate, where the formula gives 64000. *)
Lemma C3_counterexample :
  0 < IceTransportMonitor.elapsedInMs Samples.idleTransport Samples.busyReport
  /\ IceTransportMonitor.bytesSent Samples.idleTransport = Some 0
  /\ read (IceTransportStats.bytesSent Samples.busyReport) = Some 8000
  /\ ((8000 - 0) * 8) / ((2000 - 1000) / 1000) == 64000
  /\ IceTransportMonitor.sendingBitrate
       (IceTransportMonitor.accept Samples.idleTransport Samples.busyReport) = None
  /\ IceTransportMonitor.deltaBytesSent
       (IceTransportMonitor.accept Samples.idleTransport Samples.busyReport) = None.
Proof.
  repeat split; vm_compute; reflexivity.
Qed.

Section IceTransportNonNegative.

Import IceTransportMonitor TransportCounters.

Lemma accept_nonNegative (this : t) (stats : S.t) :
  nonNegative (sendingBitrate this) ->
  nonNegative (receivingBitrate this) ->
  notDecreasing this stats ->
  nonNegative (sendingBitrate (accept this stats))
  /\ nonNegative (receivingBitrate (accept this stats)).
Proof.
  intros Hs Hr Hm.
  destruct (Qlt_le_dec 0 (elapsedInMs this stats)) as [E|E].
  - rewrite (accept_sendingBitrate this stats E),
            (accept_receivingBitrate this stats E).
    split.
    + destruct (both (bytesSent this) _) as [[p n]|] eqn:B; [|exact Hs].
      apply both_Some in B. destruct B as (B1 & B2 & _).
      simpl. apply (rate_nonneg this stats E).
      exact (Hm BytesSent p n eq_refl E B1 B2).
    + destruct (both (bytesReceived this) _) as [[p n]|] eqn:B; [|exact Hr].
      apply both_Some in B. destruct B as (B1 & B2 & _).
      simpl. apply (rate_nonneg this stats E).
      exact (Hm BytesReceived p n eq_refl E B1 B2).
  - rewrite (accept_stale this stats E). simpl. auto.
Qed.

Lemma accept_all_nonNegative (l : list S.t) :
  forall this,
    nonNegative (sendingBitrate this) ->
    nonNegative (receivingBitrate this) ->
    monotone this l ->
    nonNegative (sendingBitrate (accept_all this l))
    /\ nonNegative (receivingBitrate (accept_all this l)).
Proof.
  induction l as [|s r IH]; intros this Hs Hr Hm.
  - simpl. auto.
  - destruct Hm as [Hm1 Hm2]. rewrite accept_all_cons.
    destruct (accept_nonNegative this s Hs Hr Hm1) as [A B].
    apply IH; assumption.
Qed.

End IceTransportNonNegative.

Section OutboundTrackSums.

Import OutboundTrackMonitor.

(** The bitrate and packet-rate accumulators stay non-negative over
    layers whose own rates are absent or non-negative. *)
Lemma fold_add_nonneg (l : list (number * OutboundRtp)) :
  forall b j f s r b' j' f' s' r',
    fold_left add l (b, j, f, s, r) = (b', j', f', s', r') ->
    0 <= b -> 0 <= s ->
    (forall e, In e l ->
       TransportCounters.nonNegative (rtp_bitrate (snd e))
       /\ TransportCounters.nonNegative (rtp_packetRate (snd e))) ->
    0 <= b' /\ 0 <= s'.
Proof.
  induction l as [|e l IH]; intros b j f s r b' j' f' s' r' E Hb Hs Hall.
  - simpl in E. inversion E; subst. auto.
  - simpl in E. eapply IH; [exact E| | |].
    + destruct (Hall e (or_introl eq_refl)) as [H _].
      destruct (rtp_bitrate (snd e)); simpl in *; lra.
    + destruct (Hall e (or_introl eq_refl)) as [_ H].
      destruct (rtp_packetRate (snd e)); simpl in *; lra.
    + intros e' He'. apply Hall. right. exact He'.
Qed.

Lemma update_nonNegative (this : t) :
  (forall e, In e (mappedOutboundRtp this) ->
     TransportCounters.nonNegative (rtp_bitrate (snd e))
     /\ TransportCounters.nonNegative (rtp_packetRate (snd e))) ->
  TransportCounters.nonNegative (bitrate (update this))
  /\ TransportCounters.nonNegative (sendingPacketRate (update this)).
Proof.
  intro Hall. unfold update.
  destruct (fold_left add (mappedOutboundRtp this) (0, 0, 0, 0, 0))
    as [[[[b j] f] s] r] eqn:E.
  simpl.
  apply (fold_add_nonneg _ _ _ _ _ _ _ _ _ _ _ E); [lra | lra | exact Hall].
Qed.

End OutboundTrackSums.

(** C4, as the code has it.  Starting from a monitor whose rates are absent
    or non-negative (a freshly constructed one has none), every sequence of
    [accept] calls in which no byte counter of a record is below the stored
    one leaves [sendingBitrate] and [receivingBitrate] absent or
    non-negative; and [OutboundTrackMonitor.update] yields a non-negative
    [bitrate] and [sendingPacketRate] when the rates of its layers are absent
    or non-negative. *)
Theorem C4_rates_non_negative
    (this : IceTransportMonitor.t) (l : list IceTransportStats.t)
    (track : OutboundTrackMonitor.t) :
  TransportCounters.nonNegative (IceTransportMonitor.sendingBitrate this) ->
  TransportCounters.nonNegative (IceTransportMonitor.receivingBitrate this) ->
  TransportCounters.monotone this l ->
  (forall e, In e (OutboundTrackMonitor.mappedOutboundRtp track) ->
     TransportCounters.nonNegative (OutboundTrackMonitor.rtp_bitrate (snd e))
     /\ TransportCounters.nonNegative (OutboundTrackMonitor.rtp_packetRate (snd e))) ->
  TransportCounters.nonNegative
    (IceTransportMonitor.sendingBitrate (IceTransportMonitor.accept_all this l))
  /\ TransportCounters.nonNegative
       (IceTransportMonitor.receivingBitrate (IceTransportMonitor.accept_all this l))
  /\ TransportCounters.nonNegative
       (OutboundTrackMonitor.bitrate (OutboundTrackMonitor.update track))
  /\ TransportCounters.nonNegative
       (OutboundTrackMonitor.sendingPacketRate (OutboundTrackMonitor.update track)).
Proof.
  intros Hs Hr Hm Hall.
  destruct (accept_all_nonNegative l this Hs Hr Hm) as [A B].
  destruct (update_nonNegative track Hall) as [C D].
  auto.
Qed.

(** The two reports of [Samples], the second one accepted twice, and the
    two-layer track. *)
Lemma C4_rates_non_negative_witness :
  TransportCounters.nonNegative
    (IceTransportMonitor.sendingBitrate
       (IceTransportMonitor.accept_all Samples.transport
          [Samples.report2; Samples.report2]))
  /\ TransportCounters.nonNegative
       (OutboundTrackMonitor.bitrate (OutboundTrackMonitor.update Samples.track)).
Proof.
  assert (Hm : TransportCounters.monotone Samples.transport
                 [Samples.report2; Samples.report2]).
  { simpl. repeat split; intros c prev next _ _ Hp Hn;
      destruct c; vm_compute in Hp, Hn; inversion Hp; inversion Hn;
      vm_compute; discriminate. }
  assert (Hall : forall e,
             In e (OutboundTrackMonitor.mappedOutboundRtp Samples.track) ->
             TransportCounters.nonNegative (OutboundTrackMonitor.rtp_bitrate (snd e))
             /\ TransportCounters.nonNegative
                  (OutboundTrackMonitor.rtp_packetRate (snd e))).
  { intros e [<-|[<-|[]]]; simpl; split; try exact I; vm_compute; discriminate. }
  destruct (C4_rates_non_negative Samples.transport
              [Samples.report2; Samples.report2] Samples.track I I Hm Hall)
    as (A & _ & C & _).
  split; [exact A | exact C].
Defined.

(** A sent-byte counter that falls from 1000 to 500 within one second
    gives [deltaBytesSent = -500] and [sendingBitrate = -4000]. *)
Lemma C4_counterexample :
  IceTransportMonitor.sendingBitrate Samples.transport = None
  /\ exists rate,
       IceTransportMonitor.sendingBitrate
         (IceTransportMonitor.accept Samples.transport Samples.resetReport)
       = Some rate
       /\ rate == - (4000)
       /\ rate < 0.
Proof.
  split; [reflexivity|].
  eexists. split; [vm_compute; reflexivity|].
  split; vm_compute; reflexivity.
Qed.

(** *** Re-ingestion *)

Section Reingestion.

Import IceTransportMonitor.

(** Accepting the same record a second time changes nothing. *)
Lemma accept_idempotent (this : t) (stats : S.t) :
  accept (accept this stats) stats = accept this stats.
Proof.
  destruct (Qlt_le_dec 0 (elapsedInMs this stats)) as [E|E].
  - assert (E' : elapsedInMs (accept this stats) stats <= 0).
    { unfold elapsedInMs. rewrite (accept_timestamp this stats E). lra. }
    rewrite (accept_stale _ stats E').
    apply set_visited_same. apply accept_visited.
  - rewrite (accept_stale this stats E).
    rewrite (accept_stale (set_visited true this) stats E).
    reflexivity.
Qed.

Lemma accept_constructor (stats : S.t) (appData : prop record) :
  accept (constructor stats appData) stats = constructor stats appData.
Proof.
  assert (E : elapsedInMs (constructor stats appData) stats <= 0)
    by (unfold elapsedInMs; simpl; lra).
  rewrite (accept_stale _ stats E). reflexivity.
Qed.

Lemma store_accept_idempotent (store : StatsStorage.t) (stats : S.t) :
  StatsStorage.accept (StatsStorage.accept store stats) stats
  = StatsStorage.accept store stats.
Proof.
  induction store as [|[k entry] rest IH]; simpl.
  - rewrite String.eqb_refl, accept_constructor. reflexivity.
  - destruct (String.eqb k (S.id stats)) eqn:K; simpl; rewrite K.
    + rewrite accept_idempotent. reflexivity.
    + rewrite IH. reflexivity.
Qed.

Lemma store_accept_one_entry (store : StatsStorage.t) (stats : S.t) :
  (List.length (StatsStorage.entriesOf store (S.id stats)) <= 1)%nat ->
  List.length (StatsStorage.entriesOf (StatsStorage.accept store stats) (S.id stats))
  = 1%nat.
Proof.
  unfold StatsStorage.entriesOf.
  induction store as [|[k entry] rest IH]; simpl; intro H.
  - rewrite String.eqb_refl. reflexivity.
  - destruct (String.eqb k (S.id stats)) eqn:K; simpl; rewrite K.
    + simpl in *. lia.
    + apply IH. exact H.
Qed.

End Reingestion.

(** C5, as the code has it.  Accepting again a record that was just
    accepted is a no-op on the monitor: every field, the delta fields
    included, is as the first ingestion left it, so a delta the first
    ingestion computed is kept and not replaced by zero.  In the store the
    second ingestion changes nothing either, and a store that held at most
    one entry for the id holds exactly one after it. *)
Theorem C5_reingestion_is_noop
    (this : IceTransportMonitor.t) (stats : IceTransportStats.t)
    (store : StatsStorage.t) :
  (List.length (StatsStorage.entriesOf store (IceTransportStats.id stats)) <= 1)%nat ->
  IceTransportMonitor.accept (IceTransportMonitor.accept this stats) stats
  = IceTransportMonitor.accept this stats
  /\ (forall c,
        TransportCounters.delta c
          (IceTransportMonitor.accept (IceTransportMonitor.accept this stats) stats)
        = TransportCounters.delta c (IceTransportMonitor.accept this stats))
  /\ StatsStorage.accept (StatsStorage.accept store stats) stats
     = StatsStorage.accept store stats
  /\ List.length
       (StatsStorage.entriesOf
          (StatsStorage.accept (StatsStorage.accept store stats) stats)
          (IceTransportStats.id stats))
     = 1%nat.
Proof.
  intro H. split; [apply accept_idempotent|].
  split; [intro c; rewrite accept_idempotent; reflexivity|].
  split; [apply store_accept_idempotent|].
  rewrite store_accept_idempotent. apply store_accept_one_entry. exact H.
Qed.

(** The second report accepted twice by the monitor and by the store that
    holds the transport. *)
Lemma C5_reingestion_is_noop_witness :
  IceTransportMonitor.accept
    (IceTransportMonitor.accept Samples.transport Samples.report2) Samples.report2
  = IceTransportMonitor.accept Samples.transport Samples.report2
  /\ List.length
       (StatsStorage.entriesOf
          (StatsStorage.accept (StatsStorage.accept Samples.store Samples.report2)
             Samples.report2)
          "T1")
     = 1%nat.
Proof.
  assert (H : (List.length
                 (StatsStorage.entriesOf Samples.store
                    (IceTransportStats.id Samples.report2)) <= 1)%nat)
    by (vm_compute; lia).
  destruct (C5_reingestion_is_noop Samples.transport Samples.report2
              Samples.store H) as (A & _ & _ & B).
  split; [exact A | exact B].
Defined.

(** The second report raises [packetsSent] from 10 to 30; after it is
    accepted a second time [deltaPacketsSent] still holds 20, and
    [sendingBitrate] still holds 16000. *)
Lemma C5_counterexample :
  let once := IceTransportMonitor.accept Samples.transport Samples.report2 in
  let twice := IceTransportMonitor.accept once Samples.report2 in
  IceTransportMonitor.timestamp once = IceTransportStats.timestamp Samples.report2
  /\ exists d,
       IceTransportMonitor.deltaPacketsSent twice = Some d
       /\ d == 20 /\ ~ d == 0.
Proof.
  cbv zeta. split; [vm_compute; reflexivity|].
  eexists. split; [vm_compute; reflexivity|].
  split; [vm_compute; reflexivity | vm_compute; discriminate].
Qed.

(** *** The visited flag *)

(** C10.  Reading [visited] returns the flag and clears it, leaving the
    rest of the monitor alone; so after any [accept] the first read gives
    [true] and a second read right after it gives [false].  This holds for
    the transport and for the candidate monitor. *)
Theorem C10_visited_destructive_read
    (this : IceTransportMonitor.t) (stats : IceTransportStats.t)
    (candidate : IceCandidateMonitor.t) (candidateStats : IceCandidateStats.t) :
  IceTransportMonitor.visited this
  = (IceTransportMonitor._visited this, IceTransportMonitor.set_visited false this)
  /\ (let first := IceTransportMonitor.visited (IceTransportMonitor.accept this stats) in
      let second := IceTransportMonitor.visited (snd first) in
      fst first = true /\ fst second = false)
  /\ IceCandidateMonitor.visited candidate
     = (IceCandidateMonitor._visited candidate,
        IceCandidateMonitor.set_visited false candidate)
  /\ (let first :=
        IceCandidateMonitor.visited
          (IceCandidateMonitor.accept candidate candidateStats) in
      let second := IceCandidateMonitor.visited (snd first) in
      fst first = true /\ fst second = false).
Proof.
  split; [reflexivity|]. split.
  - cbv zeta. unfold IceTransportMonitor.visited. simpl.
    split; [apply accept_visited | reflexivity].
  - split; [reflexivity|]. cbv zeta. unfold IceCandidateMonitor.visited. simpl.
    split; [apply candidate_accept_visited | reflexivity].
Qed.

(* ================================================================== *)
(** ** Properties: AudioDesyncDetector *)
(* ================================================================== *)

Section AudioDesync.

Import AudioDesyncDetector.

Lemma set_desync_same (r : InboundRtp) : set_desync (desync r) r = r.
Proof. destruct r; reflexivity. Qed.

Lemma skipped_false (this : t) (r : InboundRtp) :
  skipped this r = false <->
  1 <= dCorrectedSamples this r /\ 1 <= nullish (receivingAudioSamples r) 0.
Proof.
  unfold skipped. rewrite orb_false_iff, !ltb_false. tauto.
Qed.

Lemma update_flag (now : number) (config : Config) (this : t) (r : InboundRtp) :
  exists this' evs,
    update now config this (Some r)
    = (this', Some (set_desync (nextFlag config this r) r), evs)
    /\ _prevCorrectedSamples this' = _prevCorrectedSamples this.
Proof.
  unfold update, nextFlag, returnsEarly.
  destruct (negb (String.eqb (kind r) "audio")); simpl;
    [rewrite set_desync_same; eauto|].
  destruct (disabled config); simpl; [rewrite set_desync_same; eauto|].
  destruct (skipped this r); simpl; [rewrite set_desync_same; eauto|].
  destruct (desync r) eqn:D; simpl.
  - destruct (ltb (fractionalCorrectionAlertOffThreshold config)
                  (fractionalCorrection this r)); simpl; eauto.
  - destruct (ltb (fractionalCorrectionAlertOnThreshold config)
                  (fractionalCorrection this r)); simpl; eauto.
Qed.

Lemma desyncAfter_nextFlag (now : number) (config : Config) (this : t)
                           (r : InboundRtp) :
  desyncAfter now config this r = nextFlag config this r.
Proof.
  unfold desyncAfter.
  destruct (update_flag now config this r) as (this' & evs & E & _).
  rewrite E. reflexivity.
Qed.

(** The event of the transition from off to on. *)
Lemma update_turns_on (now : number) (config : Config) (this : t)
                      (r : InboundRtp) :
  desync r = false -> desyncAfter now config this r = true ->
  eventsOf now config this r = [EmitAudioDesyncTrack].
Proof.
  intros D. rewrite desyncAfter_nextFlag.
  unfold nextFlag, returnsEarly, eventsOf, update.
  destruct (negb (String.eqb (kind r) "audio")); simpl; [congruence|].
  destruct (disabled config); simpl; [congruence|].
  destruct (skipped this r); simpl; [congruence|].
  rewrite D. simpl. intros ->. reflexivity.
Qed.

Lemma skipped_prev (a b : t) (r : InboundRtp) :
  _prevCorrectedSamples a = _prevCorrectedSamples b ->
  skipped a r = skipped b r /\ fractionalCorrection a r = fractionalCorrection b r.
Proof.
  intro E. unfold skipped, fractionalCorrection, dCorrectedSamples.
  rewrite E. auto.
Qed.

Lemma desync_run_cons (this : t) (flag : bool) (c : Cycle) (rest : list Cycle) :
  run this flag (c :: rest) =
    match update (c_now c) (c_config c) this
                 (Some (set_desync flag (c_inboundRtp c))) with
    | (this', Some r, evs) =>
        let '(this'', flag'', evs') := run this' (desync r) rest in
        (this'', flag'', evs ++ evs')
    | (this', None, evs) =>
        let '(this'', flag'', evs') := run this' flag rest in
        (this'', flag'', evs ++ evs')
    end.
Proof. reflexivity. Qed.

(** A run that starts on and ends off contains an interval that was not
    skipped and whose fraction did not exceed the off threshold. *)
Lemma run_off (cycles : list Cycle) (this0 : t) :
  forall this,
    _prevCorrectedSamples this = _prevCorrectedSamples this0 ->
    snd (fst (run this true cycles)) = false ->
    exists c,
      In c cycles
      /\ returnsEarly (c_config c) this0 (c_inboundRtp c) = false
      /\ fractionalCorrection this0 (c_inboundRtp c)
         <= fractionalCorrectionAlertOffThreshold (c_config c).
Proof.
  induction cycles as [|c rest IH]; intros this P H.
  - simpl in H. discriminate.
  - rewrite desync_run_cons in H.
    destruct (update_flag (c_now c) (c_config c) this
                (set_desync true (c_inboundRtp c))) as (this' & evs & E & P').
    rewrite E in H. cbv beta iota in H.
    change (desync (set_desync ?b ?r)) with b in H.
    destruct (skipped_prev this this0 (c_inboundRtp c) P) as [Sk Fr].
    unfold nextFlag, returnsEarly in H. simpl in H.
    change (skipped this (set_desync true (c_inboundRtp c)))
      with (skipped this (c_inboundRtp c)) in H.
    change (fractionalCorrection this (set_desync true (c_inboundRtp c)))
      with (fractionalCorrection this (c_inboundRtp c)) in H.
    rewrite Sk, Fr in H.
    destruct (negb (String.eqb (kind (c_inboundRtp c)) "audio")
              || disabled (c_config c)
              || skipped this0 (c_inboundRtp c)) eqn:R.
    + destruct (run this' true rest) as [[a b] e] eqn:Rn. simpl in H.
      destruct (IH this' (eq_trans P' P)) as (c' & I & A & B).
      * rewrite Rn. exact H.
      * exists c'. split; [right; exact I | split; assumption].
    + destruct (ltb (fractionalCorrectionAlertOffThreshold (c_config c))
                    (fractionalCorrection this0 (c_inboundRtp c))) eqn:L.
      * destruct (run this' true rest) as [[a b] e] eqn:Rn. simpl in H.
        destruct (IH this' (eq_trans P' P)) as (c' & I & A & B).
        -- rewrite Rn. exact H.
        -- exists c'. split; [right; exact I | split; assumption].
      * exists c. split; [left; reflexivity|]. split.
        -- exact R.
        -- apply ltb_false. exact L.
Qed.

End AudioDesync.

(** The rule of [update] over the quantity it computes.  With an audio
    stream, the detector enabled and the alert off, [update] turns the
    alert on if and only if the interval is not skipped ([dCorrectedSamples]
    and the received samples are both at least 1) and the fraction
    d / (d + received) is strictly above the on threshold; it then emits the
    desync event.  With [dCorrectedSamples] 50, 450 received samples and the
    on threshold 0.1 the alert stays off, with 60 it turns on. *)
Lemma desync_turns_on
    (now : number) (config : AudioDesyncDetector.Config)
    (this : AudioDesyncDetector.t) (inboundRtp : AudioDesyncDetector.InboundRtp) :
  AudioDesyncDetector.kind inboundRtp = "audio"%string ->
  AudioDesyncDetector.disabled config = false ->
  AudioDesyncDetector.desync inboundRtp = false ->
  let d := AudioDesyncDetector.dCorrectedSamples this inboundRtp in
  let r := nullish (AudioDesyncDetector.receivingAudioSamples inboundRtp) 0 in
  let on := AudioDesyncDetector.fractionalCorrectionAlertOnThreshold config in
  let after := AudioDesyncDetector.desyncAfter now config this inboundRtp in
  (after = true <-> 1 <= d /\ 1 <= r /\ on < d / (d + r))
  /\ (after = true ->
      AudioDesyncDetector.eventsOf now config this inboundRtp
      = [AudioDesyncDetector.EmitAudioDesyncTrack])
  /\ (d == 50 -> r == 450 -> on == 0.1 -> after = false)
  /\ (d == 60 -> r == 450 -> on == 0.1 -> after = true).
Proof.
  intros Hk Hd Hoff d r on after.
  assert (A : after = true <-> 1 <= d /\ 1 <= r /\ on < d / (d + r)).
  { subst after. rewrite desyncAfter_nextFlag.
    unfold AudioDesyncDetector.nextFlag, AudioDesyncDetector.returnsEarly.
    rewrite Hk, Hd, Hoff. simpl.
    destruct (AudioDesyncDetector.skipped this inboundRtp) eqn:S.
    - split; [discriminate|]. intros (H1 & H2 & _).
      assert (F : AudioDesyncDetector.skipped this inboundRtp = false)
        by (apply skipped_false; split; assumption).
      congruence.
    - apply skipped_false in S. destruct S as [S1 S2].
      rewrite ltb_true. unfold AudioDesyncDetector.fractionalCorrection.
      fold d r on. tauto. }
  split; [exact A|]. split; [|split].
  - intro H. apply update_turns_on; assumption.
  - intros E1 E2 E3. destruct after; [|reflexivity].
    destruct (proj1 A eq_refl) as (_ & _ & H).
    rewrite E1, E2, E3 in H. vm_compute in H. discriminate.
  - intros E1 E2 E3. apply A. rewrite E1, E2, E3.
    repeat split; vm_compute; congruence.
Qed.

(** 30 inserted and 30 removed samples against 450 received ones, with the
    thresholds 0.1 and 0.05. *)
Lemma desync_turns_on_example :
  AudioDesyncDetector.desyncAfter 5000 (Samples.desyncConfig 0.1 0.05)
    AudioDesyncDetector.constructor (Samples.audioRtp 30 false) = true
  /\ AudioDesyncDetector.desyncAfter 5000 (Samples.desyncConfig 0.1 0.05)
       AudioDesyncDetector.constructor (Samples.audioRtp 20 false) = false.
Proof.
  split.
  - refine (proj2 (proj2 (proj2
      (desync_turns_on 5000 (Samples.desyncConfig 0.1 0.05)
         AudioDesyncDetector.constructor (Samples.audioRtp 30 false)
         eq_refl eq_refl eq_refl))) _ _ _); reflexivity.
  - refine (proj1 (proj2 (proj2
      (desync_turns_on 5000 (Samples.desyncConfig 0.1 0.05)
         AudioDesyncDetector.constructor (Samples.audioRtp 20 false)
         eq_refl eq_refl eq_refl))) _ _ _); reflexivity.
Defined.

Section AudioDesyncTotals.

Import AudioDesyncDetector.

(** No call of [update] assigns [_prevCorrectedSamples]. *)
Lemma run_prevCorrectedSamples (cycles : list Cycle) :
  forall this flag,
    _prevCorrectedSamples (fst (fst (run this flag cycles)))
    = _prevCorrectedSamples this.
Proof.
  induction cycles as [|c rest IH]; intros this flag; [reflexivity|].
  rewrite desync_run_cons.
  destruct (update_flag (c_now c) (c_config c) this
              (set_desync flag (c_inboundRtp c))) as (this' & evs & E & P).
  rewrite E. cbv beta iota.
  specialize (IH this' (desync (set_desync
                 (nextFlag (c_config c) this (set_desync flag (c_inboundRtp c)))
                 (set_desync flag (c_inboundRtp c))))).
  destruct (run this' _ rest) as [[a b] e]. simpl in *.
  rewrite IH. exact P.
Qed.

End AudioDesyncTotals.

(** C6: the alert should turn on exactly when the interval is not skipped
    and correctedSamplesDelta / (correctedSamplesDelta + receivedSamplesDelta)
    is strictly above the on threshold.  The code subtracts
    [_prevCorrectedSamples] from the total of corrected samples, but no call
    of [update] ever assigns that field, so what it compares with the
    threshold is the running total.  With the thresholds 0.1 and 0.05: a
    first interval brings the total to 40 with 450 received samples and
    leaves the alert off; a second interval brings the total to 90, that is
    50 corrected samples against 450 received ones, fraction 0.1, which is
    not above 0.1; [update] computes 90 / (90 + 450) and turns the alert
    on. *)
Theorem C6_delta_is_running_total :
  (forall this flag cycles,
     AudioDesyncDetector._prevCorrectedSamples
       (fst (fst (AudioDesyncDetector.run this flag cycles)))
     = AudioDesyncDetector._prevCorrectedSamples this)
  /\ (let config := Samples.desyncConfig 0.1 0.05 in
      let first := Samples.audioRtp 10 false in
      let second := Samples.audioRtp 60 false in
      let this :=
        fst (fst (AudioDesyncDetector.update 4000 config
                    AudioDesyncDetector.constructor (Some first))) in
      AudioDesyncDetector.desyncAfter 4000 config
        AudioDesyncDetector.constructor first = false
      /\ AudioDesyncDetector.correctedSamplesDelta first second == 50
      /\ nullish (AudioDesyncDetector.receivingAudioSamples second) 0 == 450
      /\ AudioDesyncDetector.specFractionalCorrection first second == 0.1
      /\ ~ AudioDesyncDetector.fractionalCorrectionAlertOnThreshold config
          < AudioDesyncDetector.specFractionalCorrection first second
      /\ AudioDesyncDetector.dCorrectedSamples this second == 90
      /\ AudioDesyncDetector.desyncAfter 5000 config this second = true
      /\ AudioDesyncDetector.eventsOf 5000 config this second
         = [AudioDesyncDetector.EmitAudioDesyncTrack]).
Proof.
  split; [intros this flag cycles; apply run_prevCorrectedSamples|].
  cbv zeta. repeat split; try (vm_compute; congruence).
Qed.

(** C7, as the code has it.  Over every sequence of [update] calls on one
    target, an alert that is on goes off only in an interval that is not
    skipped and whose fraction is at or below the off threshold; as long as
    the fraction of every interval that is not skipped stays strictly above
    the off threshold the alert stays on, wherever the on threshold lies. *)
Theorem C7_off_only_at_or_below_off_threshold
    (this : AudioDesyncDetector.t) (cycles : list AudioDesyncDetector.Cycle) :
  (snd (fst (AudioDesyncDetector.run this true cycles)) = false ->
   exists c,
     In c cycles
     /\ AudioDesyncDetector.kind (AudioDesyncDetector.c_inboundRtp c) = "audio"%string
     /\ AudioDesyncDetector.disabled (AudioDesyncDetector.c_config c) = false
     /\ AudioDesyncDetector.skipped this (AudioDesyncDetector.c_inboundRtp c) = false
     /\ AudioDesyncDetector.fractionalCorrection this
          (AudioDesyncDetector.c_inboundRtp c)
        <= AudioDesyncDetector.fractionalCorrectionAlertOffThreshold
             (AudioDesyncDetector.c_config c))
  /\ ((forall c,
         In c cycles ->
         AudioDesyncDetector.skipped this (AudioDesyncDetector.c_inboundRtp c) = true
         \/ AudioDesyncDetector.fractionalCorrectionAlertOffThreshold
              (AudioDesyncDetector.c_config c)
            < AudioDesyncDetector.fractionalCorrection this
                (AudioDesyncDetector.c_inboundRtp c)) ->
      snd (fst (AudioDesyncDetector.run this true cycles)) = true).
Proof.
  assert (A : snd (fst (AudioDesyncDetector.run this true cycles)) = false ->
              exists c,
                In c cycles
                /\ AudioDesyncDetector.kind (AudioDesyncDetector.c_inboundRtp c)
                   = "audio"%string
                /\ AudioDesyncDetector.disabled (AudioDesyncDetector.c_config c) = false
                /\ AudioDesyncDetector.skipped this
                     (AudioDesyncDetector.c_inboundRtp c) = false
                /\ AudioDesyncDetector.fractionalCorrection this
                     (AudioDesyncDetector.c_inboundRtp c)
                   <= AudioDesyncDetector.fractionalCorrectionAlertOffThreshold
                        (AudioDesyncDetector.c_config c)).
  { intro H.
    destruct (run_off cycles this this eq_refl H) as (c & I & R & F).
    unfold AudioDesyncDetector.returnsEarly in R.
    apply orb_false_iff in R. destruct R as [R S].
    apply orb_false_iff in R. destruct R as [K D].
    apply negb_false_iff in K. apply String.eqb_eq in K.
    exists c. auto. }
  split; [exact A|].
  intro Hall.
  destruct (snd (fst (AudioDesyncDetector.run this true cycles))) eqn:E;
    [reflexivity|].
  destruct (A eq_refl) as (c & I & _ & _ & S & F).
  destruct (Hall c I) as [S'|F'].
  - congruence.
  - exfalso. exact (Qlt_not_le _ _ F' F).
Qed.

(** An alert that is on meets an interval with 40 corrected samples in 490
    (fraction 4/49) under the thresholds 0.2 and 0.1, and goes off. *)
Lemma C7_off_only_at_or_below_off_threshold_witness :
  exists c,
    In c [Samples.desyncCycle 10 0.2 0.1]
    /\ AudioDesyncDetector.fractionalCorrection AudioDesyncDetector.constructor
         (AudioDesyncDetector.c_inboundRtp c)
       <= AudioDesyncDetector.fractionalCorrectionAlertOffThreshold
            (AudioDesyncDetector.c_config c).
Proof.
  destruct (proj1 (C7_off_only_at_or_below_off_threshold
                     AudioDesyncDetector.constructor
                     [Samples.desyncCycle 10 0.2 0.1]) eq_refl)
    as (c & I & _ & _ & _ & F).
  exists c. split; [exact I | exact F].
Defined.

(** With the thresholds 0.2 and 0.1, an alert that is on and an interval
    with 50 corrected and 450 received samples: the fraction equals the off
    threshold, it is not below it, and the alert goes off. *)
Lemma C7_counterexample :
  let config := Samples.desyncConfig 0.2 0.1 in
  let inboundRtp := Samples.audioRtp 20 true in
  let fraction :=
    AudioDesyncDetector.fractionalCorrection AudioDesyncDetector.constructor
      inboundRtp in
  AudioDesyncDetector.desync inboundRtp = true
  /\ fraction == 0.1
  /\ ~ fraction < AudioDesyncDetector.fractionalCorrectionAlertOffThreshold config
  /\ AudioDesyncDetector.desyncAfter 5000 config AudioDesyncDetector.constructor
       inboundRtp = false.
Proof.
  cbv zeta. repeat split; try (vm_compute; congruence).
Qed.

(* ================================================================== *)
(** ** Properties: LongPcConnectionEstablishmentDetector *)
(* ================================================================== *)

Section LongPcConnectionEstablishment.

Import LongPcConnectionEstablishmentDetector.

(** After the event, a call that does not see 'connected' does nothing. *)
Lemma update_evented (now : number) (config : Config) (pc : PeerConnection)
                     (this : t) :
  _evented this = true ->
  connectionState pc <> Some connected ->
  update now config pc this = (this, []).
Proof.
  intros E N. unfold update.
  destruct (disabled config); [reflexivity|].
  rewrite E.
  destruct (connectionState pc) as [[]|]; simpl; try rewrite E;
    try reflexivity.
  exfalso. apply N. reflexivity.
Qed.

(** A call that does not see 'connected' either leaves the detector as it
    is and emits nothing, or sets the flag and emits the event once. *)
Lemma update_cases (now : number) (config : Config) (pc : PeerConnection)
                   (this : t) :
  connectionState pc <> Some connected ->
  update now config pc this = (this, [])
  \/ exists startedAt,
       update now config pc this
       = ({| _evented := true |},
          [Emit (peerConnectionId pc);
           AddIssue (peerConnectionId pc) startedAt (now - startedAt)]).
Proof.
  intro N.
  destruct (_evented this) eqn:E.
  - left. apply update_evented; assumption.
  - unfold update.
    destruct (disabled config); [left; reflexivity|].
    assert (R : (if negb (is_connecting (connectionState pc))
                 then if _evented this && is_connected (connectionState pc)
                      then {| _evented := false |} else this
                 else this) = this).
    { rewrite E. simpl. destruct (negb _); reflexivity. }
    rewrite R, E.
    destruct (connectingStartedAt pc) as [startedAt|]; [|left; reflexivity].
    destruct (ltb (now - startedAt) (thresholdInMs config));
      [left; reflexivity|].
    right. exists startedAt. reflexivity.
Qed.

Lemma longpc_run_cons (this : t) (c : Cycle) (rest : list Cycle) :
  run this (c :: rest) =
    (fst (run (fst (update (c_now c) (c_config c) (c_peerConnection c) this)) rest),
     snd (update (c_now c) (c_config c) (c_peerConnection c) this)
     ++ snd (run (fst (update (c_now c) (c_config c) (c_peerConnection c) this))
               rest)).
Proof.
  simpl.
  destruct (update (c_now c) (c_config c) (c_peerConnection c) this) as [a b].
  simpl. destruct (run a rest) as [x y]. reflexivity.
Qed.

Lemma run_evented (cycles : list Cycle) (this : t) :
  _evented this = true ->
  (forall c, In c cycles -> connectionState (c_peerConnection c) <> Some connected) ->
  run this cycles = (this, []).
Proof.
  intros E. induction cycles as [|c rest IH]; intro N; [reflexivity|].
  rewrite longpc_run_cons.
  rewrite (update_evented (c_now c) (c_config c) (c_peerConnection c) this E
             (N c (or_introl eq_refl))).
  simpl. rewrite IH; [reflexivity|].
  intros c' I. apply N. right. exact I.
Qed.

(** While the state never shows 'connected' the event is emitted at most
    once, whatever the detector starts from. *)
Lemma run_at_most_once (cycles : list Cycle) :
  forall this,
    (forall c, In c cycles ->
       connectionState (c_peerConnection c) <> Some connected) ->
    (emissions (snd (run this cycles)) <= 1)%nat.
Proof.
  induction cycles as [|c rest IH]; intros this N;
    [unfold emissions; simpl; lia|].
  rewrite longpc_run_cons.
  assert (N' : forall c', In c' rest ->
                 connectionState (c_peerConnection c') <> Some connected)
    by (intros c' I; apply N; right; exact I).
  destruct (update_cases (c_now c) (c_config c) (c_peerConnection c) this
              (N c (or_introl eq_refl))) as [U|(startedAt & U)];
    rewrite U; simpl.
  - apply IH. exact N'.
  - rewrite (run_evented rest {| _evented := true |} eq_refl N').
    simpl. unfold emissions. simpl. lia.
Qed.

(** Seeing 'connected' puts a detector that has fired in the place of one
    that has not. *)
Lemma update_rearms (now : number) (config : Config) (pc : PeerConnection)
                    (this : t) :
  disabled config = false ->
  connectionState pc = Some connected ->
  update now config pc this = update now config pc constructor.
Proof.
  intros D C. unfold update. rewrite D, C. simpl.
  destruct this as [[|]]; reflexivity.
Qed.

End LongPcConnectionEstablishment.

(** C9.  A detector that has not fired, on a peer connection that is
    'connecting' since [startedAt], fires in the [update] call in which the
    time since [startedAt] has reached the threshold: it emits the event
    once, together with the issue, and sets its flag.  In the following
    calls it emits nothing as long as the connection state is not
    'connected'; in any such run of calls, from any detector, the event is
    emitted at most once.  A call that sees 'connected' re-arms it: the
    detector then behaves as one that has never fired. *)
Theorem C9_fires_once_per_episode
    (this : LongPcConnectionEstablishmentDetector.t)
    (c : LongPcConnectionEstablishmentDetector.Cycle) (startedAt : number)
    (cycles : list LongPcConnectionEstablishmentDetector.Cycle)
    (back : LongPcConnectionEstablishmentDetector.Cycle) :
  let pc := LongPcConnectionEstablishmentDetector.c_peerConnection c in
  let now := LongPcConnectionEstablishmentDetector.c_now c in
  let config := LongPcConnectionEstablishmentDetector.c_config c in
  LongPcConnectionEstablishmentDetector.disabled config = false ->
  LongPcConnectionEstablishmentDetector._evented this = false ->
  LongPcConnectionEstablishmentDetector.connectionState pc
  = Some LongPcConnectionEstablishmentDetector.connecting ->
  LongPcConnectionEstablishmentDetector.connectingStartedAt pc = Some startedAt ->
  LongPcConnectionEstablishmentDetector.thresholdInMs config <= now - startedAt ->
  (forall c',
     In c' cycles ->
     LongPcConnectionEstablishmentDetector.connectionState
       (LongPcConnectionEstablishmentDetector.c_peerConnection c')
     <> Some LongPcConnectionEstablishmentDetector.connected) ->
  LongPcConnectionEstablishmentDetector.disabled
    (LongPcConnectionEstablishmentDetector.c_config back) = false ->
  LongPcConnectionEstablishmentDetector.connectionState
    (LongPcConnectionEstablishmentDetector.c_peerConnection back)
  = Some LongPcConnectionEstablishmentDetector.connected ->
  let fired := {| LongPcConnectionEstablishmentDetector._evented := true |} in
  LongPcConnectionEstablishmentDetector.update now config pc this
  = (fired,
     [LongPcConnectionEstablishmentDetector.Emit
        (LongPcConnectionEstablishmentDetector.peerConnectionId pc);
      LongPcConnectionEstablishmentDetector.AddIssue
        (LongPcConnectionEstablishmentDetector.peerConnectionId pc)
        startedAt (now - startedAt)])
  /\ LongPcConnectionEstablishmentDetector.run fired cycles = (fired, [])
  /\ LongPcConnectionEstablishmentDetector.emissions
       (snd (LongPcConnectionEstablishmentDetector.run this (c :: cycles))) = 1%nat
  /\ (forall any,
        (LongPcConnectionEstablishmentDetector.emissions
           (snd (LongPcConnectionEstablishmentDetector.run any cycles)) <= 1)%nat)
  /\ LongPcConnectionEstablishmentDetector.update
       (LongPcConnectionEstablishmentDetector.c_now back)
       (LongPcConnectionEstablishmentDetector.c_config back)
       (LongPcConnectionEstablishmentDetector.c_peerConnection back) fired
     = LongPcConnectionEstablishmentDetector.update
         (LongPcConnectionEstablishmentDetector.c_now back)
         (LongPcConnectionEstablishmentDetector.c_config back)
         (LongPcConnectionEstablishmentDetector.c_peerConnection back)
         LongPcConnectionEstablishmentDetector.constructor.
Proof.
  intros pc now config D E C S T N D' C' fired.
  assert (U : LongPcConnectionEstablishmentDetector.update now config pc this
              = (fired,
                 [LongPcConnectionEstablishmentDetector.Emit
                    (LongPcConnectionEstablishmentDetector.peerConnectionId pc);
                  LongPcConnectionEstablishmentDetector.AddIssue
                    (LongPcConnectionEstablishmentDetector.peerConnectionId pc)
                    startedAt (now - startedAt)])).
  { unfold LongPcConnectionEstablishmentDetector.update.
    rewrite D, C. simpl. rewrite E, S.
    assert (L : ltb (now - startedAt)
                    (LongPcConnectionEstablishmentDetector.thresholdInMs config)
                = false) by (apply ltb_false; exact T).
    rewrite L. reflexivity. }
  assert (R : LongPcConnectionEstablishmentDetector.run fired cycles = (fired, []))
    by (apply run_evented; [reflexivity | exact N]).
  split; [exact U|]. split; [exact R|]. split; [|split].
  - rewrite longpc_run_cons. fold pc now config. rewrite U. simpl. rewrite R. reflexivity.
  - intro any. apply run_at_most_once. exact N.
  - apply update_rearms; assumption.
Qed.

(** Connecting since 1000 ms with the threshold 3000 ms: the call at
    4000 ms fires, the calls at 5000 ms ('connecting') and 6000 ms
    ('failed') do not, and the run emits the event once. *)
Lemma C9_fires_once_per_episode_witness :
  LongPcConnectionEstablishmentDetector.emissions
    (snd (LongPcConnectionEstablishmentDetector.run
            LongPcConnectionEstablishmentDetector.constructor
            [Samples.pcCycle 4000 LongPcConnectionEstablishmentDetector.connecting;
             Samples.pcCycle 5000 LongPcConnectionEstablishmentDetector.connecting;
             Samples.pcCycle 6000 LongPcConnectionEstablishmentDetector.failed]))
  = 1%nat.
Proof.
  assert (N : forall c',
             In c' [Samples.pcCycle 5000 LongPcConnectionEstablishmentDetector.connecting;
                    Samples.pcCycle 6000 LongPcConnectionEstablishmentDetector.failed] ->
             LongPcConnectionEstablishmentDetector.connectionState
               (LongPcConnectionEstablishmentDetector.c_peerConnection c')
             <> Some LongPcConnectionEstablishmentDetector.connected).
  { intros c' [<-|[<-|[]]]; simpl; discriminate. }
  assert (T : 3000 <= 4000 - 1000) by (vm_compute; discriminate).
  exact (proj1 (proj2 (proj2
    (C9_fires_once_per_episode
       LongPcConnectionEstablishmentDetector.constructor
       (Samples.pcCycle 4000 LongPcConnectionEstablishmentDetector.connecting)
       1000
       [Samples.pcCycle 5000 LongPcConnectionEstablishmentDetector.connecting;
        Samples.pcCycle 6000 LongPcConnectionEstablishmentDetector.failed]
       (Samples.pcCycle 7000 LongPcConnectionEstablishmentDetector.connected)
       eq_refl eq_refl eq_refl eq_refl T N eq_refl eq_refl)))).
Defined.

(* ================================================================== *)
(** ** Properties: CongestionDetector *)
(* ================================================================== *)

Section Congestion.

Import CongestionDetector.

Lemma get_set_same (m : States) (k : string) (v : PeerConnectionState) :
  get (set m k v) k = Some v.
Proof.
  induction m as [|[k' v'] m IH]; simpl.
  - rewrite String.eqb_refl. reflexivity.
  - destruct (String.eqb k' k) eqn:E; simpl; rewrite E; [reflexivity|exact IH].
Qed.

Lemma get_set_other (m : States) (k k' : string) (v : PeerConnectionState) :
  k' <> k -> get (set m k' v) k = get m k.
Proof.
  intro N. induction m as [|[k0 v0] m IH]; simpl.
  - destruct (String.eqb k' k) eqn:E; [|reflexivity].
    apply String.eqb_eq in E. contradiction.
  - destruct (String.eqb k0 k') eqn:E; simpl.
    + apply String.eqb_eq in E. subst k0.
      destruct (String.eqb k' k) eqn:E'; [|reflexivity].
      apply String.eqb_eq in E'. contradiction.
    + destruct (String.eqb k0 k); [reflexivity|exact IH].
Qed.

(** Pruning keeps the state of an id that was visited. *)
Lemma get_filter (ids : list string) (m : States) (k : string) :
  has ids k = true ->
  get (filter (fun entry => has ids (fst entry)) m) k = get m k.
Proof.
  intro H. induction m as [|[k' v'] m IH]; simpl; [reflexivity|].
  destruct (String.eqb k' k) eqn:E.
  - apply String.eqb_eq in E. subst k'. rewrite H. simpl.
    rewrite String.eqb_refl. reflexivity.
  - destruct (has ids k'); simpl; [rewrite E|]; exact IH.
Qed.

Lemma has_app (a b : list string) (k : string) :
  has (a ++ b) k = has a k || has b k.
Proof. unfold has. apply existsb_app. Qed.

Lemma congestionEvents_app (a b : list Event) :
  congestionEvents (a ++ b) = (congestionEvents a + congestionEvents b)%nat.
Proof.
  unfold congestionEvents. rewrite filter_app, length_app. reflexivity.
Qed.

(** The main loop emits alert states only. *)
Lemma visit_congestionEvents (l : Loop) (pc : PeerConnectionEntry) :
  congestionEvents (emitted (visit l pc)) = congestionEvents (emitted l).
Proof.
  unfold visit. simpl.
  destruct (Bool.eqb _ _); [reflexivity|].
  destruct (negb _ && _); [rewrite congestionEvents_app; unfold congestionEvents; simpl; lia|].
  destruct (_ && negb _); [rewrite congestionEvents_app; unfold congestionEvents; simpl; lia|].
  reflexivity.
Qed.

Lemma fold_visit_congestionEvents (pcs : list PeerConnectionEntry) :
  forall l,
    congestionEvents (emitted (fold_left visit pcs l))
    = congestionEvents (emitted l).
Proof.
  induction pcs as [|pc pcs IH]; intro l; simpl; [reflexivity|].
  rewrite IH. apply visit_congestionEvents.
Qed.

Lemma visit_gotCongested (l : Loop) (pc : PeerConnectionEntry) :
  gotCongested l = true -> gotCongested (visit l pc) = true.
Proof.
  intro H. unfold visit. simpl. rewrite H.
  destruct (Bool.eqb _ _); [reflexivity|].
  destruct (negb _ && _); reflexivity.
Qed.

Lemma visit_visited (l : Loop) (pc : PeerConnectionEntry) (k : string) :
  has (visitedPeerConnectionIds l) k = true ->
  has (visitedPeerConnectionIds (visit l pc)) k = true.
Proof.
  intro H. unfold visit. simpl. rewrite has_app, H. reflexivity.
Qed.

Lemma visit_get_other (l : Loop) (pc : PeerConnectionEntry) (k : string) :
  pc_peerConnectionId pc <> k ->
  get (_states (visit l pc)) k = get (_states l) k.
Proof.
  intro N. unfold visit. simpl. apply get_set_other. exact N.
Qed.

(** Iterations over other peer connections keep what an earlier
    iteration established for [k]. *)
Lemma fold_visit_keeps (pcs : list PeerConnectionEntry) (k : string) :
  ~ In k (map pc_peerConnectionId pcs) ->
  forall l,
    get (_states (fold_left visit pcs l)) k = get (_states l) k
    /\ (gotCongested l = true -> gotCongested (fold_left visit pcs l) = true)
    /\ (has (visitedPeerConnectionIds l) k = true ->
        has (visitedPeerConnectionIds (fold_left visit pcs l)) k = true).
Proof.
  induction pcs as [|pc pcs IH]; intros N l; simpl; [auto|].
  simpl in N.
  assert (N1 : pc_peerConnectionId pc <> k) by (intro E; apply N; left; exact E).
  assert (N2 : ~ In k (map pc_peerConnectionId pcs))
    by (intro I; apply N; right; exact I).
  destruct (IH N2 (visit l pc)) as (A & B & C).
  split; [|split].
  - rewrite A. apply visit_get_other. exact N1.
  - intro H. apply B. apply visit_gotCongested. exact H.
  - intro H. apply C. apply visit_visited. exact H.
Qed.

(** The iteration for a peer connection that was not congested and now
    is. *)
Lemma visit_gets_congested (l : Loop) (p : PeerConnectionEntry) :
  congested (stateOf (_states l) (pc_peerConnectionId p)) = false ->
  isCongested p = true ->
  get (_states (visit l p)) (pc_peerConnectionId p)
  = Some (nextState (stateOf (_states l) (pc_peerConnectionId p)) p)
  /\ gotCongested (visit l p) = true
  /\ has (visitedPeerConnectionIds (visit l p)) (pc_peerConnectionId p) = true.
Proof.
  intros W C. unfold visit. simpl. rewrite W, C. simpl.
  split; [apply get_set_same|]. split; [reflexivity|].
  rewrite has_app. simpl. rewrite String.eqb_refl. simpl.
  apply orb_true_r.
Qed.

Lemma NoDup_split (pcs l1 l2 : list PeerConnectionEntry) (p : PeerConnectionEntry) :
  NoDup (map pc_peerConnectionId pcs) ->
  pcs = l1 ++ p :: l2 ->
  ~ In (pc_peerConnectionId p) (map pc_peerConnectionId l1)
  /\ ~ In (pc_peerConnectionId p) (map pc_peerConnectionId l2).
Proof.
  intros N ->. rewrite map_app in N. simpl in N.
  apply NoDup_remove_2 in N.
  split; intro I; apply N; apply in_or_app; [left|right]; exact I.
Qed.

(** What [update] leaves for a peer connection that got congested. *)
Lemma update_gets_congested (this : States) (pcs : list PeerConnectionEntry)
                            (p : PeerConnectionEntry) :
  NoDup (map pc_peerConnectionId pcs) ->
  In p pcs ->
  congested (stateOf this (pc_peerConnectionId p)) = false ->
  isCongested p = true ->
  congestionEvents (snd (update this pcs)) = 1%nat
  /\ get (fst (update this pcs)) (pc_peerConnectionId p)
     = Some (nextState (stateOf this (pc_peerConnectionId p)) p).
Proof.
  intros N I W C.
  destruct (in_split p pcs I) as (l1 & l2 & E).
  destruct (NoDup_split pcs l1 l2 p N E) as [N1 N2].
  set (l0 := {| _states := this; visitedPeerConnectionIds := [];
                gotCongested := false; emitted := [] |}).
  assert (F : fold_left visit pcs l0
              = fold_left visit l2 (visit (fold_left visit l1 l0) p))
    by (rewrite E, fold_left_app; reflexivity).
  destruct (fold_visit_keeps l1 (pc_peerConnectionId p) N1 l0) as (G1 & _ & _).
  assert (S1 : stateOf (_states (fold_left visit l1 l0)) (pc_peerConnectionId p)
               = stateOf this (pc_peerConnectionId p))
    by (unfold stateOf; rewrite G1; reflexivity).
  destruct (visit_gets_congested (fold_left visit l1 l0) p) as (V1 & V2 & V3);
    [rewrite S1; exact W | exact C |].
  destruct (fold_visit_keeps l2 (pc_peerConnectionId p) N2
              (visit (fold_left visit l1 l0) p)) as (K1 & K2 & K3).
  unfold update. fold l0. rewrite F. simpl.
  rewrite (K2 V2). split.
  - rewrite congestionEvents_app, fold_visit_congestionEvents,
            visit_congestionEvents, fold_visit_congestionEvents.
    reflexivity.
  - rewrite (get_filter _ _ _ (K3 V3)), K1, V1, S1. reflexivity.
Qed.

(** The state object after an iteration that found the peer connection
    congested for the first time. *)
Lemma nextState_gets_congested (state : PeerConnectionState)
                               (p : PeerConnectionEntry) :
  congested state = false ->
  isCongested p = true ->
  nextState state p
  = {| peerConnectionId := peerConnectionId state;
       congested := true;
       outgoingBitrateBeforeCongestion := outgoingBitrateBeforeCongestion state;
       outgoingBitrateAfterCongestion :=
         orElse (ofPair (selectedCandidatePair p) availableOutgoingBitrate)
                (outgoingBitrateAfterCongestion state);
       incomingBitrateBeforeCongestion := incomingBitrateBeforeCongestion state;
       incomingBitrateAfterCongestion :=
         orElse (ofPair (selectedCandidatePair p) availableIncomingBitrate)
                (incomingBitrateAfterCongestion state) |}.
Proof.
  intros W C. unfold nextState. rewrite W, C. reflexivity.
Qed.

End Congestion.

(** C8, as the code has it.  Among peer connections with distinct ids,
    take one whose tracked state was not congested (or is new) and one of
    whose outbound streams reports the quality-limitation reason
    'bandwidth'.  Then [update] emits the congestion event exactly once, and
    the state of that peer connection is congested with, for each direction,
    the after-congestion bitrate equal to the available bitrate of the
    selected pair of its first transport that has one or, with no selected
    pair, of its first pair with [nominated = true], when that pair exists
    and reports the value; otherwise the state keeps the after-congestion
    value it had before the call. *)
Theorem C8_congestion_event
    (this : CongestionDetector.States)
    (peerConnections : list CongestionDetector.PeerConnectionEntry)
    (p : CongestionDetector.PeerConnectionEntry) :
  NoDup (map CongestionDetector.pc_peerConnectionId peerConnections) ->
  In p peerConnections ->
  CongestionDetector.congested
    (CongestionDetector.stateOf this (CongestionDetector.pc_peerConnectionId p))
  = false ->
  CongestionDetector.isCongested p = true ->
  let before :=
    CongestionDetector.stateOf this (CongestionDetector.pc_peerConnectionId p) in
  let candidatePair := CongestionDetector.selectedCandidatePair p in
  CongestionDetector.congestionEvents
    (snd (CongestionDetector.update this peerConnections)) = 1%nat
  /\ exists state,
       CongestionDetector.get (fst (CongestionDetector.update this peerConnections))
         (CongestionDetector.pc_peerConnectionId p) = Some state
       /\ CongestionDetector.congested state = true
       /\ CongestionDetector.incomingBitrateAfterCongestion state
          = CongestionDetector.orElse
              (CongestionDetector.ofPair candidatePair
                 CongestionDetector.availableIncomingBitrate)
              (CongestionDetector.incomingBitrateAfterCongestion before)
       /\ CongestionDetector.outgoingBitrateAfterCongestion state
          = CongestionDetector.orElse
              (CongestionDetector.ofPair candidatePair
                 CongestionDetector.availableOutgoingBitrate)
              (CongestionDetector.outgoingBitrateAfterCongestion before)
       /\ (forall cp rate,
             candidatePair = Some cp ->
             CongestionDetector.availableIncomingBitrate cp = Some rate ->
             CongestionDetector.incomingBitrateAfterCongestion state = Some rate)
       /\ (forall cp rate,
             candidatePair = Some cp ->
             CongestionDetector.availableOutgoingBitrate cp = Some rate ->
             CongestionDetector.outgoingBitrateAfterCongestion state = Some rate).
Proof.
  intros N I W C before candidatePair.
  destruct (update_gets_congested this peerConnections p N I W C) as [E G].
  split; [exact E|].
  exists (CongestionDetector.nextState before p).
  split; [exact G|].
  rewrite (nextState_gets_congested before p W C). simpl.
  fold candidatePair.
  repeat split; intros cp rate -> H; simpl; rewrite H; reflexivity.
Qed.

(** A new peer connection whose outbound stream is limited by bandwidth and
    whose selected pair reports 100 and 200. *)
Lemma C8_congestion_event_witness :
  let p := Samples.peer (Some "bandwidth"%string)
             (Samples.candidatePair (Some 100) (Some 200)) in
  CongestionDetector.congestionEvents (snd (CongestionDetector.update [] [p]))
  = 1%nat
  /\ exists state,
       CongestionDetector.get (fst (CongestionDetector.update [] [p])) "PC1"
       = Some state
       /\ CongestionDetector.incomingBitrateAfterCongestion state = Some 100.
Proof.
  cbv zeta.
  assert (N : NoDup (map CongestionDetector.pc_peerConnectionId
                       [Samples.peer (Some "bandwidth"%string)
                          (Samples.candidatePair (Some 100) (Some 200))])).
  { simpl. constructor; [intros []|constructor]. }
  destruct (C8_congestion_event []
              [Samples.peer (Some "bandwidth"%string)
                 (Samples.candidatePair (Some 100) (Some 200))]
              (Samples.peer (Some "bandwidth"%string)
                 (Samples.candidatePair (Some 100) (Some 200)))
              N (or_introl eq_refl) eq_refl eq_refl)
    as (E & state & G & _ & _ & _ & H & _).
  split; [exact E|].
  exists state. split; [exact G|].
  exact (H _ 100 eq_refl eq_refl).
Defined.

(** After a congested update with a pair that reports 100 and 200 and an
    uncongested one, the peer connection gets congested again while its
    selected pair reports no available bitrate: the state then carries the
    after-congestion bitrates 100 and 200 of the earlier episode, which are
    not those of the selected pair. *)
Lemma C8_counterexample :
  let cp := Samples.candidatePair None None in
  let p := Samples.peer (Some "bandwidth"%string) cp in
  CongestionDetector.congested
    (CongestionDetector.stateOf Samples.recovered "PC1") = false
  /\ CongestionDetector.isCongested p = true
  /\ CongestionDetector.selectedCandidatePair p = Some cp
  /\ CongestionDetector.availableIncomingBitrate cp = None
  /\ CongestionDetector.availableOutgoingBitrate cp = None
  /\ exists state,
       CongestionDetector.get
         (fst (CongestionDetector.update Samples.recovered [p])) "PC1" = Some state
       /\ CongestionDetector.incomingBitrateAfterCongestion state = Some 100
       /\ CongestionDetector.outgoingBitrateAfterCongestion state = Some 200.
Proof.
  cbv zeta. repeat split.
  eexists. split; [vm_compute; reflexivity|].
  split; reflexivity.
Qed.


(* ================================================================== *)
(** ** Further properties: samples of the entry monitors *)
(* ================================================================== *)

Lemma written_assign_None {A : Type} (p : prop A) :
  written (assign None p) = explicit p.
Proof. destruct p; reflexivity. Qed.

Lemma written_assign_explicit {A : Type} (old : option A) (p : prop A) :
  explicit p = p -> written (assign old p) = p.
Proof. destruct p; simpl; intro H; try reflexivity; discriminate. Qed.

Section IceTransportSamples.

Import IceTransportMonitor TransportCounters.

Lemma createSample_accept (this : t) (stats : S.t) :
  0 < elapsedInMs this stats ->
  createSample (accept this stats)
  = {| S.timestamp := S.timestamp stats;
       S.id := S.id stats;
       S.packetsSent := written (assign (packetsSent this) (S.packetsSent stats));
       S.packetsReceived :=
         written (assign (packetsReceived this) (S.packetsReceived stats));
       S.bytesSent := written (assign (bytesSent this) (S.bytesSent stats));
       S.bytesReceived := written (assign (bytesReceived this) (S.bytesReceived stats));
       S.iceRole := written (assign (iceRole this) (S.iceRole stats));
       S.iceLocalUsernameFragment :=
         written (assign (iceLocalUsernameFragment this)
                    (S.iceLocalUsernameFragment stats));
       S.dtlsState := written (assign (dtlsState this) (S.dtlsState stats));
       S.iceState := written (assign (iceState this) (S.iceState stats));
       S.selectedCandidatePairId :=
         written (assign (selectedCandidatePairId this)
                    (S.selectedCandidatePairId stats));
       S.localCertificateId :=
         written (assign (localCertificateId this) (S.localCertificateId stats));
       S.remoteCertificateId :=
         written (assign (remoteCertificateId this) (S.remoteCertificateId stats));
       S.tlsVersion := written (assign (tlsVersion this) (S.tlsVersion stats));
       S.dtlsCipher := written (assign (dtlsCipher this) (S.dtlsCipher stats));
       S.dtlsRole := written (assign (dtlsRole this) (S.dtlsRole stats));
       S.srtpCipher := written (assign (srtpCipher this) (S.srtpCipher stats));
       S.selectedCandidatePairChanges :=
         written (assign (selectedCandidatePairChanges this)
                    (S.selectedCandidatePairChanges stats));
       S.attachments := written (assign (attachments this) (S.attachments stats)) |}.
Proof.
  intro H. apply leb_false in H. unfold elapsedInMs in H.
  unfold createSample, accept. simpl. rewrite H.
  destruct (both (bytesSent this) _) as [[? ?]|];
    destruct (both (bytesReceived this) _) as [[? ?]|]; reflexivity.
Qed.

Lemma accept_timestamp_cases (this : t) (stats : S.t) :
  (elapsedInMs this stats <= 0 /\ timestamp (accept this stats) = timestamp this)
  \/ (0 < elapsedInMs this stats
      /\ timestamp (accept this stats) = S.timestamp stats).
Proof.
  destruct (Qlt_le_dec 0 (elapsedInMs this stats)) as [E|E].
  - right. split; [exact E | apply accept_timestamp; exact E].
  - left. split; [exact E|]. rewrite (accept_stale this stats E). reflexivity.
Qed.

Lemma accept_stored (this : t) (stats : S.t) (c : Counter) (next : number) :
  0 < elapsedInMs this stats ->
  incoming c stats = Some next ->
  stored c (accept this stats) = Some next.
Proof.
  intros H I. apply leb_false in H. unfold elapsedInMs in H.
  unfold accept. simpl. rewrite H.
  destruct (both (bytesSent this) _) as [[? ?]|];
    destruct (both (bytesReceived this) _) as [[? ?]|];
    destruct c; simpl in *;
    match goal with
    | I : read ?p = Some _ |- _ => destruct p; simpl in I; inversion I; reflexivity
    end.
Qed.

End IceTransportSamples.

(** X1.  A transport monitor sampled right after its construction gives
    back the record it was constructed from, with the optional keys the
    record lacks spelled out as [undefined]: the constructor copies every
    field, and neither [appData] nor a derived field enters the sample. *)
Theorem X1_transport_constructor_sample
    (options : IceTransportStats.t) (appData : prop record) :
  IceTransportMonitor.createSample (IceTransportMonitor.constructor options appData)
  = IceTransportStats.explicit options.
Proof.
  unfold IceTransportMonitor.createSample, IceTransportMonitor.constructor,
         IceTransportStats.explicit.
  simpl. rewrite !written_assign_None. reflexivity.
Qed.

(** X2.  A record that is newer than the stored one and carries all its
    optional keys comes back unchanged from [createSample] after it was
    accepted, whatever the monitor held before. *)
Theorem X2_transport_accept_sample
    (this : IceTransportMonitor.t) (stats : IceTransportStats.t) :
  IceTransportMonitor.timestamp this < IceTransportStats.timestamp stats ->
  IceTransportStats.explicit stats = stats ->
  IceTransportMonitor.createSample (IceTransportMonitor.accept this stats) = stats.
Proof.
  intros Ht Hc.
  assert (E : 0 < IceTransportMonitor.elapsedInMs this stats)
    by (unfold IceTransportMonitor.elapsedInMs; lra).
  rewrite (createSample_accept this stats E).
  destruct stats. unfold IceTransportStats.explicit in Hc. simpl in *.
  injection Hc as H1 H2 H3 H4 H5 H6 H7 H8 H9 H10 H11 H12 H13 H14 H15 H16 H17.
  rewrite (written_assign_explicit _ _ H1), (written_assign_explicit _ _ H2),
          (written_assign_explicit _ _ H3), (written_assign_explicit _ _ H4),
          (written_assign_explicit _ _ H5), (written_assign_explicit _ _ H6),
          (written_assign_explicit _ _ H7), (written_assign_explicit _ _ H8),
          (written_assign_explicit _ _ H9), (written_assign_explicit _ _ H10),
          (written_assign_explicit _ _ H11), (written_assign_explicit _ _ H12),
          (written_assign_explicit _ _ H13), (written_assign_explicit _ _ H14),
          (written_assign_explicit _ _ H15), (written_assign_explicit _ _ H16),
          (written_assign_explicit _ _ H17).
  reflexivity.
Qed.

(** The second report of [Samples] with its optional keys spelled out. *)
Lemma X2_transport_accept_sample_witness :
  IceTransportMonitor.createSample
    (IceTransportMonitor.accept Samples.transport
       (IceTransportStats.explicit Samples.report2))
  = IceTransportStats.explicit Samples.report2.
Proof.
  apply X2_transport_accept_sample; reflexivity.
Defined.

(** X3.  Over every sequence of [accept] calls the stored timestamp is the
    largest timestamp seen: it is not below the one the monitor started
    with nor below the one of any accepted record, and it is one of them. *)
Theorem X3_transport_timestamp_is_maximum
    (this : IceTransportMonitor.t) (l : list IceTransportStats.t) :
  let final := IceTransportMonitor.timestamp (IceTransportMonitor.accept_all this l) in
  IceTransportMonitor.timestamp this <= final
  /\ (forall stats, In stats l -> IceTransportStats.timestamp stats <= final)
  /\ (final = IceTransportMonitor.timestamp this
      \/ exists stats, In stats l /\ final = IceTransportStats.timestamp stats).
Proof.
  revert this. induction l as [|s r IH]; intro this; cbv zeta.
  - simpl. split; [lra|]. split; [intros ? []|left; reflexivity].
  - rewrite accept_all_cons.
    destruct (IH (IceTransportMonitor.accept this s)) as (A & B & C).
    destruct (accept_timestamp_cases this s) as [[E T]|[E T]];
      unfold IceTransportMonitor.elapsedInMs in E; rewrite T in A, C.
    + split; [exact A|]. split.
      * intros stats [<-|I]; [lra | apply B; exact I].
      * destruct C as [C|(x & I & C)]; [left; exact C|].
        right. exists x. split; [right; exact I | exact C].
    + split; [lra|]. split.
      * intros stats [<-|I]; [exact A | apply B; exact I].
      * right. destruct C as [C|(x & I & C)].
        -- exists s. split; [left; reflexivity | exact C].
        -- exists x. split; [right; exact I | exact C].
Qed.

Section DeltaTelescope.

Import IceTransportMonitor TransportCounters.

Lemma deltaSum_telescopes (c : Counter) (l : list S.t) :
  forall this first last,
    allRecompute c this l ->
    stored c this = Some first ->
    stored c (accept_all this l) = Some last ->
    deltaSum c this l == last - first.
Proof.
  induction l as [|s r IH]; intros this first last R F L.
  - simpl in *. rewrite F in L. inversion L. lra.
  - destruct R as [R1 R2]. rewrite accept_all_cons in L.
    pose proof R1 as (E & T1 & T2).
    destruct (incoming c s) as [next|] eqn:I; [|discriminate].
    assert (D : delta c (accept this s) = Some (next - first)).
    { apply accept_delta_recomputed; assumption. }
    pose proof (accept_stored this s c next E I) as St.
    simpl. rewrite D. simpl.
    rewrite (IH (accept this s) next last R2 St L). lra.
Qed.

End DeltaTelescope.

(** X4.  When every call of a sequence of [accept] calls assigns the delta
    of a counter, the deltas read after the calls add up to the stored
    counter after the last call minus the stored counter before the
    first. *)
Theorem X4_transport_deltas_add_up
    (c : TransportCounters.Counter) (this : IceTransportMonitor.t)
    (l : list IceTransportStats.t) (first last : number) :
  TransportCounters.allRecompute c this l ->
  TransportCounters.stored c this = Some first ->
  TransportCounters.stored c (IceTransportMonitor.accept_all this l) = Some last ->
  TransportCounters.deltaSum c this l == last - first.
Proof. apply deltaSum_telescopes. Qed.

(** Three reports: 1000, 3000 and 3500 sent bytes. *)
Lemma X4_transport_deltas_add_up_witness :
  TransportCounters.deltaSum TransportCounters.BytesSent Samples.transport
    [Samples.report2;
     Samples.transportStats 3000 (Value 35) (Value 95) (Value 3500) (Value 9500)]
  == 3500 - 1000.
Proof.
  apply X4_transport_deltas_add_up.
  - simpl. unfold TransportCounters.recomputes. repeat split.
  - reflexivity.
  - reflexivity.
Defined.

Section IceCandidateSamples.

Import IceCandidateMonitor.

Lemma candidate_createSample_accept (this : t) (stats : S.t) :
  timestamp this < S.timestamp stats ->
  createSample (accept this stats)
  = ({| S.timestamp := S.timestamp stats;
        S.id := S.id stats;
        S.transportId := written (assign (transportId this) (S.transportId stats));
        S.address := written (assign (address this) (S.address stats));
        S.port := written (assign (port this) (S.port stats));
        S.protocol := written (assign (protocol this) (S.protocol stats));
        S.candidateType :=
          written (assign (candidateType this) (S.candidateType stats));
        S.priority := written (assign (priority this) (S.priority stats));
        S.url := written (assign (url this) (S.url stats));
        S.relayProtocol :=
          written (assign (relayProtocol this) (S.relayProtocol stats));
        S.foundation := written (assign (foundation this) (S.foundation stats));
        S.relatedAddress :=
          written (assign (relatedAddress this) (S.relatedAddress stats));
        S.relatedPort := written (assign (relatedPort this) (S.relatedPort stats));
        S.usernameFragment :=
          written (assign (usernameFragment this) (S.usernameFragment stats));
        S.tcpType := written (assign (tcpType this) (S.tcpType stats)) |},
     written (appData this)).
Proof.
  intro H.
  assert (E : leb (S.timestamp stats - timestamp this) 0 = false)
    by (apply leb_false; lra).
  unfold createSample, accept. simpl. rewrite E. reflexivity.
Qed.

Lemma candidate_accept_all_cons (this : t) (stats : S.t) (l : list S.t) :
  accept_all this (stats :: l) = accept_all (accept this stats) l.
Proof. reflexivity. Qed.

(** Records that are not newer leave the sample of a monitor alone. *)
Lemma candidate_stale_sample (l : list S.t) :
  forall this,
    (forall stats, In stats l -> S.timestamp stats <= timestamp this) ->
    createSample (accept_all this l) = createSample this.
Proof.
  induction l as [|s r IH]; intros this H; [reflexivity|].
  rewrite candidate_accept_all_cons.
  rewrite (candidate_accept_stale this s (H s (or_introl eq_refl))).
  rewrite IH; [reflexivity|].
  intros stats I. simpl. apply H. right. exact I.
Qed.

End IceCandidateSamples.

(** X5.  The constructor of the candidate monitor keeps the id and the
    timestamp of its record and nothing else: the sample of a candidate
    monitor shows every optional field and [appData] as [undefined], and
    stays so over every sequence of [accept] calls none of whose records is
    newer than the constructing one, the constructing record itself
    included. *)
Theorem X5_candidate_constructor_keeps_id_only
    (options : IceCandidateStats.t) (l : list IceCandidateStats.t) :
  (forall stats,
     In stats l ->
     IceCandidateStats.timestamp stats <= IceCandidateStats.timestamp options) ->
  IceCandidateMonitor.createSample
    (IceCandidateMonitor.accept_all (IceCandidateMonitor.constructor options) l)
  = (IceCandidateStats.blank (IceCandidateStats.timestamp options)
       (IceCandidateStats.id options),
     Undefined).
Proof.
  intro H.
  rewrite (candidate_stale_sample l (IceCandidateMonitor.constructor options) H).
  reflexivity.
Qed.

(** A candidate constructed from a record with an address and a transport
    id, which then receives the same record again. *)
Lemma X5_candidate_constructor_keeps_id_only_witness :
  let options := Samples.candidateStats 1000 (Value "10.0.0.1"%string) in
  IceCandidateMonitor.createSample
    (IceCandidateMonitor.accept_all (IceCandidateMonitor.constructor options)
       [options])
  = (IceCandidateStats.blank 1000 "C1", Undefined).
Proof.
  cbv zeta.
  apply (X5_candidate_constructor_keeps_id_only
           (Samples.candidateStats 1000 (Value "10.0.0.1"%string))
           [Samples.candidateStats 1000 (Value "10.0.0.1"%string)]).
  intros stats [<-|[]]. vm_compute. discriminate.
Defined.

(** X6.  A record that is newer than the stored one and carries all its
    optional keys comes back unchanged from [createSample] of the candidate
    monitor after it was accepted, next to the [appData] the monitor held,
    which [accept] does not touch. *)
Theorem X6_candidate_accept_sample
    (this : IceCandidateMonitor.t) (stats : IceCandidateStats.t) :
  IceCandidateMonitor.timestamp this < IceCandidateStats.timestamp stats ->
  IceCandidateStats.explicit stats = stats ->
  IceCandidateMonitor.createSample (IceCandidateMonitor.accept this stats)
  = (stats, written (IceCandidateMonitor.appData this)).
Proof.
  intros Ht Hc.
  rewrite (candidate_createSample_accept this stats Ht).
  destruct stats. unfold IceCandidateStats.explicit in Hc. simpl in *.
  injection Hc as H1 H2 H3 H4 H5 H6 H7 H8 H9 H10 H11 H12 H13.
  rewrite (written_assign_explicit _ _ H1), (written_assign_explicit _ _ H2),
          (written_assign_explicit _ _ H3), (written_assign_explicit _ _ H4),
          (written_assign_explicit _ _ H5), (written_assign_explicit _ _ H6),
          (written_assign_explicit _ _ H7), (written_assign_explicit _ _ H8),
          (written_assign_explicit _ _ H9), (written_assign_explicit _ _ H10),
          (written_assign_explicit _ _ H11), (written_assign_explicit _ _ H12),
          (written_assign_explicit _ _ H13).
  reflexivity.
Qed.

(** A candidate constructed at 1000 ms receives at 2000 ms a record with
    all keys spelled out. *)
Lemma X6_candidate_accept_sample_witness :
  let stats :=
    IceCandidateStats.explicit (Samples.candidateStats 2000 (Value "10.0.0.1"%string)) in
  fst (IceCandidateMonitor.createSample
         (IceCandidateMonitor.accept
            (IceCandidateMonitor.constructor (Samples.candidateStats 1000 Missing))
            stats))
  = stats.
Proof.
  cbv zeta.
  rewrite (X6_candidate_accept_sample
             (IceCandidateMonitor.constructor (Samples.candidateStats 1000 Missing))
             (IceCandidateStats.explicit
                (Samples.candidateStats 2000 (Value "10.0.0.1"%string)))
             eq_refl eq_refl).
  reflexivity.
Defined.

(* ================================================================== *)
(** ** Further properties: OutboundTrackMonitor *)
(* ================================================================== *)

Section HighestLayer.

Import OutboundTrackMonitor.

Lemma higher_keeps (seen : list OutboundRtp) (acc : option OutboundRtp * number)
                   (x : OutboundRtp) :
  highestSoFar seen acc -> highestSoFar (seen ++ [x]) (higher acc x).
Proof.
  destruct acc as [hl hb]. intros (P & M & R). simpl in *.
  unfold higher.
  destruct (rtp_bitrate x) as [b|] eqn:B.
  - destruct (truthy (Some b) && ltb hb b) eqn:G.
    + apply andb_true_iff in G. destruct G as [_ G]. apply ltb_true in G.
      split; [simpl; lra|]. split.
      * simpl. intros y c Iy By. apply in_app_or in Iy.
        destruct Iy as [Iy|[<-|[]]].
        -- specialize (M y c Iy By). lra.
        -- rewrite B in By. inversion By. lra.
      * simpl. split; [apply in_or_app; right; left; reflexivity|].
        split; [exact B | lra].
    + split; [exact P|]. split.
      * simpl. intros y c Iy By. apply in_app_or in Iy.
        destruct Iy as [Iy|[<-|[]]]; [exact (M y c Iy By)|].
        rewrite B in By. inversion By. subst c.
        apply andb_false_iff in G. destruct G as [G|G].
        -- simpl in G. apply negb_false_iff in G. apply Qeq_bool_iff in G.
           rewrite G. exact P.
        -- apply ltb_false in G. exact G.
      * simpl. destruct hl as [r|]; [|exact R].
        destruct R as (R1 & R2 & R3).
        split; [apply in_or_app; left; exact R1 | auto].
  - split; [exact P|]. split.
    + simpl. intros y c Iy By. apply in_app_or in Iy.
      destruct Iy as [Iy|[<-|[]]]; [exact (M y c Iy By)|].
      rewrite B in By. discriminate.
    + simpl. destruct hl as [r|]; [|exact R].
      destruct R as (R1 & R2 & R3).
      split; [apply in_or_app; left; exact R1 | auto].
Qed.

Lemma fold_higher_keeps (l : list OutboundRtp) :
  forall seen acc,
    highestSoFar seen acc -> highestSoFar (seen ++ l) (fold_left higher l acc).
Proof.
  induction l as [|x l IH]; intros seen acc H; simpl.
  - rewrite app_nil_r. exact H.
  - replace (seen ++ x :: l) with ((seen ++ [x]) ++ l)
      by (rewrite <- app_assoc; reflexivity).
    apply IH. apply higher_keeps. exact H.
Qed.

Lemma fold_higher_all (l : list OutboundRtp) :
  highestSoFar l (fold_left higher l (None, 0)).
Proof.
  apply (fold_higher_keeps l [] (None, 0)).
  split; [simpl; lra|]. split; [intros ? ? []|reflexivity].
Qed.

End HighestLayer.

(** X7.  [getHighestLayer] returns one of the layers of the track.  With two
    or more layers it returns a layer whose bitrate is positive and not
    below the bitrate of any layer, and nothing when no layer has a positive
    bitrate; a track with a single layer gets that layer whatever its
    bitrate, and a track without layers gets nothing. *)
Theorem X7_highest_layer (this : OutboundTrackMonitor.t) :
  let layers := OutboundTrackMonitor.getOutboundRtps this in
  (forall r,
     OutboundTrackMonitor.getHighestLayer this = Some r ->
     In r layers
     /\ ((2 <= List.length layers)%nat ->
         exists b,
           OutboundTrackMonitor.rtp_bitrate r = Some b
           /\ 0 < b
           /\ forall x b',
                In x layers -> OutboundTrackMonitor.rtp_bitrate x = Some b' ->
                b' <= b))
  /\ (OutboundTrackMonitor.getHighestLayer this = None <->
      layers = []
      \/ ((2 <= List.length layers)%nat
          /\ forall x b,
               In x layers -> OutboundTrackMonitor.rtp_bitrate x = Some b ->
               b <= 0))
  /\ (forall only, layers = [only] ->
        OutboundTrackMonitor.getHighestLayer this = Some only).
Proof.
  cbv zeta. unfold OutboundTrackMonitor.getHighestLayer.
  pose proof (fold_higher_all (OutboundTrackMonitor.getOutboundRtps this)) as H.
  destruct (OutboundTrackMonitor.getOutboundRtps this) as [|a [|b rest]] eqn:L.
  - split; [intros r E; discriminate|]. split.
    + split; [left; reflexivity | reflexivity].
    + intros only E. discriminate.
  - split.
    + intros r E. inversion E. subst r. split; [left; reflexivity|].
      simpl. lia.
    + split.
      * split; [discriminate|]. intros [E|[E _]]; [discriminate | simpl in E; lia].
      * intros only E. inversion E. reflexivity.
  - destruct (fold_left OutboundTrackMonitor.higher (a :: b :: rest) (None, 0))
      as [hl hb].
    destruct H as (P & M & R). simpl in P, M, R. simpl fst.
    split; [|split].
    + intros r E. subst hl. destruct R as (R1 & R2 & R3).
      split; [exact R1|]. intros _. exists hb. auto.
    + split.
      * intros E. subst hl. simpl in R. subst hb. right.
        split; [simpl; lia | exact M].
      * intros [E|[_ A]]; [discriminate|].
        destruct hl as [r|]; [|reflexivity].
        destruct R as (R1 & R2 & R3).
        specialize (A r hb R1 R2). exfalso. exact (Qlt_not_le _ _ R3 A).
    + intros only E. discriminate.
Qed.

(** The two layers of the track of [Samples]: the first one carries 64000,
    the second one reports no bitrate. *)
Lemma X7_highest_layer_witness :
  exists r b,
    OutboundTrackMonitor.getHighestLayer Samples.track = Some r
    /\ OutboundTrackMonitor.rtp_bitrate r = Some b
    /\ 0 < b.
Proof.
  destruct (proj1 (X7_highest_layer Samples.track) _ eq_refl) as [_ H].
  destruct (H ltac:(simpl; lia)) as (b & B & P & _).
  eexists. exists b. split; [reflexivity|]. split; [exact B | exact P].
Defined.

Section TrackTotals.

Import OutboundTrackMonitor.



End TrackTotals.



(* ================================================================== *)
(** ** Further properties: CongestionDetector *)
(* ================================================================== *)

Section CongestionMore.

Import CongestionDetector.

Lemma has_In (ids : list string) (k : string) : has ids k = true <-> In k ids.
Proof.
  unfold has. rewrite existsb_exists. split.
  - intros (x & I & E). apply String.eqb_eq in E. subst x. exact I.
  - intro I. exists k. split; [exact I | apply String.eqb_refl].
Qed.

Lemma get_filter_out (ids : list string) (m : States) (k : string) :
  has ids k = false ->
  get (filter (fun entry => has ids (fst entry)) m) k = None.
Proof.
  intro H. induction m as [|[k' v'] m IH]; simpl; [reflexivity|].
  destruct (has ids k') eqn:E; simpl; [|exact IH].
  destruct (String.eqb k' k) eqn:K; [|exact IH].
  apply String.eqb_eq in K. subst k'. congruence.
Qed.

Lemma get_set_present (m : States) (k k' : string) (v : PeerConnectionState) :
  get m k <> None -> get (set m k' v) k <> None.
Proof.
  intro H. destruct (String.eqb k' k) eqn:E.
  - apply String.eqb_eq in E. subst k'. rewrite get_set_same. discriminate.
  - rewrite get_set_other; [exact H|]. intro F. subst k'.
    rewrite String.eqb_refl in E. discriminate.
Qed.

Lemma fold_visit_visited (pcs : list PeerConnectionEntry) :
  forall l,
    visitedPeerConnectionIds (fold_left visit pcs l)
    = visitedPeerConnectionIds l ++ map pc_peerConnectionId pcs.
Proof.
  induction pcs as [|pc pcs IH]; intro l; simpl.
  - rewrite app_nil_r. reflexivity.
  - rewrite IH. unfold visit. simpl. rewrite <- app_assoc. reflexivity.
Qed.

Lemma fold_visit_present (pcs : list PeerConnectionEntry) (k : string) :
  forall l,
    get (_states l) k <> None \/ In k (map pc_peerConnectionId pcs) ->
    get (_states (fold_left visit pcs l)) k <> None.
Proof.
  induction pcs as [|pc pcs IH]; intros l H; simpl.
  - destruct H as [H|[]]. exact H.
  - apply IH. destruct H as [H|[H|H]].
    + left. unfold visit. simpl. apply get_set_present. exact H.
    + left. unfold visit. simpl. rewrite H. rewrite get_set_same. discriminate.
    + right. exact H.
Qed.

(** What the main loop leaves for a peer connection, among peer connections
    with distinct ids. *)
Lemma update_get (this : States) (pcs : list PeerConnectionEntry)
                 (p : PeerConnectionEntry) :
  NoDup (map pc_peerConnectionId pcs) ->
  In p pcs ->
  get (fst (update this pcs)) (pc_peerConnectionId p)
  = Some (nextState (stateOf this (pc_peerConnectionId p)) p).
Proof.
  intros N I.
  destruct (in_split p pcs I) as (l1 & l2 & E).
  destruct (NoDup_split pcs l1 l2 p N E) as [N1 N2].
  set (l0 := {| _states := this; visitedPeerConnectionIds := [];
                gotCongested := false; emitted := [] |}).
  assert (F : fold_left visit pcs l0
              = fold_left visit l2 (visit (fold_left visit l1 l0) p))
    by (rewrite E, fold_left_app; reflexivity).
  destruct (fold_visit_keeps l1 (pc_peerConnectionId p) N1 l0) as (G1 & _ & _).
  assert (S1 : stateOf (_states (fold_left visit l1 l0)) (pc_peerConnectionId p)
               = stateOf this (pc_peerConnectionId p))
    by (unfold stateOf; rewrite G1; reflexivity).
  destruct (fold_visit_keeps l2 (pc_peerConnectionId p) N2
              (visit (fold_left visit l1 l0) p)) as (K1 & _ & _).
  unfold update. fold l0. simpl.
  rewrite get_filter.
  - rewrite F, K1. unfold visit at 1. simpl. rewrite get_set_same, S1. reflexivity.
  - apply has_In. rewrite fold_visit_visited. simpl.
    apply in_map. exact I.
Qed.

Lemma nextState_congested (state : PeerConnectionState) (p : PeerConnectionEntry) :
  congested (nextState state p) = isCongested p.
Proof.
  unfold nextState.
  destruct (isCongested p), (congested state); reflexivity.
Qed.

(** A loop over peer connections whose status has not changed emits
    nothing and leaves [gotCongested] alone. *)
Lemma fold_visit_quiet (pcs : list PeerConnectionEntry) :
  NoDup (map pc_peerConnectionId pcs) ->
  forall l,
    (forall p, In p pcs ->
       congested (stateOf (_states l) (pc_peerConnectionId p)) = isCongested p) ->
    emitted (fold_left visit pcs l) = emitted l
    /\ gotCongested (fold_left visit pcs l) = gotCongested l.
Proof.
  induction pcs as [|q pcs IH]; intros N l H; simpl; [auto|].
  simpl in N. inversion N as [|? ? Nq N']. subst.
  assert (Q : congested (stateOf (_states l) (pc_peerConnectionId q))
              = isCongested q) by (apply H; left; reflexivity).
  destruct (IH N' (visit l q)) as [A B].
  - intros p I.
    assert (D : pc_peerConnectionId q <> pc_peerConnectionId p).
    { intro E. apply Nq. rewrite E. apply in_map. exact I. }
    unfold stateOf. rewrite (visit_get_other l q _ D).
    apply H. right. exact I.
  - rewrite A, B. unfold visit. simpl. rewrite Q.
    rewrite Bool.eqb_reflx. auto.
Qed.

Lemma fold_visit_gotCongested (pcs : list PeerConnectionEntry) :
  forall l,
    gotCongested (fold_left visit pcs l) = true ->
    gotCongested l = true \/ exists p, In p pcs /\ isCongested p = true.
Proof.
  induction pcs as [|q pcs IH]; intros l H; simpl in H; [left; exact H|].
  destruct (IH _ H) as [G|(p & I & C)].
  - unfold visit in G. simpl in G.
    destruct (Bool.eqb _ _); [left; exact G|].
    destruct (isCongested q) eqn:C.
    + right. exists q. split; [left; reflexivity | exact C].
    + rewrite andb_false_r in G. left. exact G.
  - right. exists p. split; [right; exact I | exact C].
Qed.

Lemma get_In (m : States) (k : string) (v : PeerConnectionState) :
  get m k = Some v -> In v (map snd m).
Proof.
  induction m as [|[k' v'] m IH]; simpl; [discriminate|].
  destruct (String.eqb k' k); intro H.
  - inversion H. left. reflexivity.
  - right. apply IH. exact H.
Qed.

End CongestionMore.

(** X9.  After [update] the detector tracks exactly the peer connections of
    that call: every peer connection passed in has a state, and the state
    of every id that was not passed in is gone. *)
Theorem X9_congestion_states_follow_input
    (this : CongestionDetector.States)
    (peerConnections : list CongestionDetector.PeerConnectionEntry) (k : string) :
  CongestionDetector.get (fst (CongestionDetector.update this peerConnections)) k
  <> None
  <-> In k (map CongestionDetector.pc_peerConnectionId peerConnections).
Proof.
  unfold CongestionDetector.update. simpl.
  set (l := fold_left CongestionDetector.visit peerConnections _).
  assert (V : CongestionDetector.visitedPeerConnectionIds l
              = map CongestionDetector.pc_peerConnectionId peerConnections)
    by (unfold l; rewrite fold_visit_visited; reflexivity).
  destruct (CongestionDetector.has (CongestionDetector.visitedPeerConnectionIds l) k)
    eqn:H.
  - rewrite get_filter by exact H.
    apply has_In in H. rewrite V in H. split; [intros _; exact H|intros _].
    unfold l. apply fold_visit_present. right. exact H.
  - rewrite get_filter_out by exact H.
    split; [intro F; exfalso; apply F; reflexivity|].
    intro I. rewrite <- V in I. apply has_In in I. congruence.
Qed.

(** X10.  Among peer connections with distinct ids, an [update] in which
    every peer connection has the congestion status the detector already
    holds for it emits no event at all; in particular a second [update]
    with the same peer connections is silent. *)
Theorem X10_congestion_silent_without_change
    (this : CongestionDetector.States)
    (peerConnections : list CongestionDetector.PeerConnectionEntry) :
  NoDup (map CongestionDetector.pc_peerConnectionId peerConnections) ->
  ((forall p,
      In p peerConnections ->
      CongestionDetector.congested
        (CongestionDetector.stateOf this (CongestionDetector.pc_peerConnectionId p))
      = CongestionDetector.isCongested p) ->
   snd (CongestionDetector.update this peerConnections) = [])
  /\ snd (CongestionDetector.update
            (fst (CongestionDetector.update this peerConnections))
            peerConnections) = [].
Proof.
  intro N.
  assert (A : forall st,
             (forall p,
                In p peerConnections ->
                CongestionDetector.congested
                  (CongestionDetector.stateOf st
                     (CongestionDetector.pc_peerConnectionId p))
                = CongestionDetector.isCongested p) ->
             snd (CongestionDetector.update st peerConnections) = []).
  { intros st H. unfold CongestionDetector.update. simpl.
    destruct (fold_visit_quiet peerConnections N
                {| CongestionDetector._states := st;
                   CongestionDetector.visitedPeerConnectionIds := [];
                   CongestionDetector.gotCongested := false;
                   CongestionDetector.emitted := [] |} H) as [E G].
    rewrite G, E. reflexivity. }
  split; [apply A|].
  apply A. intros p I. unfold CongestionDetector.stateOf.
  rewrite (update_get this peerConnections p N I).
  apply nextState_congested.
Qed.

(** The congested peer connection of [Samples], passed twice in a row to a
    fresh detector. *)
Lemma X10_congestion_silent_without_change_witness :
  let p := Samples.peer (Some "bandwidth"%string)
             (Samples.candidatePair (Some 100) (Some 200)) in
  snd (CongestionDetector.update (fst (CongestionDetector.update [] [p])) [p]) = [].
Proof.
  cbv zeta.
  apply (X10_congestion_silent_without_change []
           [Samples.peer (Some "bandwidth"%string)
              (Samples.candidatePair (Some 100) (Some 200))]).
  simpl. constructor; [intros []|constructor].
Defined.

(** X11.  One [update] emits the congestion event at most once, whatever it
    is given, and not at all when no outbound stream of any peer connection
    is limited by bandwidth.  When it is emitted its payload is the list of
    states as the main loop left it, before the states of peer connections
    that were not passed in are removed: such a state is part of the
    payload. *)
Theorem X11_congestion_event_payload
    (this : CongestionDetector.States)
    (peerConnections : list CongestionDetector.PeerConnectionEntry) :
  (CongestionDetector.congestionEvents
     (snd (CongestionDetector.update this peerConnections)) <= 1)%nat
  /\ ((forall p, In p peerConnections -> CongestionDetector.isCongested p = false) ->
      CongestionDetector.congestionEvents
        (snd (CongestionDetector.update this peerConnections)) = 0%nat)
  /\ (forall states k state,
        In (CongestionDetector.Congestion states)
           (snd (CongestionDetector.update this peerConnections)) ->
        CongestionDetector.get this k = Some state ->
        ~ In k (map CongestionDetector.pc_peerConnectionId peerConnections) ->
        In state states
        /\ CongestionDetector.get
             (fst (CongestionDetector.update this peerConnections)) k = None).
Proof.
  unfold CongestionDetector.update. simpl.
  set (l0 := {| CongestionDetector._states := this;
                CongestionDetector.visitedPeerConnectionIds := [];
                CongestionDetector.gotCongested := false;
                CongestionDetector.emitted := [] |}).
  set (l := fold_left CongestionDetector.visit peerConnections l0).
  assert (Z : CongestionDetector.congestionEvents (CongestionDetector.emitted l)
              = 0%nat)
    by (unfold l; rewrite fold_visit_congestionEvents; reflexivity).
  split; [|split].
  - destruct (CongestionDetector.gotCongested l).
    + rewrite congestionEvents_app, Z. unfold CongestionDetector.congestionEvents.
      simpl. lia.
    + rewrite Z. lia.
  - intro H. destruct (CongestionDetector.gotCongested l) eqn:G; [|exact Z].
    destruct (fold_visit_gotCongested peerConnections l0 G) as [F|(p & I & C)].
    + discriminate.
    + rewrite (H p I) in C. discriminate.
  - intros states k state I G N.
    assert (P : In (CongestionDetector.Congestion states)
                   (CongestionDetector.emitted l) -> False).
    { intro J.
      assert (C : (0 < CongestionDetector.congestionEvents
                         (CongestionDetector.emitted l))%nat).
      { unfold CongestionDetector.congestionEvents.
        destruct (filter CongestionDetector.is_congestion
                    (CongestionDetector.emitted l)) eqn:F.
        - assert (In (CongestionDetector.Congestion states) [])
            by (rewrite <- F; apply filter_In; split; [exact J|reflexivity]).
          contradiction.
        - simpl. lia. }
      lia. }
    split.
    + destruct (CongestionDetector.gotCongested l).
      * apply in_app_or in I. destruct I as [I|[I|[]]]; [contradiction|].
        inversion I. apply (get_In _ k).
        destruct (fold_visit_keeps peerConnections k N l0) as (K & _ & _).
        fold l in K. rewrite K. exact G.
      * contradiction.
    + apply get_filter_out.
      destruct (CongestionDetector.has
                  (CongestionDetector.visitedPeerConnectionIds l) k) eqn:H;
        [|reflexivity].
      apply has_In in H. unfold l in H. rewrite fold_visit_visited in H.
      contradiction.
Qed.

(** The detector that tracks the recovered peer connection PC1 of [Samples]
    is given a congested peer connection PC2 only: the congestion event
    carries the state of PC1, which the same call removes. *)
Lemma X11_congestion_event_payload_witness :
  let p2 :=
    {| CongestionDetector.pc_peerConnectionId := "PC2";
       CongestionDetector.outboundRtps :=
         [{| CongestionDetector.qualityLimitationReason := Some "bandwidth"%string |}];
       CongestionDetector.transports := [];
       CongestionDetector.iceCandidatePairs := [] |} in
  exists states state,
    In (CongestionDetector.Congestion states)
       (snd (CongestionDetector.update Samples.recovered [p2]))
    /\ CongestionDetector.peerConnectionId state = "PC1"%string
    /\ In state states
    /\ CongestionDetector.get
         (fst (CongestionDetector.update Samples.recovered [p2])) "PC1" = None.
Proof.
  cbv zeta.
  set (p2 := {| CongestionDetector.pc_peerConnectionId := "PC2";
                CongestionDetector.outboundRtps :=
                  [{| CongestionDetector.qualityLimitationReason :=
                        Some "bandwidth"%string |}];
                CongestionDetector.transports := [];
                CongestionDetector.iceCandidatePairs := [] |}).
  assert (N : ~ In "PC1"%string (map CongestionDetector.pc_peerConnectionId [p2]))
    by (simpl; intros [E|[]]; discriminate).
  pose proof (proj2 (proj2 (X11_congestion_event_payload Samples.recovered [p2]))
                _ "PC1"%string _ (or_intror (or_introl eq_refl)) eq_refl N)
    as [A B].
  eexists. eexists.
  split; [right; left; reflexivity|].
  split; [|split; [exact A | exact B]].
  reflexivity.
Defined.

Section CongestionStates.

Import CongestionDetector.

Lemma visit_emitted_grows (l : Loop) (q : PeerConnectionEntry) (e : Event) :
  In e (emitted l) -> In e (emitted (visit l q)).
Proof.
  intro H. unfold visit. simpl.
  destruct (Bool.eqb _ _); [exact H|].
  destruct (negb _ && _); [apply in_or_app; left; exact H|].
  destruct (_ && negb _); [apply in_or_app; left; exact H | exact H].
Qed.

Lemma fold_visit_emitted_grows (pcs : list PeerConnectionEntry) (e : Event) :
  forall l, In e (emitted l) -> In e (emitted (fold_left visit pcs l)).
Proof.
  induction pcs as [|q pcs IH]; intros l H; simpl; [exact H|].
  apply IH. apply visit_emitted_grows. exact H.
Qed.

(** The alert state a change of status emits. *)
Lemma update_alert_state (this : States) (pcs : list PeerConnectionEntry)
                         (p : PeerConnectionEntry) :
  NoDup (map pc_peerConnectionId pcs) ->
  In p pcs ->
  congested (stateOf this (pc_peerConnectionId p)) <> isCongested p ->
  In (AlertState (isCongested p)) (snd (update this pcs)).
Proof.
  intros N I D.
  destruct (in_split p pcs I) as (l1 & l2 & E).
  destruct (NoDup_split pcs l1 l2 p N E) as [N1 N2].
  set (l0 := {| _states := this; visitedPeerConnectionIds := [];
                gotCongested := false; emitted := [] |}).
  assert (F : fold_left visit pcs l0
              = fold_left visit l2 (visit (fold_left visit l1 l0) p))
    by (rewrite E, fold_left_app; reflexivity).
  destruct (fold_visit_keeps l1 (pc_peerConnectionId p) N1 l0) as (G1 & _ & _).
  assert (S1 : stateOf (_states (fold_left visit l1 l0)) (pc_peerConnectionId p)
               = stateOf this (pc_peerConnectionId p))
    by (unfold stateOf; rewrite G1; reflexivity).
  assert (V : In (AlertState (isCongested p))
                 (emitted (visit (fold_left visit l1 l0) p))).
  { unfold visit at 1. cbn [emitted]. rewrite S1.
    destruct (congested (stateOf this (pc_peerConnectionId p))),
             (isCongested p); simpl;
      try (exfalso; apply D; reflexivity);
      apply in_or_app; right; left; reflexivity. }
  unfold update. fold l0. rewrite F. simpl.
  pose proof (fold_visit_emitted_grows l2 _ _ V) as W.
  destruct (gotCongested _); [apply in_or_app; left; exact W | exact W].
Qed.

End CongestionStates.

(** X12.  Among peer connections with distinct ids, [update] leaves for
    each of them a state under its id whose [congested] flag is the status
    seen in this call.  When the status has changed the alert state 'on' or
    'off' is emitted accordingly, and a peer connection that recovers keeps
    its after-congestion bitrates while its before-congestion bitrates are
    refreshed from the candidate pair.  When the status has not changed the
    bitrates of the other side are cleared: before-congestion while it
    stays congested, after-congestion while it stays uncongested. *)
Theorem X12_congestion_state_after_update
    (this : CongestionDetector.States)
    (peerConnections : list CongestionDetector.PeerConnectionEntry)
    (p : CongestionDetector.PeerConnectionEntry) :
  NoDup (map CongestionDetector.pc_peerConnectionId peerConnections) ->
  In p peerConnections ->
  let before :=
    CongestionDetector.stateOf this (CongestionDetector.pc_peerConnectionId p) in
  let candidatePair := CongestionDetector.selectedCandidatePair p in
  let wasCongested := CongestionDetector.congested before in
  let nowCongested := CongestionDetector.isCongested p in
  exists state,
    CongestionDetector.get (fst (CongestionDetector.update this peerConnections))
      (CongestionDetector.pc_peerConnectionId p) = Some state
    /\ CongestionDetector.congested state = nowCongested
    /\ (wasCongested <> nowCongested ->
        In (CongestionDetector.AlertState nowCongested)
           (snd (CongestionDetector.update this peerConnections)))
    /\ (wasCongested = true -> nowCongested = false ->
        CongestionDetector.incomingBitrateAfterCongestion state
        = CongestionDetector.incomingBitrateAfterCongestion before
        /\ CongestionDetector.outgoingBitrateAfterCongestion state
           = CongestionDetector.outgoingBitrateAfterCongestion before
        /\ CongestionDetector.incomingBitrateBeforeCongestion state
           = CongestionDetector.orElse
               (CongestionDetector.ofPair candidatePair
                  CongestionDetector.availableIncomingBitrate)
               (CongestionDetector.incomingBitrateBeforeCongestion before)
        /\ CongestionDetector.outgoingBitrateBeforeCongestion state
           = CongestionDetector.orElse
               (CongestionDetector.ofPair candidatePair
                  CongestionDetector.availableOutgoingBitrate)
               (CongestionDetector.outgoingBitrateBeforeCongestion before))
    /\ (wasCongested = true -> nowCongested = true ->
        CongestionDetector.incomingBitrateBeforeCongestion state = None
        /\ CongestionDetector.outgoingBitrateBeforeCongestion state = None)
    /\ (wasCongested = false -> nowCongested = false ->
        CongestionDetector.incomingBitrateAfterCongestion state = None
        /\ CongestionDetector.outgoingBitrateAfterCongestion state = None).
Proof.
  intros N I before candidatePair wasCongested nowCongested.
  exists (CongestionDetector.nextState before p).
  split; [apply update_get; assumption|].
  split; [apply nextState_congested|].
  split; [intro D; apply update_alert_state; assumption|].
  unfold CongestionDetector.nextState. fold wasCongested nowCongested candidatePair.
  split; [|split]; intros W J; rewrite W, J; simpl; repeat split.
Qed.

(** The recovered peer connection of [Samples]: congested with the
    bitrates 100 and 200, then not congested any more. *)
Lemma X12_congestion_state_after_update_witness :
  let congestedPc := Samples.peer (Some "bandwidth"%string)
                       (Samples.candidatePair (Some 100) (Some 200)) in
  let calmPc := Samples.peer (Some "none"%string)
                  (Samples.candidatePair (Some 300) (Some 400)) in
  let this := fst (CongestionDetector.update [] [congestedPc]) in
  exists state,
    CongestionDetector.get (fst (CongestionDetector.update this [calmPc])) "PC1"
    = Some state
    /\ CongestionDetector.incomingBitrateAfterCongestion state = Some 100
    /\ CongestionDetector.incomingBitrateBeforeCongestion state = Some 300
    /\ In (CongestionDetector.AlertState false)
          (snd (CongestionDetector.update this [calmPc])).
Proof.
  cbv zeta.
  assert (N : NoDup (map CongestionDetector.pc_peerConnectionId
                       [Samples.peer (Some "none"%string)
                          (Samples.candidatePair (Some 300) (Some 400))]))
    by (simpl; constructor; [intros []|constructor]).
  destruct (X12_congestion_state_after_update
              (fst (CongestionDetector.update []
                      [Samples.peer (Some "bandwidth"%string)
                         (Samples.candidatePair (Some 100) (Some 200))]))
              [Samples.peer (Some "none"%string)
                 (Samples.candidatePair (Some 300) (Some 400))]
              (Samples.peer (Some "none"%string)
                 (Samples.candidatePair (Some 300) (Some 400)))
              N (or_introl eq_refl))
    as (state & G & _ & A & R & _).
  destruct (R eq_refl eq_refl) as (R1 & _ & R3 & _).
  exists state. split; [exact G|].
  split; [rewrite R1; reflexivity|].
  split; [rewrite R3; reflexivity|].
  apply A. discriminate.
Defined.

(* ================================================================== *)
(** ** Further properties: LongPcConnectionEstablishmentDetector *)
(* ================================================================== *)

(** X13.  [update] emits if and only if the detector is enabled, it has not
    fired or the connection state is 'connected', [connectingStartedAt] is
    defined and the time since then has reached the threshold; the state of
    the connection is not asked for otherwise.  It then emits the event
    once, with the issue that carries the start and the duration, and sets
    its flag; in every other call it emits nothing and its flag stays set
    only if it was set and the call did not see 'connected' while
    enabled. *)
Theorem X13_long_connection_emits_iff
    (now : number) (config : LongPcConnectionEstablishmentDetector.Config)
    (pc : LongPcConnectionEstablishmentDetector.PeerConnection)
    (this : LongPcConnectionEstablishmentDetector.t) :
  let result := LongPcConnectionEstablishmentDetector.update now config pc this in
  let due :=
    LongPcConnectionEstablishmentDetector.disabled config = false
    /\ (LongPcConnectionEstablishmentDetector._evented this = false
        \/ LongPcConnectionEstablishmentDetector.connectionState pc
           = Some LongPcConnectionEstablishmentDetector.connected)
    /\ exists startedAt,
         LongPcConnectionEstablishmentDetector.connectingStartedAt pc = Some startedAt
         /\ LongPcConnectionEstablishmentDetector.thresholdInMs config
            <= now - startedAt in
  (snd result <> [] <-> due)
  /\ (forall startedAt,
        due ->
        LongPcConnectionEstablishmentDetector.connectingStartedAt pc = Some startedAt ->
        result
        = ({| LongPcConnectionEstablishmentDetector._evented := true |},
           [LongPcConnectionEstablishmentDetector.Emit
              (LongPcConnectionEstablishmentDetector.peerConnectionId pc);
            LongPcConnectionEstablishmentDetector.AddIssue
              (LongPcConnectionEstablishmentDetector.peerConnectionId pc)
              startedAt (now - startedAt)]))
  /\ (snd result = [] ->
      LongPcConnectionEstablishmentDetector._evented (fst result)
      = LongPcConnectionEstablishmentDetector._evented this
        && (LongPcConnectionEstablishmentDetector.disabled config
            || negb (LongPcConnectionEstablishmentDetector.is_connected
                       (LongPcConnectionEstablishmentDetector.connectionState pc)))).
Proof.
  cbv zeta. unfold LongPcConnectionEstablishmentDetector.update.
  destruct this as [evented].
  destruct (LongPcConnectionEstablishmentDetector.disabled config) eqn:D.
  { simpl. split; [|split].
    - split; [intro H; exfalso; apply H; reflexivity|].
      intros (F & _). discriminate.
    - intros s (F & _). discriminate.
    - intros _. rewrite andb_true_r. reflexivity. }
  assert (R : forall s : option LongPcConnectionEstablishmentDetector.ConnectionState,
             LongPcConnectionEstablishmentDetector._evented
               (if negb (LongPcConnectionEstablishmentDetector.is_connecting s)
                then if evented && LongPcConnectionEstablishmentDetector.is_connected s
                     then {| LongPcConnectionEstablishmentDetector._evented := false |}
                     else {| LongPcConnectionEstablishmentDetector._evented := evented |}
                else {| LongPcConnectionEstablishmentDetector._evented := evented |})
             = evented && negb (LongPcConnectionEstablishmentDetector.is_connected s)).
  { intros [[]|]; destruct evented; reflexivity. }
  simpl LongPcConnectionEstablishmentDetector._evented at 2 3 4.
  set (armed := if negb _ then _ else _).
  specialize (R (LongPcConnectionEstablishmentDetector.connectionState pc)).
  fold armed in R. simpl in R.
  assert (C : evented
              && negb (LongPcConnectionEstablishmentDetector.is_connected
                         (LongPcConnectionEstablishmentDetector.connectionState pc))
              = false
              <-> evented = false
                  \/ LongPcConnectionEstablishmentDetector.connectionState pc
                     = Some LongPcConnectionEstablishmentDetector.connected).
  { destruct evented; simpl.
    - destruct (LongPcConnectionEstablishmentDetector.connectionState pc)
        as [[]|]; simpl; split; intro H; auto; try discriminate;
        destruct H as [H|H]; discriminate.
    - split; auto. }
  destruct (LongPcConnectionEstablishmentDetector._evented armed) eqn:A.
  { simpl. split; [|split].
    - split; [intro H; exfalso; apply H; reflexivity|].
      intros (_ & F & _). apply C in F. congruence.
    - intros s (_ & F & _). apply C in F. congruence.
    - intros _. rewrite A. exact R. }
  destruct (LongPcConnectionEstablishmentDetector.connectingStartedAt pc)
    as [startedAt|] eqn:S.
  2:{ simpl. split; [|split].
      - split; [intro H; exfalso; apply H; reflexivity|].
        intros (_ & _ & s & F & _). discriminate.
      - intros s _ F. discriminate.
      - intros _. rewrite A. exact R. }
  destruct (ltb (now - startedAt)
                (LongPcConnectionEstablishmentDetector.thresholdInMs config)) eqn:L.
  { simpl. split; [|split].
    - split; [intro H; exfalso; apply H; reflexivity|].
      intros (_ & _ & s & F & T). inversion F. subst s.
      apply ltb_true in L. exfalso. exact (Qlt_not_le _ _ L T).
    - intros s (_ & _ & s' & F & T) _. inversion F. subst s'.
      apply ltb_true in L. exfalso. exact (Qlt_not_le _ _ L T).
    - intros _. rewrite A. exact R. }
  simpl. split; [|split].
  - split; [intros _|discriminate].
    split; [reflexivity|]. split; [apply C; rewrite <- R; reflexivity|].
    exists startedAt. split; [reflexivity | apply ltb_false; exact L].
  - intros s _ F. inversion F. reflexivity.
  - discriminate.
Qed.

(** The detector that fired at 4000 ms sees the connection 'connected' at
    7000 ms, with the start of connecting still at 1000 ms: it fires
    again. *)
Lemma X13_long_connection_emits_iff_witness :
  LongPcConnectionEstablishmentDetector.update 7000
    (LongPcConnectionEstablishmentDetector.c_config
       (Samples.pcCycle 7000 LongPcConnectionEstablishmentDetector.connected))
    (Samples.pc LongPcConnectionEstablishmentDetector.connected)
    {| LongPcConnectionEstablishmentDetector._evented := true |}
  = ({| LongPcConnectionEstablishmentDetector._evented := true |},
     [LongPcConnectionEstablishmentDetector.Emit "PC1";
      LongPcConnectionEstablishmentDetector.AddIssue "PC1" 1000 (7000 - 1000)]).
Proof.
  refine (proj1 (proj2
    (X13_long_connection_emits_iff 7000
       (LongPcConnectionEstablishmentDetector.c_config
          (Samples.pcCycle 7000 LongPcConnectionEstablishmentDetector.connected))
       (Samples.pc LongPcConnectionEstablishmentDetector.connected)
       {| LongPcConnectionEstablishmentDetector._evented := true |}))
    1000 _ eq_refl).
  split; [reflexivity|]. split; [right; reflexivity|].
  exists 1000. split; [reflexivity|]. vm_compute. discriminate.
Defined.

Section LongPcWhileConnected.

Import LongPcConnectionEstablishmentDetector.

Lemma update_while_connected (now : number) (config : Config) (pc : PeerConnection)
                             (this : t) (startedAt : number) :
  disabled config = false ->
  connectionState pc = Some connected ->
  connectingStartedAt pc = Some startedAt ->
  thresholdInMs config <= now - startedAt ->
  update now config pc this
  = ({| _evented := true |},
     [Emit (peerConnectionId pc);
      AddIssue (peerConnectionId pc) startedAt (now - startedAt)]).
Proof.
  intros D C S T. apply ltb_false in T.
  unfold update. rewrite D, C. simpl.
  destruct this as [[|]]; simpl; rewrite S, T; reflexivity.
Qed.

End LongPcWhileConnected.

(** X14.  The detector does not ask whether the peer connection is still
    connecting: while the connection state is 'connected' and
    [connectingStartedAt] is still defined and older than the threshold,
    every call of an enabled detector emits the event, so a run of such
    calls emits it as many times as there are calls. *)
Theorem X14_long_connection_fires_while_connected
    (this : LongPcConnectionEstablishmentDetector.t)
    (cycles : list LongPcConnectionEstablishmentDetector.Cycle) :
  (forall c,
     In c cycles ->
     LongPcConnectionEstablishmentDetector.disabled
       (LongPcConnectionEstablishmentDetector.c_config c) = false
     /\ LongPcConnectionEstablishmentDetector.connectionState
          (LongPcConnectionEstablishmentDetector.c_peerConnection c)
        = Some LongPcConnectionEstablishmentDetector.connected
     /\ exists startedAt,
          LongPcConnectionEstablishmentDetector.connectingStartedAt
            (LongPcConnectionEstablishmentDetector.c_peerConnection c)
          = Some startedAt
          /\ LongPcConnectionEstablishmentDetector.thresholdInMs
               (LongPcConnectionEstablishmentDetector.c_config c)
             <= LongPcConnectionEstablishmentDetector.c_now c - startedAt) ->
  LongPcConnectionEstablishmentDetector.emissions
    (snd (LongPcConnectionEstablishmentDetector.run this cycles))
  = List.length cycles.
Proof.
  revert this. induction cycles as [|c rest IH]; intros this H; [reflexivity|].
  rewrite longpc_run_cons.
  destruct (H c (or_introl eq_refl)) as (D & C & s & S & T).
  rewrite (update_while_connected _ _ _ this s D C S T). simpl snd. simpl fst.
  unfold LongPcConnectionEstablishmentDetector.emissions in *.
  simpl. f_equal. apply IH. intros c' I. apply H. right. exact I.
Qed.

(** Three calls at 7000, 8000 and 9000 ms on a connected peer connection
    whose connecting started at 1000 ms. *)
Lemma X14_long_connection_fires_while_connected_witness :
  LongPcConnectionEstablishmentDetector.emissions
    (snd (LongPcConnectionEstablishmentDetector.run
            LongPcConnectionEstablishmentDetector.constructor
            [Samples.pcCycle 7000 LongPcConnectionEstablishmentDetector.connected;
             Samples.pcCycle 8000 LongPcConnectionEstablishmentDetector.connected;
             Samples.pcCycle 9000 LongPcConnectionEstablishmentDetector.connected]))
  = 3%nat.
Proof.
  apply (X14_long_connection_fires_while_connected
           LongPcConnectionEstablishmentDetector.constructor
           [Samples.pcCycle 7000 LongPcConnectionEstablishmentDetector.connected;
            Samples.pcCycle 8000 LongPcConnectionEstablishmentDetector.connected;
            Samples.pcCycle 9000 LongPcConnectionEstablishmentDetector.connected]).
  intros c [<-|[<-|[<-|[]]]];
    (split; [reflexivity|]; split; [reflexivity|];
     exists 1000; split; [reflexivity|]; vm_compute; discriminate).
Defined.

(* ================================================================== *)
(** ** Further properties: AudioDesyncDetector *)
(* ================================================================== *)

Section AudioDesyncEvents.

Import AudioDesyncDetector.

(** The detector and the events of one [update], by the flag before and
    after the call. *)
Lemma update_events (now : number) (config : Config) (this : t) (r : InboundRtp) :
  let next := nextFlag config this r in
  update now config this (Some r)
  = (match desync r, next with
     | false, true =>
         {| _startedDesyncAt := Some now;
            _prevCorrectedSamples := _prevCorrectedSamples this |}
     | true, false =>
         if returnsEarly config this r then this
         else {| _startedDesyncAt := None;
                 _prevCorrectedSamples := _prevCorrectedSamples this |}
     | _, _ => this
     end,
     Some (set_desync next r),
     match desync r, next with
     | false, true => [EmitAudioDesyncTrack]
     | true, false =>
         if returnsEarly config this r then []
         else [AddIssue (trackIdentifier r) (ssrc r)
                 (if truthy (_startedDesyncAt this)
                  then Some (now - nullish (_startedDesyncAt this) 0)
                  else None)]
     | _, _ => []
     end).
Proof.
  cbv zeta. unfold update, nextFlag, returnsEarly.
  destruct (negb (String.eqb (kind r) "audio")); simpl.
  { rewrite set_desync_same. destruct (desync r); reflexivity. }
  destruct (disabled config); simpl.
  { rewrite set_desync_same. destruct (desync r); reflexivity. }
  destruct (skipped this r); simpl.
  { rewrite set_desync_same. destruct (desync r); reflexivity. }
  destruct (desync r) eqn:D; simpl.
  - destruct (ltb (fractionalCorrectionAlertOffThreshold config)
                  (fractionalCorrection this r)); reflexivity.
  - destruct (ltb (fractionalCorrectionAlertOnThreshold config)
                  (fractionalCorrection this r)); reflexivity.
Qed.

Lemma nextFlag_early (config : Config) (this : t) (r : InboundRtp) :
  returnsEarly config this r = true -> nextFlag config this r = desync r.
Proof. intro H. unfold nextFlag. rewrite H. reflexivity. Qed.

Lemma tracks_app (a b : list Event) : tracks (a ++ b) = (tracks a + tracks b)%nat.
Proof. unfold tracks. rewrite filter_app, length_app. reflexivity. Qed.

Lemma issues_app (a b : list Event) : issues (a ++ b) = (issues a + issues b)%nat.
Proof. unfold issues. rewrite filter_app, length_app. reflexivity. Qed.

Lemma run_step (this : t) (flag : bool) (c : Cycle) (rest : list Cycle) :
  let r := set_desync flag (c_inboundRtp c) in
  let u := update (c_now c) (c_config c) this (Some r) in
  run this flag (c :: rest)
  = (fst (fst (run (fst (fst u)) (nextFlag (c_config c) this r) rest)),
     snd (fst (run (fst (fst u)) (nextFlag (c_config c) this r) rest)),
     snd u ++ snd (run (fst (fst u)) (nextFlag (c_config c) this r) rest)).
Proof.
  cbv zeta. rewrite desync_run_cons.
  rewrite (update_events (c_now c) (c_config c) this
             (set_desync flag (c_inboundRtp c))).
  cbv beta iota zeta. simpl fst. simpl snd.
  change (desync (set_desync ?b ?x)) with b.
  destruct (run _ _ rest) as [[a b] e]. reflexivity.
Qed.

(** The events of a run balance with the change of the flag. *)
Lemma run_balance (cycles : list Cycle) :
  forall this flag,
    (tracks (snd (run this flag cycles)) + flagValue flag
     = issues (snd (run this flag cycles))
       + flagValue (snd (fst (run this flag cycles))))%nat.
Proof.
  induction cycles as [|c rest IH]; intros this flag; [simpl; lia|].
  rewrite run_step. cbv zeta.
  set (r := set_desync flag (c_inboundRtp c)).
  rewrite (update_events (c_now c) (c_config c) this r). cbv zeta.
  cbn [fst snd].
  rewrite tracks_app, issues_app.
  match goal with
  | |- context [run ?t ?f rest] => specialize (IH t f)
  end.
  change (desync r) with flag in *.
  destruct flag, (nextFlag (c_config c) this r) eqn:Nx;
    try (unfold tracks, issues in *; simpl in *; lia).
  destruct (returnsEarly (c_config c) this r) eqn:Re.
  - rewrite (nextFlag_early _ _ _ Re) in Nx. subst r. simpl in Nx. discriminate.
  - unfold tracks, issues in *. simpl in *. lia.
Qed.

End AudioDesyncEvents.

(** X15.  Over every run of [update] calls on one target the desync events
    and the issues alternate with the alert: the number of desync events
    plus one if the alert was on at the start equals the number of issues
    plus one if the alert is on at the end.  So from an alert that is off,
    every issue follows a desync event of its own, and at most one desync
    event is still without its issue. *)
Theorem X15_desync_events_balance
    (this : AudioDesyncDetector.t) (flag : bool)
    (cycles : list AudioDesyncDetector.Cycle) :
  let events := snd (AudioDesyncDetector.run this flag cycles) in
  let final := snd (fst (AudioDesyncDetector.run this flag cycles)) in
  (AudioDesyncDetector.tracks events + AudioDesyncDetector.flagValue flag
   = AudioDesyncDetector.issues events + AudioDesyncDetector.flagValue final)%nat.
Proof. cbv zeta. apply run_balance. Qed.

Section AudioDesyncDurations.

Import AudioDesyncDetector.




End AudioDesyncDurations.



(* ================================================================== *)
(** ** Further properties: ClientMonitor *)
(* ================================================================== *)

Section ClientMonitorCalls.

Import ClientMonitor.

Ltac expand :=
  unfold call;
  unfold close, collect, addUserMediaError, setCollectingPeriod, setSamplingTick;
  unfold sample, _setupTimer;
  unfold join, leave.

Ltac branches :=
  repeat match goal with
         | |- context [if ?b then _ else _] => destruct b eqn:?
         end.

Lemma monitor_run_cons (this : t) (c : Call) (rest : list Call) :
  run this (c :: rest)
  = (fst (run (fst (call c this)) rest),
     snd (call c this) ++ snd (run (fst (call c this)) rest)).
Proof.
  simpl. destruct (call c this) as [a b]. simpl.
  destruct (run a rest) as [x y]. reflexivity.
Qed.

Lemma callEvents_app (name : string) (a b : list Effect) :
  callEvents name (a ++ b) = (callEvents name a + callEvents name b)%nat.
Proof. unfold callEvents. rewrite filter_app, length_app. reflexivity. Qed.

Lemma samplesCreated_app (a b : list Effect) :
  samplesCreated (a ++ b) = (samplesCreated a + samplesCreated b)%nat.
Proof. unfold samplesCreated. rewrite filter_app, length_app. reflexivity. Qed.

Lemma sampledTime_app (a b : list Effect) :
  sampledTime (a ++ b) == sampledTime a + sampledTime b.
Proof.
  induction a as [|e a IH]; simpl; [lra|].
  destruct e; try exact IH. rewrite IH. lra.
Qed.

Lemma collectedTime_app (a b : list Effect) :
  collectedTime (a ++ b) == collectedTime a + collectedTime b.
Proof.
  induction a as [|e a IH]; simpl; [lra|].
  destruct e; try exact IH. rewrite IH. lra.
Qed.

(** A monitor that has not left stays so, and no call records
    [CLIENT_LEFT]. *)
Lemma call_never_left (c : Call) (this : t) :
  _left this = false ->
  _left (fst (call c this)) = false
  /\ callEvents "CLIENT_LEFT" (snd (call c this)) = 0%nat.
Proof.
  intro L. destruct this as [cr cfg tm jn lf lc ls cl tk]. simpl in L. subst lf.
  destruct c; expand;
    simpl; branches; simpl; auto.
Qed.

(** The [CLIENT_JOINED] events of a call go with the change of
    [_joined]. *)
Lemma call_joined (c : Call) (this : t) :
  (callEvents "CLIENT_JOINED" (snd (call c this)) + flagValue (_joined this)
   = flagValue (_joined (fst (call c this))))%nat.
Proof.
  destruct this as [cr cfg tm jn lf lc ls cl tk].
  destruct c; expand;
    simpl; branches; simpl in *; subst; try reflexivity; try discriminate.
Qed.

(** A closed monitor stays closed, and its calls produce nothing that
    needs an open one. *)
Lemma call_closed (c : Call) (this : t) :
  _closed this = true ->
  _closed (fst (call c this)) = true
  /\ filter needsOpen (snd (call c this)) = [].
Proof.
  intro C. destruct this as [cr cfg tm jn lf lc ls cl tk]. simpl in C. subst cl.
  destruct c; expand;
    simpl; branches; simpl; auto.
Qed.

(** The elapsed times a call announces are the advance of its clocks. *)
Lemma call_elapsed (c : Call) (this : t) :
  sampledTime (snd (call c this))
  == _lastSampledAt (fst (call c this)) - _lastSampledAt this
  /\ collectedTime (snd (call c this))
     == _lastCollectedAt (fst (call c this)) - _lastCollectedAt this.
Proof.
  destruct this as [cr cfg tm jn lf lc ls cl tk].
  destruct c; expand;
    simpl; branches; simpl; split; lra.
Qed.

End ClientMonitorCalls.

Section ClientMonitorRuns.

Import ClientMonitor.

Lemma run_never_left (calls : list Call) :
  forall this,
    _left this = false ->
    _left (fst (run this calls)) = false
    /\ callEvents "CLIENT_LEFT" (snd (run this calls)) = 0%nat.
Proof.
  induction calls as [|c rest IH]; intros this L; [simpl; auto|].
  rewrite monitor_run_cons. cbn [fst snd].
  destruct (call_never_left c this L) as [A B].
  destruct (IH _ A) as [C D].
  split; [exact C|]. rewrite callEvents_app, B, D. reflexivity.
Qed.

Lemma run_joined (calls : list Call) :
  forall this,
    (callEvents "CLIENT_JOINED" (snd (run this calls)) + flagValue (_joined this)
     = flagValue (_joined (fst (run this calls))))%nat.
Proof.
  induction calls as [|c rest IH]; intro this; [reflexivity|].
  rewrite monitor_run_cons. cbn [fst snd].
  rewrite callEvents_app.
  pose proof (call_joined c this). pose proof (IH (fst (call c this))). lia.
Qed.

Lemma run_closed (calls : list Call) :
  forall this,
    _closed this = true ->
    _closed (fst (run this calls)) = true
    /\ filter needsOpen (snd (run this calls)) = [].
Proof.
  induction calls as [|c rest IH]; intros this C; [simpl; auto|].
  rewrite monitor_run_cons. cbn [fst snd].
  destruct (call_closed c this C) as [A B].
  destruct (IH _ A) as [D E].
  split; [exact D|]. rewrite filter_app, B, E. reflexivity.
Qed.

Lemma run_elapsed (calls : list Call) :
  forall this,
    sampledTime (snd (run this calls))
    == _lastSampledAt (fst (run this calls)) - _lastSampledAt this
    /\ collectedTime (snd (run this calls))
       == _lastCollectedAt (fst (run this calls)) - _lastCollectedAt this.
Proof.
  induction calls as [|c rest IH]; intro this; [simpl; split; lra|].
  rewrite monitor_run_cons. cbn [fst snd].
  destruct (call_elapsed c this) as [A B].
  destruct (IH (fst (call c this))) as [C D].
  rewrite sampledTime_app, collectedTime_app, A, B, C, D. split; lra.
Qed.

End ClientMonitorRuns.

(** X17.  [leave] returns at once unless [_left] is already set, and
    nothing else sets it: for a monitor that has not left (as every
    constructed one), after every sequence of calls [_left] is still unset
    and no [CLIENT_LEFT] call event was ever handed to the sampler, [close]
    included. *)
Theorem X17_monitor_never_leaves
    (this : ClientMonitor.t) (calls : list ClientMonitor.Call) :
  ClientMonitor._left this = false ->
  ClientMonitor._left (fst (ClientMonitor.run this calls)) = false
  /\ ClientMonitor.callEvents "CLIENT_LEFT" (snd (ClientMonitor.run this calls))
     = 0%nat.
Proof. apply run_never_left. Qed.

(** A constructed monitor that is asked to leave and is then closed. *)
Lemma X17_monitor_never_leaves_witness :
  ClientMonitor.callEvents "CLIENT_LEFT"
    (snd (ClientMonitor.run
            (ClientMonitor.constructor
               {| ClientMonitor.collectingPeriodInMs := Some 1000;
                  ClientMonitor.samplingTick := Some 2 |} 10 10)
            [ClientMonitor.Leave 20 None; ClientMonitor.Close true 30]))
  = 0%nat.
Proof.
  apply (X17_monitor_never_leaves
           (ClientMonitor.constructor
              {| ClientMonitor.collectingPeriodInMs := Some 1000;
                 ClientMonitor.samplingTick := Some 2 |} 10 10)
           [ClientMonitor.Leave 20 None; ClientMonitor.Close true 30]).
  reflexivity.
Defined.

(** X18.  Over every sequence of calls the sampler receives [CLIENT_JOINED]
    exactly when [_joined] goes from unset to set, which happens at most
    once: the number of these events plus one if the monitor had joined
    before equals one if it has joined at the end, and zero otherwise. *)
Theorem X18_monitor_joins_once
    (this : ClientMonitor.t) (calls : list ClientMonitor.Call) :
  let events := snd (ClientMonitor.run this calls) in
  let final := fst (ClientMonitor.run this calls) in
  (ClientMonitor.callEvents "CLIENT_JOINED" events
   + ClientMonitor.flagValue (ClientMonitor._joined this)
   = ClientMonitor.flagValue (ClientMonitor._joined final))%nat
  /\ (ClientMonitor.callEvents "CLIENT_JOINED" events <= 1)%nat.
Proof.
  cbv zeta. pose proof (run_joined calls this) as H.
  split; [exact H|].
  destruct (ClientMonitor._joined (fst (ClientMonitor.run this calls)));
    simpl in H; lia.
Qed.

(** X19.  [close] on an open monitor that has not left does nothing but
    clear the storage, the collectors and the sampler: it takes no last
    sample, whatever [samplingTick] is, because [sample] returns at once
    on a closed monitor.  A closed monitor stays closed, and no later call
    announces a sample or a collection or updates the storage. *)
Theorem X19_monitor_close
    (this : ClientMonitor.t) (available : bool) (now : number)
    (calls : list ClientMonitor.Call) :
  ClientMonitor._closed this = false ->
  ClientMonitor._left this = false ->
  let closed := fst (ClientMonitor.close available now this) in
  ClientMonitor.close available now this
  = (ClientMonitor.set_timer None (ClientMonitor.set_closed true this),
     [ClientMonitor.StorageClear; ClientMonitor.CollectorsClear;
      ClientMonitor.SamplerClear])
  /\ ClientMonitor._closed (fst (ClientMonitor.run closed calls)) = true
  /\ filter ClientMonitor.needsOpen (snd (ClientMonitor.run closed calls)) = [].
Proof.
  intros C L closed.
  assert (E : ClientMonitor.close available now this
              = (ClientMonitor.set_timer None (ClientMonitor.set_closed true this),
                 [ClientMonitor.StorageClear; ClientMonitor.CollectorsClear;
                  ClientMonitor.SamplerClear])).
  { destruct this as [cr cfg tm jn lf lc ls cl tk]. simpl in C, L. subst.
    unfold ClientMonitor.close. simpl.
    destruct (ltb 0 (nullish (ClientMonitor.samplingTick cfg) 0)); reflexivity. }
  split; [exact E|].
  apply run_closed. unfold closed. rewrite E. reflexivity.
Qed.

(** A monitor with [samplingTick = 2] is closed and then asked to collect
    and to sample. *)
Lemma X19_monitor_close_witness :
  let this :=
    ClientMonitor.constructor
      {| ClientMonitor.collectingPeriodInMs := Some 1000;
         ClientMonitor.samplingTick := Some 2 |} 10 10 in
  snd (ClientMonitor.close true 30 this)
  = [ClientMonitor.StorageClear; ClientMonitor.CollectorsClear;
     ClientMonitor.SamplerClear]
  /\ filter ClientMonitor.needsOpen
       (snd (ClientMonitor.run (fst (ClientMonitor.close true 30 this))
               [ClientMonitor.Collect false true 40 true 40;
                ClientMonitor.Sample true 50]))
     = [].
Proof.
  cbv zeta.
  destruct (X19_monitor_close
              (ClientMonitor.constructor
                 {| ClientMonitor.collectingPeriodInMs := Some 1000;
                    ClientMonitor.samplingTick := Some 2 |} 10 10)
              true 30
              [ClientMonitor.Collect false true 40 true 40;
               ClientMonitor.Sample true 50]
              eq_refl eq_refl) as (A & _ & B).
  split; [rewrite A; reflexivity | exact B].
Defined.

(** X20.  The elapsed times announced with the samples of a sequence of
    calls add up to the advance of [_lastSampledAt], and those announced
    with the collections to the advance of [_lastCollectedAt].  Since a
    constructed monitor starts with [_lastSampledAt = 0], the elapsed time
    of its first sample is the clock reading itself, and all of them add up
    to the clock of the last sample. *)
Theorem X20_monitor_elapsed_times
    (this : ClientMonitor.t) (calls : list ClientMonitor.Call)
    (config : ClientMonitor.Config) (now1 now2 : number) :
  let events := snd (ClientMonitor.run this calls) in
  let final := fst (ClientMonitor.run this calls) in
  let fresh := ClientMonitor.constructor config now1 now2 in
  ClientMonitor.sampledTime events
  == ClientMonitor._lastSampledAt final - ClientMonitor._lastSampledAt this
  /\ ClientMonitor.collectedTime events
     == ClientMonitor._lastCollectedAt final - ClientMonitor._lastCollectedAt this
  /\ ClientMonitor.sampledTime (snd (ClientMonitor.run fresh calls))
     == ClientMonitor._lastSampledAt (fst (ClientMonitor.run fresh calls)).
Proof.
  cbv zeta. destruct (run_elapsed calls this) as [A B].
  split; [exact A|]. split; [exact B|].
  destruct (run_elapsed calls (ClientMonitor.constructor config now1 now2))
    as [C _].
  rewrite C.
  assert (Z : ClientMonitor._lastSampledAt
                (ClientMonitor.constructor config now1 now2) = 0).
  { unfold ClientMonitor.constructor, ClientMonitor._setupTimer. simpl.
    destruct (negb _); reflexivity. }
  rewrite Z. lra.
Qed.

Section ClientMonitorSampling.

Import ClientMonitor.

Lemma inject_nat_succ (i : nat) :
  inject_Z (Z.of_nat i) + 1 == inject_Z (Z.of_nat (S i)).
Proof.
  rewrite Nat2Z.inj_succ. unfold Z.succ. rewrite inject_Z_plus. reflexivity.
Qed.

Lemma inject_nat_le (a b : nat) :
  inject_Z (Z.of_nat a) <= inject_Z (Z.of_nat b) <-> (a <= b)%nat.
Proof.
  rewrite <- Zle_Qle. lia.
Qed.

Lemma collect_tick (this : t) (n i : nat)
      (wasUsingTURN isUsingTURN : bool) (timestamp now : number) :
  _closed this = false ->
  samplingTick (_config this) = Some (inject_Z (Z.of_nat n)) ->
  (i < n)%nat ->
  _actualCollectingTick this == inject_Z (Z.of_nat i) ->
  let r := call (Collect wasUsingTURN isUsingTURN timestamp true now) this in
  _closed (fst r) = false
  /\ samplingTick (_config (fst r)) = Some (inject_Z (Z.of_nat n))
  /\ ((S i = n /\ samplesCreated (snd r) = 1%nat
       /\ _actualCollectingTick (fst r) == inject_Z (Z.of_nat 0))
      \/ ((S i < n)%nat /\ samplesCreated (snd r) = 0%nat
          /\ _actualCollectingTick (fst r) == inject_Z (Z.of_nat (S i)))).
Proof.
  intros C S L T r. subst r.
  destruct this as [cr cfg tm jn lf lc ls cl tk]. simpl in C, S, T. subst cl.
  assert (Tr : truthy (Some (inject_Z (Z.of_nat n))) = true).
  { apply truthy_Some. intro E.
    assert (inject_Z (Z.of_nat n) <= inject_Z (Z.of_nat 0)) as Le
        by (rewrite E; apply Qle_refl).
    apply inject_nat_le in Le. lia. }
  unfold call, collect. cbn [_closed _config _actualCollectingTick
    set_lastCollectedAt set_actualCollectingTick fst snd].
  rewrite S, Tr. cbn [nullish].
  destruct (leb (inject_Z (Z.of_nat n)) (tk + 1)) eqn:E.
  - apply leb_true in E. rewrite T, inject_nat_succ in E.
    apply inject_nat_le in E.
    unfold sample, join. simpl.
    split; [destruct jn; reflexivity|].
    split; [destruct jn; exact S|].
    left. split; [lia|].
    split; [|destruct jn; reflexivity].
    destruct jn, wasUsingTURN, isUsingTURN; reflexivity.
  - apply leb_false in E. rewrite T, inject_nat_succ in E.
    assert (N : ~ (n <= Datatypes.S i)%nat).
    { intro Le. apply inject_nat_le in Le. lra. }
    simpl.
    split; [reflexivity|]. split; [exact S|].
    right. split; [lia|].
    split; [destruct wasUsingTURN, isUsingTURN; reflexivity|].
    rewrite T. apply inject_nat_succ.
Qed.

Lemma run_ticks (calls : list Call) (n : nat) :
  forall (this : t) (i : nat),
    _closed this = false ->
    samplingTick (_config this) = Some (inject_Z (Z.of_nat n)) ->
    (i < n)%nat ->
    _actualCollectingTick this == inject_Z (Z.of_nat i) ->
    Forall readyCollect calls ->
    samplesCreated (snd (run this calls)) = ((i + List.length calls) / n)%nat
    /\ _actualCollectingTick (fst (run this calls))
       == inject_Z (Z.of_nat ((i + List.length calls) mod n)).
Proof.
  induction calls as [|c rest IH]; intros this i C S L T R.
  - simpl. rewrite Nat.add_0_r, Nat.div_small, Nat.mod_small by exact L.
    split; [reflexivity | exact T].
  - inversion R as [|? ? Rc Rr]; subst.
    destruct c; simpl in Rc; try contradiction. subst.
    rewrite monitor_run_cons. cbn [fst snd]. rewrite samplesCreated_app.
    destruct (collect_tick this n i wasUsingTURN isUsingTURN timestamp0 now
                C S L T) as (C' & S' & [(E & N & T')|(E & N & T')]).
    + assert (Z : (0 < n)%nat) by lia.
      destruct (IH _ 0%nat C' S' Z T' Rr) as [A B].
      rewrite N, A. rewrite B.
      replace (i + List.length (Collect wasUsingTURN isUsingTURN timestamp0 true now :: rest))%nat
        with (0 + List.length rest + 1 * n)%nat by (simpl; lia).
      rewrite Nat.div_add by lia. rewrite Nat.Div0.mod_add.
      split; [lia | reflexivity].
    + destruct (IH _ (Datatypes.S i) C' S' E T' Rr) as [A B].
      rewrite N, A. rewrite B.
      replace (i + List.length (Collect wasUsingTURN isUsingTURN timestamp0 true now :: rest))%nat
        with (Datatypes.S i + List.length rest)%nat by (simpl; lia).
      split; reflexivity.
Qed.

End ClientMonitorSampling.

(** X21.  With [samplingTick] a whole number [n >= 1] and the tick counter
    at [i < n], a sequence of [m] collections on an open monitor whose
    sampler has a sample ready each time announces [(i + m) / n] samples,
    rounded down, and leaves the tick counter at [(i + m) mod n]: every
    [n]-th collection takes a sample. *)
Theorem X21_monitor_samples_every_tick
    (this : ClientMonitor.t) (calls : list ClientMonitor.Call) (n i : nat) :
  ClientMonitor._closed this = false ->
  ClientMonitor.samplingTick (ClientMonitor._config this)
  = Some (inject_Z (Z.of_nat n)) ->
  (i < n)%nat ->
  ClientMonitor._actualCollectingTick this == inject_Z (Z.of_nat i) ->
  Forall ClientMonitor.readyCollect calls ->
  ClientMonitor.samplesCreated (snd (ClientMonitor.run this calls))
  = ((i + List.length calls) / n)%nat
  /\ ClientMonitor._actualCollectingTick (fst (ClientMonitor.run this calls))
     == inject_Z (Z.of_nat ((i + List.length calls) mod n)).
Proof. apply run_ticks. Qed.

(** Five collections with [samplingTick = 2] give two samples. *)
Lemma X21_monitor_samples_every_tick_witness :
  ClientMonitor.samplesCreated
    (snd (ClientMonitor.run
            (ClientMonitor.constructor
               {| ClientMonitor.collectingPeriodInMs := Some 1000;
                  ClientMonitor.samplingTick := Some 2 |} 10 10)
            [ClientMonitor.Collect false false 1010 true 1010;
             ClientMonitor.Collect false true 2010 true 2010;
             ClientMonitor.Collect true true 3010 true 3010;
             ClientMonitor.Collect true true 4010 true 4010;
             ClientMonitor.Collect true false 5010 true 5010]))
  = 2%nat.
Proof.
  apply (X21_monitor_samples_every_tick
           (ClientMonitor.constructor
              {| ClientMonitor.collectingPeriodInMs := Some 1000;
                 ClientMonitor.samplingTick := Some 2 |} 10 10)
           [ClientMonitor.Collect false false 1010 true 1010;
            ClientMonitor.Collect false true 2010 true 2010;
            ClientMonitor.Collect true true 3010 true 3010;
            ClientMonitor.Collect true true 4010 true 4010;
            ClientMonitor.Collect true false 5010 true 5010]
           2%nat 0%nat).
  - reflexivity.
  - reflexivity.
  - lia.
  - reflexivity.
  - repeat constructor.
Defined.

(* ================================================================== *)
(** ** Further properties: the congestion totals *)
(* ================================================================== *)

Section CongestionTotals.

Import ClientMonitor.

Lemma truthy_false_zero (x : option number) :
  truthy x = false -> nullish x 0 == 0.
Proof.
  destruct x as [v|]; simpl; [|reflexivity].
  rewrite negb_false_iff. apply Qeq_bool_iff.
Qed.

Lemma added_cases (total x : option number) :
  (truthy x = true /\ exists v, added total x = Some v
                                /\ v == nullish total 0 + nullish x 0)
  \/ (truthy x = false /\ added total x = total).
Proof.
  unfold added. destruct x as [v|]; [|right; split; reflexivity].
  destruct (truthy (Some v)) eqn:E.
  - left. split; [reflexivity|]. eexists. split; [reflexivity|]. simpl. lra.
  - right. split; reflexivity.
Qed.

Lemma ofTotals_addState (b : Bitrate) (totals : Totals)
      (state : CongestionDetector.PeerConnectionState) :
  ofTotals b (addState totals state) = added (ofTotals b totals) (ofState b state).
Proof. destruct b; reflexivity. Qed.

Lemma fold_addState (b : Bitrate)
      (states : list CongestionDetector.PeerConnectionState) :
  forall totals,
    match ofTotals b (fold_left addState states totals) with
    | Some v =>
        v == nullish (ofTotals b totals) 0 + bitrateSum b states
        /\ (ofTotals b totals = None ->
            Exists (fun state => truthy (ofState b state) = true) states)
    | None =>
        ofTotals b totals = None
        /\ Forall (fun state => truthy (ofState b state) = false) states
    end.
Proof.
  induction states as [|s rest IH]; intro totals.
  - simpl. destruct (ofTotals b totals) as [v|].
    + split; [simpl; lra | discriminate].
    + split; [reflexivity | constructor].
  - cbn [fold_left bitrateSum]. specialize (IH (addState totals s)).
    rewrite ofTotals_addState in IH.
    destruct (added_cases (ofTotals b totals) (ofState b s))
      as [(T & v & A & V)|(T & A)]; rewrite A in IH.
    + destruct (ofTotals b (fold_left addState rest (addState totals s)))
        as [w|].
      * destruct IH as [W _]. simpl in W. split; [rewrite W, V; lra|].
        intros _. apply Exists_cons_hd. exact T.
      * destruct IH as [N _]. discriminate.
    + pose proof (truthy_false_zero _ T) as Z.
      destruct (ofTotals b (fold_left addState rest (addState totals s)))
        as [w|].
      * destruct IH as [W E]. split; [rewrite W, Z; lra|].
        intro N. apply Exists_cons_tl. exact (E N).
      * destruct IH as [N F]. split; [exact N|].
        constructor; assumption.
Qed.

End CongestionTotals.

(** X22.  Each of the four totals the congestion listener of the monitor
    adds up is [undefined] exactly when no state of the event carries that
    bitrate with a value other than 0; otherwise it is the sum of that
    bitrate over all states of the event. *)
Theorem X22_congestion_totals
    (b : ClientMonitor.Bitrate)
    (states : list CongestionDetector.PeerConnectionState) :
  match ClientMonitor.ofTotals b (ClientMonitor.onCongestion states) with
  | Some v =>
      v == ClientMonitor.bitrateSum b states
      /\ Exists (fun state => truthy (ClientMonitor.ofState b state) = true) states
  | None =>
      Forall (fun state => truthy (ClientMonitor.ofState b state) = false) states
  end.
Proof.
  unfold ClientMonitor.onCongestion.
  pose proof (fold_addState b states
                {| ClientMonitor.incomingBitrateAfterCongestion := None;
                   ClientMonitor.incomingBitrateBeforeCongestion := None;
                   ClientMonitor.outgoingBitrateAfterCongestion := None;
                   ClientMonitor.outgoingBitrateBeforeCongestion := None |}) as H.
  destruct (ClientMonitor.ofTotals b (fold_left ClientMonitor.addState states _))
    as [v|].
  - destruct H as [V E]. split.
    + rewrite V. destruct b; simpl; lra.
    + apply E. destruct b; reflexivity.
  - exact (proj2 H).
Qed.

(* ================================================================== *)
(** ** Further properties: Sender *)
(* ================================================================== *)

Section SenderCalls.

Import Sender.

Lemma createAll_codec (c : CodecConfig) (configs : list (option SenderConfig)) :
  forall shared,
    c_codec shared = Some c ->
    Forall lacksCodec configs ->
    Forall (fun sender => _codec sender = Some c) (snd (createAll configs shared)).
Proof.
  induction configs as [|config rest IH]; intros shared S L; [constructor|].
  inversion L as [|? ? Lc Lr]; subst.
  cbn [createAll]. unfold create.
  assert (A : c_codec (assignConfig shared config) = Some c).
  { destruct config as [source|]; simpl in *; [|exact S].
    rewrite Lc. exact S. }
  specialize (IH _ A Lr).
  destruct (createAll rest (assignConfig shared config)) as [shared' senders].
  simpl in *. constructor; [exact A | exact IH].
Qed.

Lemma sender_run_cons (this : t) (c : Call) (rest : list Call) :
  run this (c :: rest)
  = (fst (run (fst (call c this)) rest),
     snd (call c this) ++ snd (run (fst (call c this)) rest)).
Proof.
  simpl. destruct (call c this) as [this' effects]. simpl.
  destruct (run this' rest) as [this'' effects']. reflexivity.
Qed.

Lemma transmitted_app (a b : list Effect) :
  transmitted (a ++ b) = transmitted a ++ transmitted b.
Proof.
  induction a as [|e a IH]; [reflexivity|].
  destruct e; simpl; rewrite IH; reflexivity.
Qed.

Lemma run_transmitted (calls : list Call) :
  forall this,
    _closed (fst (run this calls)) = (_closed this || existsb
      (fun c => match c with Close => true | Send _ => false end) calls)
    /\ transmitted (snd (run this calls))
       = if _closed this then [] else sentBeforeClose calls.
Proof.
  induction calls as [|c rest IH]; intro this.
  - simpl. rewrite orb_false_r. destruct (_closed this); split; reflexivity.
  - rewrite sender_run_cons. cbn [fst snd]. rewrite transmitted_app.
    destruct (IH (fst (call c this))) as [A B]. rewrite A, B.
    destruct this as [cl cd tr]. destruct c, cl; simpl; split; reflexivity.
Qed.

End SenderCalls.

(** X23.  [Sender.create] merges its argument into the one module-level
    object [defaultConfig] and hands that object on: a codec configuration
    given to one call stays there, and every sender created later with a
    configuration that owns no [codec] key, or with none at all, is built
    with that codec rather than with the default one. *)
Theorem X23_sender_create_remembers
    (shared : Sender.SenderConstructConfig) (source : Sender.SenderConfig)
    (c : Sender.CodecConfig) (later : list (option Sender.SenderConfig)) :
  Sender.codec source = Value c ->
  Forall Sender.lacksCodec later ->
  Forall (fun sender => Sender._codec sender = Some c)
         (snd (Sender.createAll (Some source :: later) shared)).
Proof.
  intros S L. cbn [Sender.createAll]. unfold Sender.create.
  assert (A : Sender.c_codec (Sender.assignConfig shared (Some source)) = Some c)
    by (simpl; rewrite S; reflexivity).
  pose proof (createAll_codec c later _ A L) as H.
  destruct (Sender.createAll later (Sender.assignConfig shared (Some source)))
    as [shared' senders].
  simpl in *. constructor; [rewrite S; reflexivity | exact H].
Qed.

(** A sender with a codec, then one without configuration and one with a
    debounce time only. *)
Lemma X23_sender_create_remembers_witness :
  Forall (fun sender => Sender._codec sender = Some [("format", "json")]%string)
    (snd (Sender.createAll
            [Some {| Sender.codec := Value [("format", "json")]%string;
                     Sender.debounceTimeInMs := Missing |};
             None;
             Some {| Sender.codec := Missing;
                     Sender.debounceTimeInMs := Value 100 |}]
            Sender.defaultConfig)).
Proof.
  apply (X23_sender_create_remembers Sender.defaultConfig
           {| Sender.codec := Value [("format", "json")]%string;
              Sender.debounceTimeInMs := Missing |}
           [("format", "json")]%string
           [None;
            Some {| Sender.codec := Missing;
                    Sender.debounceTimeInMs := Value 100 |}]).
  - reflexivity.
  - repeat constructor.
Defined.

(** X24.  Over every sequence of [close] and [send] calls the transport is
    handed exactly the samples of the [send] calls that come before the
    first [close], in their order, and nothing for a sender that was closed
    already; the sender is closed at the end exactly when it was closed
    before or [close] was called. *)
Theorem X24_sender_sends_until_closed
    (this : Sender.t) (calls : list Sender.Call) :
  Sender.transmitted (snd (Sender.run this calls))
  = (if Sender._closed this then [] else Sender.sentBeforeClose calls)
  /\ Sender._closed (fst (Sender.run this calls))
     = (Sender._closed this
        || existsb (fun c => match c with
                             | Sender.Close => true
                             | Sender.Send _ => false
                             end) calls).
Proof.
  destruct (run_transmitted calls this) as [A B]. split; assumption.
Qed.
